(** * NewsNinja: the multi-source aggregation pipeline

    A shallow embedding of the collectors (news_scraper.py, reddit_scraper.py,
    twitter_scraper.py), the composer, translator and voice table (utils.py)
    and the request handler (backend.py).

    Python dictionaries are stdpp [gmap]s, exceptions are values of [exn],
    and every function that talks to the outside world (HTTP, the Gemini
    model, the MCP session, Murf, the file system, the clock) lives in a
    state-and-error monad [M] whose state is the history of external calls
    made so far.  What the outside world answers is an oracle: a function of
    that history and of the call. *)

From stdpp Require Import gmap strings list fin_maps pretty.
From Stdlib Require Import ZArith Ascii.

(** ** Python string operations *)

Module Py.

Definition nl : string := String "010"%char "".
Definition dq : string := String "034"%char "".
Definition apostrophe : ascii := "039"%char.

(** A Python [str] is kept as the bytes of its UTF-8 encoding, one [ascii]
    per byte.  Splitting at a newline or an apostrophe, searching an ASCII
    text, comparing and concatenating are the same on the bytes as on the
    code points; [strip] has to know the encodings of the code points it
    removes. *)
Definition bytes_of (codes : list nat) : list ascii :=
  map Stdlib.Strings.Ascii.ascii_of_nat codes.

(** The code points on which [str.isspace] holds, which are the ones
    [str.strip] removes, each as its UTF-8 encoding:
    U+0009..U+000D, U+001C..U+001F, U+0020, U+0085, U+00A0, U+1680,
    U+2000..U+200A, U+2028, U+2029, U+202F, U+205F and U+3000. *)
Definition whitespace : list (list ascii) :=
  map bytes_of
    [ [9]; [10]; [11]; [12]; [13]; [28]; [29]; [30]; [31]; [32];
      [194; 133]; [194; 160];
      [225; 154; 128];
      [226; 128; 128]; [226; 128; 129]; [226; 128; 130]; [226; 128; 131];
      [226; 128; 132]; [226; 128; 133]; [226; 128; 134]; [226; 128; 135];
      [226; 128; 136]; [226; 128; 137]; [226; 128; 138];
      [226; 128; 168]; [226; 128; 169]; [226; 128; 175];
      [226; 129; 159];
      [227; 128; 128] ].

(** [l] without the leading [w], when [l] starts with [w]. *)
Fixpoint strip_prefix (w l : list ascii) : option (list ascii) :=
  match w with
  | [] => Some l
  | a :: w' =>
      match l with
      | b :: l' => if Stdlib.Strings.Ascii.eqb a b then strip_prefix w' l' else None
      | [] => None
      end
  end.

(** [l] without its first token, when it starts with one of [tokens]. *)
Fixpoint first_token (tokens : list (list ascii)) (l : list ascii) : option (list ascii) :=
  match tokens with
  | [] => None
  | w :: tokens' =>
      match strip_prefix w l with
      | Some rest => Some rest
      | None => first_token tokens' l
      end
  end.

(** Leading tokens are removed one after the other; [fuel] bounds the
    number of removals and the length of [l] is always enough. *)
Fixpoint drop_tokens (tokens : list (list ascii)) (fuel : nat) (l : list ascii) : list ascii :=
  match fuel with
  | O => l
  | S fuel' =>
      match first_token tokens l with
      | Some rest => drop_tokens tokens fuel' rest
      | None => l
      end
  end.

Definition lstrip_bytes (l : list ascii) : list ascii :=
  drop_tokens whitespace (length l) l.

(** The same from the end: the reversed encodings are removed from the
    reversed bytes. *)
Definition rstrip_bytes (l : list ascii) : list ascii :=
  rev (drop_tokens (map (@rev ascii) whitespace) (length l) (rev l)).

(** [s.strip()].  An encoding of the list is a whole character wherever
    it is found at the start or at the end of a well-formed text: each
    begins with a byte that starts a character. *)
Definition strip (s : string) : string :=
  String.string_of_list_ascii
    (rstrip_bytes (lstrip_bytes (String.list_ascii_of_string s))).

Fixpoint split_go (sep : ascii) (cur : string) (s : string) : list string :=
  match s with
  | EmptyString => [String.rev cur]
  | String a s' =>
      if Stdlib.Strings.Ascii.eqb a sep then String.rev cur :: split_go sep EmptyString s'
      else split_go sep (String a cur) s'
  end.

(** [s.split(sep)] for a one-character separator. *)
Definition split (sep : ascii) (s : string) : list string :=
  split_go sep EmptyString s.

(** [sep.join(l)] *)
Fixpoint join (sep : string) (l : list string) : string :=
  match l with
  | [] => ""
  | x :: l' =>
      match l' with
      | [] => x
      | _ :: _ => x +:+ sep +:+ join sep l'
      end
  end.

(** [needle in s] *)
Fixpoint contains (needle s : string) : bool :=
  String.prefix needle s ||
  match s with
  | EmptyString => false
  | String _ s' => contains needle s'
  end.

(** [s.startswith(p)] *)
Definition startswith (s p : string) : bool := String.prefix p s.

(** [s.endswith(p)] *)
Definition endswith (s p : string) : bool := String.prefix (String.rev p) (String.rev s).

(** [bool(s)]: a string is truthy when it is not empty. *)
Definition truthy (s : string) : bool := negb (String.eqb s "").

(** [bool(o)] for [o] a string or [None] (what [dict.get] returns). *)
Definition truthy_opt (o : option string) : bool :=
  match o with
  | Some s => truthy s
  | None => false
  end.

(** [x in {a, b, ...}] for string literals. *)
Definition mem (x : string) (l : list string) : bool := bool_decide (x ∈ l).

(** A multi-line literal, one list element per source line. *)
Definition text (lines : list string) : string := join nl lines.

(** [posixpath.join(a, b)] *)
Definition posix_join (a b : string) : string :=
  if startswith b "/" then b
  else if negb (truthy a) || endswith a "/" then a +:+ b
  else a +:+ "/" +:+ b.

(** [posixpath.splitroot(p)], without the drive (always empty): the root
    is "//" for exactly two leading slashes, "/" for one or for three and
    more, and the rest is what follows the root. *)
Definition splitroot (p : string) : string * string :=
  match p with
  | String "/" rest1 =>
      match rest1 with
      | String "/" rest2 =>
          match rest2 with
          | String "/" _ => ("/", rest1)
          | _ => ("//", rest2)
          end
      | _ => ("/", rest1)
      end
  | _ => ("", p)
  end.

(** The components pathlib keeps: neither empty nor ".". *)
Definition path_parts (rel : string) : list string :=
  List.filter (fun x => truthy x && negb (String.eqb x ".")) (split "/" rel).

(** [str(Path(segment, ...))] on a POSIX system; [Path(a) / b] is
    [Path(a, b)]. *)
Definition path (segments : list string) : string :=
  let joined :=
    match segments with
    | [] => ""
    | a :: rest => fold_left posix_join rest a
    end in
  let '(root, rel) := splitroot joined in
  let shown := root +:+ join "/" (path_parts rel) in
  if truthy shown then shown else ".".

End Py.

(** ** Exceptions, results and the history of external calls *)

(** The [Exception] subclasses the pipeline creates or tests for; every
    other one is a [PyException] with its class name and [str(e)].  Only
    subclasses of [Exception] are values of [exn]: they are what the
    [except Exception] clauses of the code catch. *)
Inductive exn : Type :=
  | MCPOverloadedError (msg : string)
  | RequestException (msg : string)
  | HTTPException (status_code : Z) (detail : string)
  | RetryError (last_attempt : exn)
  | PyException (cls msg : string).

Definition exn_class (e : exn) : string :=
  match e with
  | MCPOverloadedError _ => "MCPOverloadedError"
  | RequestException _ => "RequestException"
  | HTTPException _ _ => "HTTPException"
  | RetryError _ => "RetryError"
  | PyException cls _ => cls
  end.

(** [str(e)].  tenacity prints a [RetryError] with the repr of its future,
    which carries an object address; only the class of the wrapped failure
    is kept here. *)
Definition exn_str (e : exn) : string :=
  match e with
  | MCPOverloadedError m => m
  | RequestException m => m
  | HTTPException c d => pretty c +:+ ": " +:+ d
  | RetryError l => "RetryError[" +:+ exn_class l +:+ "]"
  | PyException _ m => m
  end.

Inductive res (A : Type) : Type :=
  | Ok (a : A)
  | Raise (e : exn).
Arguments Ok {A} a.
Arguments Raise {A} e.

(** [genai.types.GenerationConfig(temperature=..., max_output_tokens=...)];
    the temperature is kept as the literal the source writes. *)
Record GenerationConfig : Type := {
  temperature : string;
  max_output_tokens : Z
}.

(** One constructor per external collaborator the pipeline calls. *)
Inductive event : Type :=
  | EvAcquire (limiter : string)
  | EvSleep (seconds : Z)
  | EvBrightData (url : string)
  | EvRequestsGet (url : string)
  | EvGenerateContent (prompt : string) (config : option GenerationConfig)
  | EvOpenSession
  | EvInitialize
  | EvLoadTools
  | EvCloseSession
  | EvMurfGenerate (text voice_id : string)
  | EvMkdir (path : string)
  | EvDownload (url : string)
  | EvNow
  | EvWriteBytes (path content : string)
  | EvPathExists (path : string)
  | EvReadBytes (path : string).

(** The world outside the process.  [answer h ev] is what the collaborator
    called by [ev] replies after the calls of [h]; the remaining fields are
    the pure library functions and process-wide constants the code uses
    ([repr] is the built-in on strings). *)
Record Env : Type := {
  answer : list event -> event -> res string;
  quote_plus : string -> string;
  soup_get_text : string -> string;
  two_weeks_ago_str : string;
  murf_api_key : string;
  b64encode : string -> string;
  repr : string -> string
}.

(** ** The monad of effectful Python code *)

Definition M (A : Type) : Type := list event -> res A * list event.

Definition ret {A} (a : A) : M A := fun h => (Ok a, h).

Definition raise {A} (e : exn) : M A := fun h => (Raise e, h).

Definition bind {A B} (m : M A) (k : A -> M B) : M B :=
  fun h =>
    match m h with
    | (Ok a, h') => k a h'
    | (Raise e, h') => (Raise e, h')
    end.

(** [try: m  except Exception as e: handler e] *)
Definition try_except {A} (m : M A) (handler : exn -> M A) : M A :=
  fun h =>
    match m h with
    | (Ok a, h') => (Ok a, h')
    | (Raise e, h') => handler e h'
    end.

(** A context manager: [release] runs on the way out, normal or not. *)
Definition with_resource {A} (acquire : M unit) (release : M unit) (body : M A) : M A :=
  fun h =>
    match acquire h with
    | (Raise e, h') => (Raise e, h')
    | (Ok _, h') =>
        match body h' with
        | (r, h'') => (r, snd (release h''))
        end
    end.

Notation "'let!' x ':=' m 'in' k" := (bind m (fun x => k))
  (at level 10, x pattern, m at level 100, k at level 200).

(** A call whose reply matters. *)
Definition call (E : Env) (ev : event) : M string :=
  fun h => (answer E h ev, h ++ [ev]).

(** A call that only takes time or leaves a trace (limiter, sleep, write). *)
Definition tick (ev : event) : M unit :=
  fun h => (Ok tt, h ++ [ev]).

(** ** tenacity's [@retry] *)

Record RetryConfig : Type := {
  stop_after_attempt : nat;
  wait_multiplier : Z;
  wait_min : Z;
  wait_max : Z;
  retry_if : exn -> bool;
  reraise : bool
}.

(** [wait_exponential(multiplier, min, max)] before attempt [n + 1]. *)
Definition wait_exponential (c : RetryConfig) (attempt_number : nat) : Z :=
  Z.max (Z.max 0 (wait_min c))
        (Z.min (wait_multiplier c * 2 ^ (Z.of_nat attempt_number - 1)) (wait_max c)).

(** The retrying loop.  [left] is how many more attempts may follow the
    current one; the number next to the result is tenacity's
    [statistics["attempt_number"]]. *)
Fixpoint retrying {A} (c : RetryConfig) (left attempt_number : nat) (op : M A)
    (h : list event) : (res A * nat) * list event :=
  match op h with
  | (Ok a, h') => ((Ok a, attempt_number), h')
  | (Raise e, h') =>
      if retry_if c e then
        match left with
        | O => ((Raise (if reraise c then e else RetryError e), attempt_number), h')
        | S left' =>
            retrying c left' (S attempt_number) op
              (h' ++ [EvSleep (wait_exponential c attempt_number)])
        end
      else ((Raise e, attempt_number), h')
  end.

Definition retry {A} (c : RetryConfig) (op : M A) : M A :=
  fun h =>
    match retrying c (stop_after_attempt c - 1) 1 op h with
    | ((r, _), h') => (r, h')
    end.

Definition attempts {A} (c : RetryConfig) (op : M A) (h : list event) : nat :=
  snd (fst (retrying c (stop_after_attempt c - 1) 1 op h)).

(** [retry_if_exception_type(MCPOverloadedError)] *)
Definition is_overloaded (e : exn) : bool :=
  match e with
  | MCPOverloadedError _ => true
  | _ => false
  end.

(** [retry_if_exception_type()], tenacity's default: any [Exception]. *)
Definition is_exception (e : exn) : bool := true.

(** ** utils.py: URLs, scraping, headline extraction, summarisation *)

Definition generate_valid_news_url (E : Env) (keyword : string) : string :=
  let q := quote_plus E keyword in
  "https://news.google.com/search?q=" +:+ q +:+ "&tbs=sbd:1".

Definition generate_news_urls_to_scrape (E : Env) (list_of_keywords : list string)
    : gmap string string :=
  fold_left (fun valid_urls_dict keyword =>
               <[keyword := generate_valid_news_url E keyword]> valid_urls_dict)
            list_of_keywords ∅.

(** [d[k]]; [str(KeyError(k))] is [repr(k)]. *)
Definition getitem (E : Env) (d : gmap string string) (k : string) : M string :=
  match d !! k with
  | Some v => ret v
  | None => raise (PyException "KeyError" (repr E k))
  end.

(** [requests.post] to the BrightData endpoint, [raise_for_status] and
    [.text] are one external call; a [RequestException] becomes an
    [HTTPException], anything else passes through. *)
Definition scrape_with_brightdata (E : Env) (url : string) : M string :=
  try_except (call E (EvBrightData url))
    (fun e =>
       match e with
       | RequestException _ =>
           raise (HTTPException 500 ("BrightData error: " +:+ exn_str e))
       | _ => raise e
       end).

Definition clean_html_to_text (E : Env) (html_content : string) : string :=
  let text := soup_get_text E html_content in
  Py.strip text.

(** One turn of the loop over the lines: the state is
    [(headlines, current_block)]. *)
Definition headline_step (st : list string * list string) (line : string)
    : list string * list string :=
  let '(headlines, current_block) := st in
  if String.eqb line "More" then
    match current_block with
    | first :: _ => (headlines ++ [first], [])
    | [] => (headlines, current_block)
    end
  else (headlines, current_block ++ [line]).

Definition extract_headlines (cleaned_text : string) : string :=
  let lines :=
    map Py.strip
      (List.filter (fun line => Py.truthy (Py.strip line))
                   (Py.split "010"%char cleaned_text)) in
  let '(headlines, current_block) := fold_left headline_step lines ([], []) in
  let headlines :=
    match current_block with
    | first :: _ => headlines ++ [first]
    | [] => headlines
    end in
  Py.join Py.nl headlines.

Definition news_script_system_prompt : string :=
  Py.text [
    "";
    "You are my personal news editor and scriptwriter for a news podcast. Your job is to turn raw headlines into a clean, professional, and TTS-friendly news script.";
    "";
    "The final output will be read aloud by a news anchor or text-to-speech engine. So:";
    "- Do not include any special characters, emojis, formatting symbols, or markdown.";
    ("- Do not add any preamble or framing like " +:+ Py.dq +:+ "Here's your summary" +:+ Py.dq +:+ " or " +:+ Py.dq +:+ "Let me explain" +:+ Py.dq +:+ ".");
    "- Write in full, clear, spoken-language paragraphs.";
    "- Keep the tone formal, professional, and broadcast-style — just like a real TV news script.";
    "- Focus on the most important headlines and turn them into short, informative news segments that sound natural when spoken.";
    "- Start right away with the actual script, using transitions between topics if needed.";
    "";
    "Remember: Your only output should be a clean script that is ready to be read out loud.";
    ""].

Definition news_script_prompt (headlines : string) : string :=
  news_script_system_prompt +:+ Py.nl +:+ Py.nl +:+ headlines.

Definition news_script_config : GenerationConfig :=
  {| temperature := "0.4"; max_output_tokens := 1000 |}.

Definition summarize_with_gemini_news_script (E : Env) (headlines : string) : M string :=
  try_except
    (call E (EvGenerateContent (news_script_prompt headlines) (Some news_script_config)))
    (fun e => raise (HTTPException 500 ("Gemini error: " +:+ exn_str e))).

(** ** news_scraper.py *)

Record NewsPayload : Type := { news_analysis : gmap string string }.

Definition news_rate_limiter : string := "NewsScraper._rate_limiter".

(** [@retry(stop=stop_after_attempt(3), wait=wait_exponential(multiplier=1,
    min=2, max=10))]: no [retry=] and no [reraise=], so tenacity's defaults. *)
Definition news_retry : RetryConfig :=
  {| stop_after_attempt := 3;
     wait_multiplier := 1; wait_min := 2; wait_max := 10;
     retry_if := is_exception;
     reraise := false |}.

Definition news_fallback_headline (topic : string) : string :=
  "Latest news about " +:+ topic.

Definition news_unavailable (topic : string) : string :=
  "We couldn't retrieve the latest news about " +:+ topic +:+ " at this time.".

(** [if not headlines or headlines.strip() == ""] *)
Definition no_headlines (headlines : string) : bool :=
  negb (Py.truthy headlines) || String.eqb (Py.strip headlines) "".

(** The fetch of one topic: BrightData first, a direct request when it
    fails. *)
Definition fetch_search_html (E : Env) (url : string) : M string :=
  try_except (scrape_with_brightdata E url)
             (fun bright_error => call E (EvRequestsGet url)).

(** The body of the inner [try] of [scrape_news] for one topic. *)
Definition news_topic (E : Env) (topic : string) : M string :=
  let urls := generate_news_urls_to_scrape E [topic] in
  let! url := getitem E urls topic in
  let! search_html := fetch_search_html E url in
  let clean_text := clean_html_to_text E search_html in
  let headlines := extract_headlines clean_text in
  let headlines :=
    if no_headlines headlines then news_fallback_headline topic else headlines in
  summarize_with_gemini_news_script E headlines.

Fixpoint scrape_news_loop (E : Env) (topics : list string) (results : gmap string string)
    : M (gmap string string) :=
  match topics with
  | [] => ret results
  | topic :: rest =>
      let! _ := tick (EvAcquire news_rate_limiter) in
      let! summary :=
        try_except (news_topic E topic) (fun e => ret (news_unavailable topic)) in
      let! _ := tick (EvSleep 1) in
      scrape_news_loop E rest (<[topic := summary]> results)
  end.

Definition scrape_news_body (E : Env) (topics : list string) : M NewsPayload :=
  let! results := scrape_news_loop E topics ∅ in
  ret {| news_analysis := results |}.

Definition scrape_news (E : Env) (topics : list string) : M NewsPayload :=
  retry news_retry (scrape_news_body E topics).

(** ** reddit_scraper.py and twitter_scraper.py

    The two modules are the same code up to the constants gathered in
    [McpSource]; each is an instance below. *)

Record message : Type := { role : string; content : string }.

(** What [process_topic] needs of its [agent] argument: [ainvoke] takes the
    messages and returns the [content] of each message of the response. *)
Record Agent : Type := { ainvoke : list message -> M (list string) }.

Record McpSource : Type := {
  limiter : string;
  pause : Z;
  system_content : Env -> string;
  user_content : string -> string;
  unavailable : string -> string;
  agent_config : GenerationConfig;
  retry_policy : RetryConfig
}.

(** The decorator of [process_topic] and of [process_twitter_topic]. *)
Definition mcp_retry : RetryConfig :=
  {| stop_after_attempt := 3;
     wait_multiplier := 1; wait_min := 15; wait_max := 60;
     retry_if := is_overloaded;
     reraise := true |}.

Definition reddit_source : McpSource :=
  {| limiter := "mcp_limiter";
     pause := 5;
     system_content := fun E =>
       Py.text [
         "You are a Reddit analysis expert. Use available tools to:";
         "                1. Find top 2 posts about the given topic BUT only after " +:+ two_weeks_ago_str E +:+ ", NOTHING before this date strictly!";
         "                2. Analyze their content and sentiment";
         "                3. Create a summary of discussions and overall sentiment"];
     user_content := fun topic =>
       Py.text [
         "Analyze Reddit posts about '" +:+ topic +:+ "'. ";
         "                Provide a comprehensive summary including:";
         "                - Main discussion points";
         "                - Key opinions expressed";
         "                - Any notable trends or patterns";
         "                - Summarize the overall narrative, discussion points and also quote interesting comments without mentioning names";
         "                - Overall sentiment (positive/neutral/negative)"];
     unavailable := fun topic =>
       "Reddit discussions about " +:+ topic +:+ " are currently unavailable.";
     agent_config := {| temperature := "0.7"; max_output_tokens := 2000 |};
     retry_policy := mcp_retry |}.

Definition twitter_source : McpSource :=
  {| limiter := "twitter_limiter";
     pause := 3;
     system_content := fun E =>
       Py.text [
         "You are a Twitter analysis expert. Use available tools to:";
         "                1. Find trending tweets about the given topic from the last 24-48 hours";
         "                2. Analyze tweet content, engagement metrics, and sentiment";
         "                3. Identify key influencers and viral discussions";
         "                4. Create a summary of Twitter conversations and overall sentiment"];
     user_content := fun topic =>
       Py.text [
         "Analyze Twitter/X posts about '" +:+ topic +:+ "'. ";
         "                Provide a comprehensive summary including:";
         "                - Top trending tweets and their key messages";
         "                - Engagement levels (likes, retweets, replies)";
         "                - Sentiment analysis (positive/negative/neutral)";
         "                - Key influencers and their perspectives";
         "                - Notable hashtags and trends";
         "                - Quote interesting tweets without mentioning usernames";
         "                - Overall Twitter narrative and discussion points"];
     unavailable := fun topic =>
       "Twitter discussions about " +:+ topic +:+ " are currently unavailable.";
     agent_config := {| temperature := "0.7"; max_output_tokens := 1500 |};
     retry_policy := mcp_retry |}.

Section Mcp.
Context (E : Env) (S : McpSource).

(** The [for msg in messages] loop of [ainvoke], for one role. *)
Definition message_of_role (r : string) (messages : list message) : string :=
  fold_left (fun acc msg => if String.eqb (role msg) r then content msg else acc)
            messages "".

(** [user_message.split("'")[1] if "'" in user_message else "the topic"] *)
Definition quoted_topic (user_message : string) : string :=
  if Py.contains "'" user_message
  then default "" (Py.split Py.apostrophe user_message !! 1)
  else "the topic".

(** [GeminiAgent.ainvoke] / [TwitterAgent.ainvoke]: a failure of the model
    is answered with the placeholder for the quoted topic. *)
Definition model_ainvoke (messages : list message) : M (list string) :=
  let system_message := message_of_role "system" messages in
  let user_message := message_of_role "user" messages in
  let full_prompt := system_message +:+ Py.nl +:+ Py.nl +:+ user_message in
  try_except
    (let! text := call E (EvGenerateContent full_prompt (Some (agent_config S))) in
     ret [text])
    (fun e => ret [unavailable S (quoted_topic user_message)]).

Definition model_agent : Agent := {| ainvoke := model_ainvoke |}.

(** [response["messages"][-1]["content"]] *)
Definition last_content (response : list string) : M string :=
  match last response with
  | Some c => ret c
  | None => raise (PyException "IndexError" "list index out of range")
  end.

(** The undecorated body of [process_topic]. *)
Definition process_topic_body (agent : Agent) (topic : string) : M string :=
  let! _ := tick (EvAcquire (limiter S)) in
  let messages :=
    [ {| role := "system"; content := system_content S E |};
      {| role := "user"; content := user_content S topic |} ] in
  try_except
    (let! response := ainvoke agent messages in
     last_content response)
    (fun e =>
       if Py.contains "Overloaded" (exn_str e)
       then raise (MCPOverloadedError "Service overloaded")
       else raise e).

Definition process (agent : Agent) (topic : string) : M string :=
  retry (retry_policy S) (process_topic_body agent topic).

Fixpoint scrape_loop (agent : Agent) (topics : list string) (results : gmap string string)
    : M (gmap string string) :=
  match topics with
  | [] => ret results
  | topic :: rest =>
      let! summary := process agent topic in
      let! _ := tick (EvSleep (pause S)) in
      scrape_loop agent rest (<[topic := summary]> results)
  end.

(** The [except] branch: every topic gets the placeholder. *)
Definition all_unavailable (topics : list string) : gmap string string :=
  fold_left (fun results topic => <[topic := unavailable S topic]> results) topics ∅.

(** The session is opened once for the whole batch; [agent] is the object
    the module builds from its model once the tools are loaded. *)
Definition scrape_topics (agent : Agent) (topics : list string) : M (gmap string string) :=
  try_except
    (with_resource
       (let! _ := call E EvOpenSession in ret tt)
       (tick EvCloseSession)
       (let! _ := call E EvInitialize in
        let! _ := call E EvLoadTools in
        scrape_loop agent topics ∅))
    (fun e => ret (all_unavailable topics)).

End Mcp.

Record RedditPayload : Type := { reddit_analysis : gmap string string }.
Record TwitterPayload : Type := { twitter_analysis : gmap string string }.

(** [GeminiAgent(model, tools)] and [TwitterAgent(model, tools)] *)
Definition GeminiAgent (E : Env) : Agent := model_agent E reddit_source.
Definition TwitterAgent (E : Env) : Agent := model_agent E twitter_source.

Definition process_topic (E : Env) (agent : Agent) (topic : string) : M string :=
  process E reddit_source agent topic.

Definition process_twitter_topic (E : Env) (agent : Agent) (topic : string) : M string :=
  process E twitter_source agent topic.

(** The collectors look their agent class up when they run; the embedding
    takes the agent as an argument, and [scrape_reddit_topics] and
    [scrape_twitter_topics] are the collectors with the agents of the
    modules. *)
Definition scrape_reddit_topics_with (E : Env) (agent : Agent) (topics : list string)
    : M RedditPayload :=
  let! reddit_results := scrape_topics E reddit_source agent topics in
  ret {| reddit_analysis := reddit_results |}.

Definition scrape_twitter_topics_with (E : Env) (agent : Agent) (topics : list string)
    : M TwitterPayload :=
  let! twitter_results := scrape_topics E twitter_source agent topics in
  ret {| twitter_analysis := twitter_results |}.

Definition scrape_reddit_topics (E : Env) (topics : list string) : M RedditPayload :=
  scrape_reddit_topics_with E (GeminiAgent E) topics.

Definition scrape_twitter_topics (E : Env) (topics : list string) : M TwitterPayload :=
  scrape_twitter_topics_with E (TwitterAgent E) topics.

(** ** utils.py: the composer, the translator, the voice table, Murf *)

Definition broadcast_system_prompt : string :=
  Py.text [
    "";
    "You are broadcast_news_writer, a professional virtual news reporter. Generate natural, TTS-ready news reports using available sources:";
    "";
    "For each topic, STRUCTURE BASED ON AVAILABLE DATA:";
    ("1. If news exists: " +:+ Py.dq +:+ "According to official reports..." +:+ Py.dq +:+ " + summary");
    ("2. If Reddit exists: " +:+ Py.dq +:+ "Online discussions on Reddit reveal..." +:+ Py.dq +:+ " + summary  ");
    ("3. If Twitter exists: " +:+ Py.dq +:+ "On Twitter, trending conversations show..." +:+ Py.dq +:+ " + summary");
    "4. If multiple sources exist: Present news first, then social media reactions";
    "5. If neither exists: Skip the topic (shouldn't happen)";
    "";
    "Formatting rules:";
    "- ALWAYS start directly with the content, NO INTRODUCTIONS";
    "- Keep audio length 60-120 seconds per topic";
    ("- Use natural speech transitions like " +:+ Py.dq +:+ "Meanwhile, on social media..." +:+ Py.dq);
    "- Incorporate 1-2 short quotes from Reddit/Twitter when available";
    "- Maintain neutral tone but highlight key sentiments";
    ("- End with " +:+ Py.dq +:+ "To wrap up this segment..." +:+ Py.dq +:+ " summary");
    "";
    "Write in full paragraphs optimized for speech synthesis. Avoid markdown.";
    ""].

(** [news_data["news_analysis"].get(topic) if news_data else ''], and the
    same for the two other sources.  A payload is a one-key dictionary,
    hence truthy whenever it is there. *)
Definition news_content_of (news_data : option NewsPayload) (topic : string) : option string :=
  match news_data with
  | Some d => news_analysis d !! topic
  | None => Some ""
  end.

Definition reddit_content_of (reddit_data : option RedditPayload) (topic : string)
    : option string :=
  match reddit_data with
  | Some d => reddit_analysis d !! topic
  | None => Some ""
  end.

Definition twitter_content_of (twitter_data : option TwitterPayload) (topic : string)
    : option string :=
  match twitter_data with
  | Some d => twitter_analysis d !! topic
  | None => Some ""
  end.

(** [context.append(f"<label>\n{content}")] under [if content:] *)
Definition context_entry (label : string) (content : option string) : list string :=
  match content with
  | Some c => if Py.truthy c then [label +:+ Py.nl +:+ c] else []
  | None => []
  end.

Definition topic_context (news_data : option NewsPayload) (reddit_data : option RedditPayload)
    (twitter_data : option TwitterPayload) (topic : string) : list string :=
  context_entry "OFFICIAL NEWS CONTENT:" (news_content_of news_data topic) ++
  context_entry "REDDIT DISCUSSION CONTENT:" (reddit_content_of reddit_data topic) ++
  context_entry "TWITTER DISCUSSION CONTENT:" (twitter_content_of twitter_data topic).

Definition topic_block (topic : string) (context : list string) : string :=
  "TOPIC: " +:+ topic +:+ Py.nl +:+ Py.nl +:+ Py.join (Py.nl +:+ Py.nl) context.

(** The [for topic in topics] loop that fills [topic_blocks]. *)
Definition broadcast_topic_blocks (news_data : option NewsPayload)
    (reddit_data : option RedditPayload) (twitter_data : option TwitterPayload)
    (topics : list string) : list string :=
  fold_left
    (fun topic_blocks topic =>
       let context := topic_context news_data reddit_data twitter_data topic in
       match context with
       | [] => topic_blocks
       | _ :: _ => topic_blocks ++ [topic_block topic context]
       end)
    topics [].

Definition broadcast_prompt (topic_blocks : list string) : string :=
  let user_prompt :=
    "Create broadcast segments for these topics using available sources:" +:+ Py.nl +:+ Py.nl +:+
    Py.join (Py.nl +:+ Py.nl +:+ "--- NEW TOPIC ---" +:+ Py.nl +:+ Py.nl) topic_blocks in
  broadcast_system_prompt +:+ Py.nl +:+ Py.nl +:+ user_prompt.

Definition broadcast_config : GenerationConfig :=
  {| temperature := "0.3"; max_output_tokens := 4000 |}.

Definition generate_broadcast_news (E : Env) (news_data : option NewsPayload)
    (reddit_data : option RedditPayload) (twitter_data : option TwitterPayload)
    (topics : list string) : M string :=
  try_except
    (let topic_blocks := broadcast_topic_blocks news_data reddit_data twitter_data topics in
     let full_prompt := broadcast_prompt topic_blocks in
     call E (EvGenerateContent full_prompt (Some broadcast_config)))
    (fun e => raise e).

Definition translation_prompt (text target_lang : string) : string :=
  "Translate the following broadcast news script to " +:+ target_lang +:+ ". " +:+
  "Maintain paragraph structure, formal broadcast tone, no extra commentary." +:+
  Py.nl +:+ Py.nl +:+ text.

Definition translate_for_language (E : Env) (text target_lang : string) : M string :=
  if Py.startswith target_lang "en" then ret text
  else
    let prompt := translation_prompt text target_lang in
    let! translated := call E (EvGenerateContent prompt None) in
    ret (Py.strip translated).

Definition VOICE_BY_LANG : gmap string string :=
  list_to_map
    [ ("en", "wayne"); ("hi", "shweta"); ("es", "valeria"); ("fr", "victor");
      ("de", "max"); ("it", "vera"); ("ja", "kei"); ("ko", "seo-yun");
      ("pt", "pedro"); ("ru", "sofia"); ("zh", "xing") ].

Definition get_voice_for_language (lang_code : string) : string :=
  default "en-US-natalie" (VOICE_BY_LANG !! lang_code).

(** [text_to_audio_murf]: the Murf request returns the audio URL (empty when
    the response has none); the file name carries the time of the call,
    which the oracle provides.  Creating the directory and writing the file
    may fail like any other call. *)
Definition text_to_audio_murf (E : Env) (text voice_id language output_dir : string)
    : M string :=
  if negb (Py.truthy (murf_api_key E)) then raise (PyException "ValueError" "MURF_API_KEY missing")
  else
    let! url := call E (EvMurfGenerate text voice_id) in
    let! _ := call E (EvMkdir (Py.path [output_dir])) in
    let! stamp := call E EvNow in
    let fp := Py.path [output_dir; "tts_" +:+ stamp +:+ ".mp3"] in
    if negb (Py.truthy url) then raise (PyException "RuntimeError" "Murf response missing audio URL")
    else
      let! audio := call E (EvDownload url) in
      let! _ := call E (EvWriteBytes fp audio) in
      ret fp.

(** ** backend.py *)

Record NewsRequest : Type := {
  topics : list string;
  source_type : string;
  language : string
}.

(** The response, without [processing_time] (a reading of the clock). *)
Record JSONResponse : Type := {
  summary_text : string;
  audio_content : string;
  metadata_topics : list string;
  metadata_sources : string;
  metadata_language : string
}.

(** [{t: value for t in topics}] *)
Definition dict_of_topics (value : string) (topics : list string) : gmap string string :=
  fold_left (fun d t => <[t := value]> d) topics ∅.

Definition wants_news (req : NewsRequest) : bool :=
  Py.mem (source_type req) ["news"; "both"; "all"].

Definition wants_reddit (req : NewsRequest) : bool :=
  Py.mem (source_type req) ["reddit"; "both"; "all"].

Definition wants_twitter (req : NewsRequest) : bool :=
  Py.mem (source_type req) ["twitter"; "all"].

Section Backend.
Context (E : Env) (reddit_agent twitter_agent : Agent).

(** [results["news"]], or nothing when the branch is not taken. *)
Definition collect_news (req : NewsRequest) : M (option NewsPayload) :=
  if wants_news req then
    let! news := scrape_news E (topics req) in
    ret (Some news)
  else ret None.

Definition collect_reddit (req : NewsRequest) : M (option RedditPayload) :=
  if wants_reddit req then
    try_except
      (let! reddit := scrape_reddit_topics_with E reddit_agent (topics req) in
       ret (Some reddit))
      (fun e =>
         ret (Some {| reddit_analysis := dict_of_topics "Reddit unavailable" (topics req) |}))
  else ret None.

Definition collect_twitter (req : NewsRequest) : M (option TwitterPayload) :=
  if wants_twitter req then
    try_except
      (let! twitter := scrape_twitter_topics_with E twitter_agent (topics req) in
       ret (Some twitter))
      (fun e =>
         ret (Some {| twitter_analysis := dict_of_topics "Twitter unavailable" (topics req) |}))
  else ret None.

(** The translation step of the handler. *)
Definition translate_step (req : NewsRequest) (summary_en : string) : M string :=
  if negb (String.eqb (language req) "en-US")
  then translate_for_language E summary_en (language req)
  else ret summary_en.

(** The audio step of the handler and the response it builds. *)
Definition narrate (req : NewsRequest) (final_summary : string) : M JSONResponse :=
  let voice_id := get_voice_for_language (language req) in
  let! audio_path := text_to_audio_murf E final_summary voice_id (language req) "audio" in
  let! present :=
    if Py.truthy audio_path then call E (EvPathExists audio_path) else ret "" in
  if negb (Py.truthy present) then raise (PyException "RuntimeError" "Audio generation failed")
  else
    let! audio := call E (EvReadBytes audio_path) in
    let audio_b64 := b64encode E audio in
    ret {| summary_text := final_summary;
           audio_content := audio_b64;
           metadata_topics := topics req;
           metadata_sources := source_type req;
           metadata_language := language req |}.

(** The body of the handler's [try]. *)
Definition handle (req : NewsRequest) : M JSONResponse :=
  let! news := collect_news req in
  let! reddit := collect_reddit req in
  let! twitter := collect_twitter req in
  let! summary_en := generate_broadcast_news E news reddit twitter (topics req) in
  let! final_summary := translate_step req summary_en in
  narrate req final_summary.

Definition generate_news_audio_with (req : NewsRequest) : M JSONResponse :=
  try_except (handle req) (fun e => raise (HTTPException 500 (exn_str e))).

End Backend.

Definition generate_news_audio (E : Env) (req : NewsRequest) : M JSONResponse :=
  generate_news_audio_with E (GeminiAgent E) (TwitterAgent E) req.


(** ** Vocabulary of the properties *)

(** [a] is a value the computation [m] returns from some state. *)
Definition returned_by {A : Type} (m : M A) (a : A) : Prop :=
  exists h h', m h = (Ok a, h').

(** The history once the MCP session is open and its tools are loaded. *)
Definition session_start (h : list event) : list event :=
  h ++ [EvOpenSession; EvInitialize; EvLoadTools].

(** The session opens, initialises and loads its tools without failure. *)
Definition session_opens (E : Env) (h : list event) : Prop :=
  (exists r, answer E h EvOpenSession = Ok r) /\
  (exists r, answer E (h ++ [EvOpenSession]) EvInitialize = Ok r) /\
  (exists r, answer E (h ++ [EvOpenSession; EvInitialize]) EvLoadTools = Ok r).

(** Within an open session the topics of [pre] are processed, and then
    the call for [topic] fails with [e], leaving the history [h2]. *)
Definition fails_mid_batch (E : Env) (S : McpSource) (agent : Agent)
    (pre : list string) (topic : string) (h : list event)
    (done : gmap string string) (e : exn) (h2 : list event) : Prop :=
  session_opens E h /\
  exists h1,
    scrape_loop E S agent pre ∅ (session_start h) = (Ok done, h1) /\
    process E S agent topic h1 = (Raise e, h2).

(** A source has material for [topic]: its payload is there and holds a
    non-empty summary under [topic]. *)
Definition present_in (analysis : option (gmap string string)) (topic : string) : Prop :=
  exists d s, analysis = Some d /\ d !! topic = Some s /\ s <> "".

Definition has_material (news_data : option NewsPayload) (reddit_data : option RedditPayload)
    (twitter_data : option TwitterPayload) (topic : string) : Prop :=
  present_in (news_analysis <$> news_data) topic \/
  present_in (reddit_analysis <$> reddit_data) topic \/
  present_in (twitter_analysis <$> twitter_data) topic.

(** The composer's own test: the context gathered for [topic] is not empty. *)
Definition contributes (news_data : option NewsPayload) (reddit_data : option RedditPayload)
    (twitter_data : option TwitterPayload) (topic : string) : bool :=
  match topic_context news_data reddit_data twitter_data topic with
  | [] => false
  | _ :: _ => true
  end.

(** frontend.py: the locale codes of [LANGS], the only ones the interface
    sends. *)
Definition LANGS : list string :=
  ["en-US"; "hi-IN"; "en-IN"; "ta-IN"; "bn-IN"; "es-MX"; "zh-CN"; "ja-JP"].

(** The keys of [VOICE_BY_LANG]. *)
Definition voice_keys : list string :=
  ["en"; "hi"; "es"; "fr"; "de"; "it"; "ja"; "ko"; "pt"; "ru"; "zh"].

(** ** Further vocabulary: characters, blank strings, headline lists *)

(** The bytes of a string. *)
Definition chars (s : string) : list ascii := String.list_ascii_of_string s.

(** A sequence of bytes made of tokens only, one after the other. *)
Inductive tokens_only (tokens : list (list ascii)) : list ascii -> Prop :=
  | tokens_only_nil : tokens_only tokens []
  | tokens_only_cons (w l : list ascii) :
      w ∈ tokens -> tokens_only tokens l -> tokens_only tokens (w ++ l).

(** A string of whitespace only (the empty string included). *)
Definition blank (s : string) : Prop := tokens_only Py.whitespace (chars s).

(** The string begins, or ends, with a whitespace character. *)
Definition space_first (s : string) : Prop :=
  exists w, w ∈ Py.whitespace /\ w `prefix_of` chars s.

Definition space_last (s : string) : Prop :=
  exists w, w ∈ Py.whitespace /\ w `suffix_of` chars s.

(** [needle] occurs in [s]. *)
Definition occurs_in (needle s : string) : Prop :=
  exists before after, s = before +:+ needle +:+ after.

(** The lines [extract_headlines] works on: stripped, blank ones left out. *)
Definition headline_lines (cleaned_text : string) : list string :=
  map Py.strip
    (List.filter (fun line => Py.truthy (Py.strip line))
                 (Py.split "010"%char cleaned_text)).

(** The list [extract_headlines] joins. *)
Definition headline_list (cleaned_text : string) : list string :=
  let '(headlines, current_block) :=
    fold_left headline_step (headline_lines cleaned_text) ([], []) in
  match current_block with
  | first :: _ => headlines ++ [first]
  | [] => headlines
  end.

(** A line that is not the separator "More". *)
Definition not_more (line : string) : bool := negb (String.eqb line "More").

(** ** Counting the calls of a run *)

Definition count_events (p : event -> bool) (evs : list event) : nat :=
  length (List.filter p evs).

Definition is_acquire (ev : event) : bool :=
  match ev with EvAcquire _ => true | _ => false end.

Definition is_sleep (ev : event) : bool :=
  match ev with EvSleep _ => true | _ => false end.

Definition is_brightdata (ev : event) : bool :=
  match ev with EvBrightData _ => true | _ => false end.

Definition is_direct_request (ev : event) : bool :=
  match ev with EvRequestsGet _ => true | _ => false end.

Definition is_model_call (ev : event) : bool :=
  match ev with EvGenerateContent _ _ => true | _ => false end.

(** The calls the News collector may make. *)
Definition is_news_event (ev : event) : bool :=
  match ev with
  | EvAcquire l => String.eqb l news_rate_limiter
  | EvSleep s => Z.eqb s 1
  | EvBrightData _ | EvRequestsGet _ | EvGenerateContent _ _ => true
  | _ => false
  end.

(** ** frontend.py: the list of topics of the interface

    The session keeps the topics between two runs of the script; a run
    reacts to one click.  "Add" is disabled once there are three topics and
    ignores a blank input; a "Remove" button exists for each of the first
    three topics; "Generate" is disabled while there is no topic. *)

Inductive ui_action : Type :=
  | ClickAdd (new_topic : string)
  | ClickRemove (i : nat).

Definition ui_step (session_topics : list string) (a : ui_action) : list string :=
  match a with
  | ClickAdd new_topic =>
      let add_disabled := 3 <=? length session_topics in
      if add_disabled then session_topics
      else if Py.truthy (Py.strip new_topic)
           then session_topics ++ [Py.strip new_topic]
           else session_topics
  | ClickRemove i =>
      if i <? length (take 3 session_topics) then delete i session_topics
      else session_topics
  end.

(** The topics after a sequence of clicks on a fresh session. *)
Definition ui_topics (clicks : list ui_action) : list string :=
  fold_left ui_step clicks [].

(** The payload of "Generate", when the button is enabled. *)
Definition ui_request (session_topics : list string) (source_type lang_code : string)
    : option NewsRequest :=
  match session_topics with
  | [] => None
  | _ :: _ =>
      Some {| topics := session_topics; source_type := source_type; language := lang_code |}
  end.

(** The options of the "Data Sources" select box. *)
Definition SOURCE_OPTIONS : list string := ["all"; "news"; "reddit"; "twitter"; "both"].

(** ** utils.py: the helpers on Ollama and gTTS

    Neither library is among the collaborators of [Env]; the one call each
    function makes is an argument: [ollama_generate prompt] stands for
    [client.generate(...)['response']], [gtts_save text lang filename] for
    [gTTS(text=text, lang=lang, slow=False).save(filename)]. *)




(** ** Scenarios

    Concrete worlds and stand-in agents on which the properties below are
    exercised. *)

Definition world (reply : list event -> event -> res string) : Env :=
  {| answer := reply;
     quote_plus := fun s => s;
     soup_get_text := fun s => s;
     two_weeks_ago_str := "2025-01-01";
     murf_api_key := "secret";
     b64encode := fun s => s;
     repr := fun s => "'" +:+ s +:+ "'" |}.

(** An agent whose reply depends only on the user message. *)
Definition scripted_agent (script : string -> res (list string)) : Agent :=
  {| ainvoke := fun messages h => (script (message_of_role "user" messages), h) |}.

Definition count_acquires (h : list event) : nat :=
  length (List.filter (fun ev => match ev with EvAcquire _ => true | _ => false end) h).

(** An agent that is overloaded until the limiter has been passed [n] times. *)
Definition overloaded_until (n : nat) (reply : string) : Agent :=
  {| ainvoke := fun messages h =>
       if count_acquires h <? n
       then (Raise (PyException "RuntimeError" "503 Overloaded"), h)
       else (Ok [reply], h) |}.

(** A world that never answers. *)
Definition silent_world : Env :=
  world (fun _ _ => Raise (PyException "ConnectionError" "unreachable")).

(** A world in which every call succeeds with [reply]. *)
Definition obliging_world (reply : string) : Env := world (fun _ _ => Ok reply).

(** An agent that fails on the topic [bad] and answers every other one. *)
Definition fails_on (bad : string) : Agent :=
  scripted_agent (fun user_message =>
    if Py.contains ("'" +:+ bad +:+ "'") user_message
    then Raise (PyException "RuntimeError" "session lost")
    else Ok ["real digest"]).

(** A world in which neither fetch of the news page of [bad] succeeds; every
    other page is served and the model always answers. *)
Definition news_down_for (bad : string) : Env :=
  world (fun _ ev =>
    match ev with
    | EvBrightData url | EvRequestsGet url =>
        if Py.contains ("q=" +:+ bad +:+ "&") url
        then Raise (RequestException "timed out")
        else Ok "Headline of the day"
    | _ => Ok "script"
    end).

(** BrightData refuses, the direct request returns an empty page, and the
    model answers "script". *)
Definition empty_upstream : Env :=
  world (fun _ ev =>
    match ev with
    | EvBrightData _ => Raise (RequestException "403 Forbidden")
    | EvRequestsGet _ => Ok ""
    | _ => Ok "script"
    end).

(** The pages are served, the session opens, but every model call fails. *)
Definition model_down : Env :=
  world (fun _ ev =>
    match ev with
    | EvGenerateContent _ _ => Raise (PyException "ResourceExhausted" "429 quota exceeded")
    | _ => Ok "Headline of the day"
    end).

(** Every call succeeds, except the translation of the script. *)
Definition translator_down : Env :=
  world (fun _ ev =>
    match ev with
    | EvGenerateContent _ None => Raise (PyException "ResourceExhausted" "429 quota exceeded")
    | _ => Ok "script"
    end).


(** A page of whitespace only: a no-break space (U+00A0), a blank, an
    ideographic space (U+3000) and a newline. *)
Definition blank_page : string :=
  String.string_of_list_ascii (Py.bytes_of [194; 160; 32; 227; 128; 128; 10]).
(** * Properties *)

(** ** Python strings, through their bytes *)

Lemma chars_inj (s1 s2 : string) : chars s1 = chars s2 -> s1 = s2.
Proof.
  intros H. rewrite <- (String.string_of_list_ascii_of_string s1).
  rewrite <- (String.string_of_list_ascii_of_string s2). unfold chars in H. now rewrite H.
Qed.

Lemma chars_app (s1 s2 : string) : chars (s1 +:+ s2) = chars s1 ++ chars s2.
Proof. induction s1 as [|c s1 IH]; simpl; [reflexivity|]. unfold chars in *. simpl. now rewrite IH. Qed.

Lemma chars_rev_app (s1 s2 : string) :
  chars (String.rev_app s1 s2) = rev (chars s1) ++ chars s2.
Proof.
  revert s2. induction s1 as [|c s1 IH]; intros s2; simpl; [reflexivity|].
  rewrite IH. unfold chars. simpl. now rewrite <- app_assoc.
Qed.

Lemma chars_rev (s : string) : chars (String.rev s) = rev (chars s).
Proof. unfold String.rev. rewrite chars_rev_app. apply app_nil_r. Qed.

Lemma string_rev_involutive (s : string) : String.rev (String.rev s) = s.
Proof. apply chars_inj. rewrite !chars_rev. apply rev_involutive. Qed.

Lemma chars_nil (s : string) : chars s = [] <-> s = "".
Proof. destruct s; unfold chars; simpl; split; congruence. Qed.

Lemma chars_of_list (l : list ascii) : chars (String.string_of_list_ascii l) = l.
Proof. apply String.list_ascii_of_string_of_list_ascii. Qed.

Lemma string_app_assoc (a b c : string) : (a +:+ b) +:+ c = a +:+ (b +:+ c).
Proof. apply chars_inj. rewrite !chars_app. now rewrite app_assoc. Qed.

Lemma string_app_nil_r (a : string) : a +:+ "" = a.
Proof. apply chars_inj. rewrite chars_app. apply app_nil_r. Qed.

Lemma truthy_nonempty (s : string) : Py.truthy s = true <-> s <> "".
Proof.
  unfold Py.truthy. rewrite negb_true_iff. apply String.eqb_neq.
Qed.

(** ** Removing leading tokens *)

Lemma strip_prefix_spec (w l r : list ascii) :
  Py.strip_prefix w l = Some r <-> l = w ++ r.
Proof.
  revert l. induction w as [|a w IH]; intros l; simpl.
  - split; [now intros [= ->]|now intros ->].
  - destruct l as [|b l]; [split; discriminate|].
    destruct (Stdlib.Strings.Ascii.eqb a b) eqn:Hab.
    + apply Stdlib.Strings.Ascii.eqb_eq in Hab as ->. rewrite IH.
      split; [now intros ->|now intros [= ->]].
    + apply Stdlib.Strings.Ascii.eqb_neq in Hab. split; [discriminate|]. intros [= -> _].
      now destruct Hab.
Qed.

Lemma first_token_some (ws : list (list ascii)) (l r : list ascii) :
  Py.first_token ws l = Some r -> exists w, w ∈ ws /\ l = w ++ r.
Proof.
  induction ws as [|w ws IH]; simpl; [discriminate|].
  destruct (Py.strip_prefix w l) as [r'|] eqn:Hw.
  - intros [= <-]. apply strip_prefix_spec in Hw. exists w. split; [set_solver|exact Hw].
  - intros H. destruct (IH H) as (w' & Hin & Hl). exists w'. split; [set_solver|exact Hl].
Qed.

Lemma first_token_none (ws : list (list ascii)) (l : list ascii) :
  Py.first_token ws l = None <-> forall w, w ∈ ws -> ~ w `prefix_of` l.
Proof.
  induction ws as [|w ws IH]; simpl.
  - split; [intros _ w Hw; set_solver|reflexivity].
  - destruct (Py.strip_prefix w l) as [r|] eqn:Hw.
    + apply strip_prefix_spec in Hw. split; [discriminate|].
      intros H. exfalso. apply (H w); [set_solver|]. now exists r.
    + rewrite IH. split.
      * intros H w' Hin. apply elem_of_cons in Hin as [->|Hin]; [|now apply H].
        intros [r Hr]. apply strip_prefix_spec in Hr. congruence.
      * intros H w' Hin. apply H. set_solver.
Qed.

Lemma tokens_only_app (ws : list (list ascii)) (l1 l2 : list ascii) :
  tokens_only ws l1 -> tokens_only ws l2 -> tokens_only ws (l1 ++ l2).
Proof.
  induction 1 as [|w l Hw Hl IH]; intros H2; simpl; [exact H2|].
  rewrite <- app_assoc. constructor; auto.
Qed.

Lemma tokens_only_rev (ws : list (list ascii)) (l : list ascii) :
  tokens_only ws l -> tokens_only (map (@rev ascii) ws) (rev l).
Proof.
  induction 1 as [|w l Hw Hl IH]; simpl; [constructor|].
  rewrite rev_app_distr. apply tokens_only_app; [exact IH|].
  rewrite <- (app_nil_r (rev w)). constructor; [|constructor].
  apply list_elem_of_fmap. now exists w.
Qed.

Lemma map_rev_involutive (ws : list (list ascii)) :
  map (@rev ascii) (map (@rev ascii) ws) = ws.
Proof.
  induction ws as [|w ws IH]; simpl; [reflexivity|]. now rewrite rev_involutive, IH.
Qed.

Section Tokens.
Context (ws : list (list ascii)).
Hypothesis token_nonempty : forall w, w ∈ ws -> w <> [].
Hypothesis token_prefix_free :
  forall w1 w2, w1 ∈ ws -> w2 ∈ ws -> w1 `prefix_of` w2 -> w1 = w2.

Lemma first_token_nil : Py.first_token ws [] = None.
Proof.
  apply first_token_none. intros w Hw [r Hr].
  symmetry in Hr. apply app_eq_nil in Hr as [-> _]. now apply (token_nonempty []).
Qed.

(** What [drop_tokens] removes is made of tokens, and what it leaves
    starts with none. *)
Lemma drop_tokens_spec (fuel : nat) (l : list ascii) :
  length l <= fuel ->
  exists pre,
    l = pre ++ Py.drop_tokens ws fuel l /\
    tokens_only ws pre /\
    Py.first_token ws (Py.drop_tokens ws fuel l) = None.
Proof.
  revert l. induction fuel as [|fuel IH]; intros l Hlen; simpl.
  - destruct l; [|simpl in Hlen; lia]. exists []. split; [reflexivity|].
    split; [constructor|apply first_token_nil].
  - destruct (Py.first_token ws l) as [r|] eqn:Hfirst.
    + destruct (first_token_some ws l r Hfirst) as (w & Hw & ->).
      assert (length r <= fuel) as Hr.
      { rewrite length_app in Hlen. pose proof (token_nonempty w Hw).
        destruct w; [congruence|simpl in Hlen; lia]. }
      destruct (IH r Hr) as (pre & Hpre & Htok & Hclean).
      exists (w ++ pre). split; [rewrite <- app_assoc; now rewrite <- Hpre|].
      split; [now constructor|exact Hclean].
    + exists []. split; [reflexivity|]. split; [constructor|exact Hfirst].
Qed.

Lemma drop_tokens_all (l : list ascii) :
  tokens_only ws l -> forall fuel, length l <= fuel -> Py.drop_tokens ws fuel l = [].
Proof.
  induction 1 as [|w l Hw Hl IH]; intros fuel Hlen.
  - destruct fuel; simpl; [reflexivity|]. now rewrite first_token_nil.
  - pose proof (token_nonempty w Hw) as Hne. rewrite length_app in Hlen.
    destruct fuel as [|fuel]; [destruct w; [congruence|simpl in Hlen; lia]|].
    simpl. destruct (Py.first_token ws (w ++ l)) as [r|] eqn:Hfirst.
    + destruct (first_token_some ws _ r Hfirst) as (w' & Hw' & Heq).
      assert (w = w') as <-.
      { apply app_eq_app in Heq as (k & [[-> ->] | [-> ->]]).
        - symmetry. apply token_prefix_free; auto. now exists k.
        - apply token_prefix_free; auto. now exists k. }
      apply app_inv_head in Heq as <-. apply IH.
      destruct w; [congruence|simpl in Hlen; lia].
    + exfalso. apply (proj1 (first_token_none ws _) Hfirst w Hw). now exists l.
Qed.

Lemma drop_tokens_fixed (fuel : nat) (l : list ascii) :
  Py.first_token ws l = None -> Py.drop_tokens ws fuel l = l.
Proof. intros H. destruct fuel; simpl; [reflexivity|]. now rewrite H. Qed.

End Tokens.

(** ** [strip] *)

Lemma whitespace_nonempty (w : list ascii) : w ∈ Py.whitespace -> w <> [].
Proof.
  revert w. apply Forall_forall. apply (bool_decide_unpack _). vm_compute. exact I.
Qed.

Lemma whitespace_prefix_free (w1 w2 : list ascii) :
  w1 ∈ Py.whitespace -> w2 ∈ Py.whitespace -> w1 `prefix_of` w2 -> w1 = w2.
Proof.
  revert w2. revert w1.
  assert (Forall (fun w1 => Forall (fun w2 => w1 `prefix_of` w2 -> w1 = w2) Py.whitespace)
                 Py.whitespace) as H
    by (apply (bool_decide_unpack _); vm_compute; exact I).
  intros w1 w2 H1 H2. rewrite Forall_forall in H. specialize (H w1 H1).
  rewrite Forall_forall in H. now apply H.
Qed.

Lemma whitespace_rev_nonempty (w : list ascii) :
  w ∈ map (@rev ascii) Py.whitespace -> w <> [].
Proof.
  revert w. apply Forall_forall. apply (bool_decide_unpack _). vm_compute. exact I.
Qed.

Lemma whitespace_suffix_free (w1 w2 : list ascii) :
  w1 ∈ map (@rev ascii) Py.whitespace -> w2 ∈ map (@rev ascii) Py.whitespace ->
  w1 `prefix_of` w2 -> w1 = w2.
Proof.
  revert w2. revert w1.
  assert (Forall (fun w1 => Forall (fun w2 => w1 `prefix_of` w2 -> w1 = w2)
                              (map (@rev ascii) Py.whitespace))
                 (map (@rev ascii) Py.whitespace)) as H
    by (apply (bool_decide_unpack _); vm_compute; exact I).
  intros w1 w2 H1 H2. rewrite Forall_forall in H. specialize (H w1 H1).
  rewrite Forall_forall in H. now apply H.
Qed.

Lemma chars_strip (s : string) :
  chars (Py.strip s) = Py.rstrip_bytes (Py.lstrip_bytes (chars s)).
Proof. unfold Py.strip. apply chars_of_list. Qed.

(** [lstrip]: a run of whitespace is removed, what is left starts with
    none. *)
Lemma lstrip_bytes_spec (l : list ascii) :
  exists pre,
    l = pre ++ Py.lstrip_bytes l /\
    tokens_only Py.whitespace pre /\
    forall w, w ∈ Py.whitespace -> ~ w `prefix_of` Py.lstrip_bytes l.
Proof.
  destruct (drop_tokens_spec Py.whitespace whitespace_nonempty (length l) l (le_n _))
    as (pre & Hl & Hpre & Hclean).
  exists pre. split; [exact Hl|]. split; [exact Hpre|].
  now apply first_token_none.
Qed.

Lemma rev_suffix_prefix (w l : list ascii) : w `suffix_of` rev l -> rev w `prefix_of` l.
Proof.
  intros [k Hk]. exists (rev k).
  rewrite <- (rev_involutive l), Hk, rev_app_distr. reflexivity.
Qed.

(** [rstrip]: the same at the end. *)
Lemma rstrip_bytes_spec (l : list ascii) :
  exists post,
    l = Py.rstrip_bytes l ++ post /\
    tokens_only Py.whitespace post /\
    forall w, w ∈ Py.whitespace -> ~ w `suffix_of` Py.rstrip_bytes l.
Proof.
  unfold Py.rstrip_bytes.
  destruct (drop_tokens_spec (map (@rev ascii) Py.whitespace) whitespace_rev_nonempty
              (length l) (rev l)) as (pre & Hl & Hpre & Hclean).
  { now rewrite length_rev. }
  exists (rev pre). split; [|split].
  - rewrite <- rev_app_distr, <- Hl. now rewrite rev_involutive.
  - apply tokens_only_rev in Hpre. now rewrite map_rev_involutive in Hpre.
  - intros w Hw Hsuffix. apply rev_suffix_prefix in Hsuffix.
    apply (proj1 (first_token_none _ _) Hclean (rev w)); [|exact Hsuffix].
    apply list_elem_of_fmap. now exists w.
Qed.

(** [strip] removes whitespace at both ends and leaves none there. *)
Lemma strip_spec (s : string) :
  (exists pre post,
      chars s = pre ++ chars (Py.strip s) ++ post /\
      tokens_only Py.whitespace pre /\ tokens_only Py.whitespace post) /\
  ~ space_first (Py.strip s) /\ ~ space_last (Py.strip s).
Proof.
  rewrite chars_strip.
  destruct (lstrip_bytes_spec (chars s)) as (pre & Hl & Hpre & Hfirst).
  destruct (rstrip_bytes_spec (Py.lstrip_bytes (chars s))) as (post & Hr & Hpost & Hlast).
  split; [|split].
  - exists pre, post. split; [|auto]. now rewrite <- Hr.
  - intros (w & Hw & Hprefix). unfold space_first in *. rewrite chars_strip in Hprefix.
    apply (Hfirst w Hw). rewrite Hr. now apply prefix_app_r.
  - intros (w & Hw & Hsuffix). rewrite chars_strip in Hsuffix. now apply (Hlast w Hw).
Qed.

(** A string with no whitespace at either end is left as it is. *)
Lemma strip_fixed (s : string) : ~ space_first s -> ~ space_last s -> Py.strip s = s.
Proof.
  intros Hfirst Hlast. apply chars_inj. rewrite chars_strip.
  assert (Py.lstrip_bytes (chars s) = chars s) as ->.
  { apply drop_tokens_fixed, first_token_none. intros w Hw Hp. apply Hfirst. now exists w. }
  unfold Py.rstrip_bytes. rewrite drop_tokens_fixed; [apply rev_involutive|].
  apply first_token_none. intros w Hw Hp. apply list_elem_of_fmap in Hw as (w' & -> & Hw').
  apply Hlast. exists w'. split; [exact Hw'|].
  destruct Hp as [k Hk]. exists (rev k).
  rewrite <- (rev_involutive (chars s)), Hk, rev_app_distr. now rewrite rev_involutive.
Qed.

(** A string that [strip] leaves as it is has no whitespace at either
    end. *)
Lemma stripped_ends (s : string) : Py.strip s = s -> ~ space_first s /\ ~ space_last s.
Proof. intros H. destruct (strip_spec s) as (_ & Hends). now rewrite H in Hends. Qed.

Lemma strip_idempotent (s : string) : Py.strip (Py.strip s) = Py.strip s.
Proof. destruct (strip_spec s) as (_ & Hfirst & Hlast). now apply strip_fixed. Qed.

(** [strip] gives the empty string exactly on blank strings. *)
Lemma strip_empty_iff (s : string) : Py.strip s = "" <-> blank s.
Proof.
  split.
  - intros Hempty. destruct (strip_spec s) as ((pre & post & Hs & Hpre & Hpost) & _).
    rewrite Hempty in Hs. simpl in Hs. unfold blank. rewrite Hs.
    now apply tokens_only_app.
  - intros Hblank. apply chars_inj. rewrite chars_strip.
    unfold Py.lstrip_bytes.
    rewrite (drop_tokens_all Py.whitespace whitespace_nonempty whitespace_prefix_free
               (chars s) Hblank) by lia.
    reflexivity.
Qed.

Example strip_example : Py.strip ("  More " +:+ Py.nl) = "More".
Proof. reflexivity. Qed.

(** U+00A0 (bytes C2 A0) and U+3000 (bytes E3 80 80) are whitespace, the
    letter U+00E0 (bytes C3 A0) is not. *)
Example strip_unicode_example :
  let nbsp := String.string_of_list_ascii (Py.bytes_of [194; 160]) in
  let wide := String.string_of_list_ascii (Py.bytes_of [227; 128; 128]) in
  let a_grave := String.string_of_list_ascii (Py.bytes_of [195; 160]) in
  Py.strip (nbsp +:+ " voil" +:+ a_grave +:+ wide +:+ Py.nl) = "voil" +:+ a_grave /\
  Py.strip (nbsp +:+ wide) = "".
Proof. split; reflexivity. Qed.

(** ** Joining, searching and splitting *)

Lemma join_head (sep x : string) (l : list string) :
  exists tail, Py.join sep (x :: l) = x +:+ tail.
Proof.
  destruct l as [|y l]; simpl.
  - exists "". apply chars_inj. rewrite chars_app. now rewrite app_nil_r.
  - eauto.
Qed.

Lemma contains_char (c : ascii) (s : string) :
  c ∈ chars s -> Py.contains (String c "") s = true.
Proof.
  induction s as [|a s IH]; unfold chars; simpl.
  - intros H. now apply elem_of_nil in H.
  - intros H. apply elem_of_cons in H as [->|H].
    + destruct (ascii_dec _ _) as [_|Hne]; [now destruct s|now destruct Hne].
    + fold (chars s) in H. rewrite (IH H). apply orb_true_r.
Qed.

(** The first piece of a split: the longest prefix free of the separator. *)
Lemma split_go_head (sep : ascii) (t : string) :
  forall cur,
  exists q,
    head (Py.split_go sep cur t) = Some (String.rev (String.rev_app q cur)) /\
    (sep ∉ chars q) /\
    (t = q \/ exists tail, t = q +:+ String sep tail).
Proof.
  induction t as [|c t IH]; intros cur; simpl.
  - exists "". repeat split; [set_solver|now left].
  - destruct (Stdlib.Strings.Ascii.eqb c sep) eqn:Hc.
    + apply Stdlib.Strings.Ascii.eqb_eq in Hc as ->.
      exists "". repeat split; [set_solver|]. right. now exists t.
    + apply Stdlib.Strings.Ascii.eqb_neq in Hc.
      destruct (IH (String c cur)) as (q & Hhead & Hfree & Hshape).
      exists (String c q). split; [exact Hhead|]. split.
      * unfold chars in *. simpl. set_solver.
      * destruct Hshape as [->|(tail & ->)]; [now left|right; now exists tail].
Qed.

(** Appending the separator and more text does not change the first piece. *)
Lemma split_go_head_app (sep : ascii) (t rest : string) :
  forall cur,
    head (Py.split_go sep cur (t +:+ String sep rest)) = head (Py.split_go sep cur t).
Proof.
  induction t as [|c t IH]; intros cur.
  - change ("" +:+ String sep rest) with (String sep rest). simpl.
    now rewrite Stdlib.Strings.Ascii.eqb_refl.
  - change (String c t +:+ String sep rest) with (String c (t +:+ String sep rest)).
    simpl. destruct (Stdlib.Strings.Ascii.eqb c sep); [reflexivity|apply IH].
Qed.

(** A prefix free of the separator is the first piece; the split goes on
    after the separator. *)
Lemma split_go_prefix (sep : ascii) (pre rest : string) :
  sep ∉ chars pre ->
  forall cur,
    Py.split_go sep cur (pre +:+ String sep rest) =
      String.rev (String.rev_app pre cur) :: Py.split_go sep "" rest.
Proof.
  induction pre as [|c pre IH]; intros Hfree cur.
  - change ("" +:+ String sep rest) with (String sep rest). simpl.
    now rewrite Stdlib.Strings.Ascii.eqb_refl.
  - change (String c pre +:+ String sep rest) with (String c (pre +:+ String sep rest)).
    simpl. destruct (Stdlib.Strings.Ascii.eqb c sep) eqn:Hc.
    + apply Stdlib.Strings.Ascii.eqb_eq in Hc as ->. exfalso. apply Hfree.
      unfold chars. simpl. set_solver.
    + apply IH. intros Hin. apply Hfree. unfold chars in *. simpl. set_solver.
Qed.

Lemma quoted_topic_between (pre topic rest : string) :
  Py.apostrophe ∉ chars pre ->
  exists q,
    quoted_topic (pre +:+ String Py.apostrophe (topic +:+ String Py.apostrophe rest)) = q /\
    (Py.apostrophe ∉ chars q) /\
    (topic = q \/ exists tail, topic = q +:+ String Py.apostrophe tail).
Proof.
  intros Hfree. unfold quoted_topic.
  rewrite contains_char
    by (rewrite chars_app; unfold chars at 2; simpl; set_solver).
  unfold Py.split. rewrite (split_go_prefix _ _ _ Hfree). simpl.
  destruct (split_go_head Py.apostrophe topic "") as (q & Hhead & Hq & Hshape).
  exists q. split; [|auto].
  pose proof (split_go_head_app Py.apostrophe topic rest "") as Happ.
  rewrite Hhead in Happ.
  destruct (Py.split_go Py.apostrophe "" (topic +:+ String Py.apostrophe rest))
    as [|first others]; [discriminate|].
  injection Happ as ->. simpl.
  change (String.rev_app q "") with (String.rev q). apply string_rev_involutive.
Qed.

Lemma user_content_shape (S : McpSource) (topic : string) :
  S = reddit_source \/ S = twitter_source ->
  exists pre rest,
    (Py.apostrophe ∉ chars pre) /\
    user_content S topic =
      pre +:+ String Py.apostrophe (topic +:+ String Py.apostrophe rest).
Proof.
  intros [-> | ->].
  - exists "Analyze Reddit posts about ". eexists. split.
    + apply (bool_decide_unpack _). vm_compute. exact I.
    + cbn [user_content reddit_source]. unfold Py.text. cbn [Py.join].
      rewrite !string_app_assoc. reflexivity.
  - exists "Analyze Twitter/X posts about ". eexists. split.
    + apply (bool_decide_unpack _). vm_compute. exact I.
    + cbn [user_content twitter_source]. unfold Py.text. cbn [Py.join].
      rewrite !string_app_assoc. reflexivity.
Qed.


(** The quoted topic of a topic without apostrophe is the topic. *)
Lemma quoted_topic_plain (S : McpSource) (topic : string) :
  S = reddit_source \/ S = twitter_source ->
  Py.apostrophe ∉ chars topic ->
  quoted_topic (user_content S topic) = topic.
Proof.
  intros HS Hplain. destruct (user_content_shape S topic HS) as (pre & rest & Hfree & ->).
  destruct (quoted_topic_between pre topic rest Hfree) as (q & Hq & Hqfree & Hshape).
  rewrite Hq. destruct Hshape as [->|(tail & ->)]; [reflexivity|].
  exfalso. apply Hplain. rewrite chars_app. unfold chars at 2. simpl. set_solver.
Qed.

(** ** Occurrences of a text in another *)

Lemma occurs_in_refl (s : string) : occurs_in s s.
Proof. exists "", "". now rewrite string_app_nil_r. Qed.

Lemma occurs_in_app_l (x a b : string) : occurs_in x b -> occurs_in x (a +:+ b).
Proof.
  intros (before & after & ->). exists (a +:+ before), after.
  now rewrite !string_app_assoc.
Qed.

Lemma occurs_in_app_r (x a b : string) : occurs_in x a -> occurs_in x (a +:+ b).
Proof.
  intros (before & after & ->). exists before, (after +:+ b).
  now rewrite !string_app_assoc.
Qed.

Lemma occurs_in_trans (x y z : string) : occurs_in x y -> occurs_in y z -> occurs_in x z.
Proof.
  intros (b1 & a1 & ->) (b2 & a2 & ->). exists (b2 +:+ b1), (a1 +:+ a2).
  now rewrite !string_app_assoc.
Qed.

Lemma occurs_in_join (sep x : string) (l : list string) :
  x ∈ l -> occurs_in x (Py.join sep l).
Proof.
  induction l as [|y l IH]; intros Hin; [now apply elem_of_nil in Hin|].
  destruct l as [|z l].
  - apply list_elem_of_singleton in Hin as ->. apply occurs_in_refl.
  - change (Py.join sep (y :: z :: l)) with (y +:+ sep +:+ Py.join sep (z :: l)).
    apply elem_of_cons in Hin as [->|Hin].
    + apply occurs_in_app_r, occurs_in_refl.
    + apply occurs_in_app_l, occurs_in_app_l, IH, Hin.
Qed.

(** An occurrence leaves no room for the empty text. *)
Lemma occurs_in_empty (x : string) : occurs_in x "" -> x = "".
Proof.
  intros (before & after & H). apply (f_equal chars) in H. rewrite !chars_app in H.
  symmetry in H. apply app_eq_nil in H as [_ H]. apply app_eq_nil in H as [H _].
  now apply chars_nil.
Qed.

(** ** Paths *)

(** A path is never the empty string. *)
Lemma path_truthy (segments : list string) : Py.truthy (Py.path segments) = true.
Proof.
  unfold Py.path. destruct (Py.splitroot _) as [root rel].
  destruct (Py.truthy (root +:+ Py.join "/" (Py.path_parts rel))) eqn:Hshown;
    [exact Hshown|reflexivity].
Qed.

(** A text free of the separator is its only piece. *)
Lemma split_go_no_sep (sep : ascii) (t : string) :
  sep ∉ chars t ->
  forall cur, Py.split_go sep cur t = [String.rev (String.rev_app t cur)].
Proof.
  induction t as [|c t IH]; intros Hfree cur; [reflexivity|].
  simpl. destruct (Stdlib.Strings.Ascii.eqb c sep) eqn:Hc.
  - apply Stdlib.Strings.Ascii.eqb_eq in Hc as ->. exfalso. apply Hfree.
    unfold chars. simpl. set_solver.
  - apply IH. intros Hin. apply Hfree. unfold chars in *. simpl. set_solver.
Qed.

(** [Path("audio") / "tts_<stamp>.mp3"], for a stamp without slash. *)
Lemma audio_path (stamp : string) :
  "/"%char ∉ chars stamp ->
  Py.path ["audio"; "tts_" +:+ stamp +:+ ".mp3"] = "audio/tts_" +:+ stamp +:+ ".mp3".
Proof.
  intros Hfree.
  assert ("/"%char ∉ chars ("tts_" +:+ stamp +:+ ".mp3")) as Hname.
  { rewrite !chars_app. intros Hin. apply elem_of_app in Hin as [Hin|Hin].
    - revert Hin. apply (bool_decide_unpack _). vm_compute. exact I.
    - apply elem_of_app in Hin as [Hin|Hin]; [now apply Hfree|].
      revert Hin. apply (bool_decide_unpack _). vm_compute. exact I. }
  unfold Py.path. cbn [fold_left].
  change (Py.posix_join "audio" ("tts_" +:+ stamp +:+ ".mp3"))
    with ("audio" +:+ String "/" ("tts_" +:+ stamp +:+ ".mp3")).
  change (Py.splitroot ("audio" +:+ String "/" ("tts_" +:+ stamp +:+ ".mp3")))
    with ("", "audio" +:+ String "/" ("tts_" +:+ stamp +:+ ".mp3")).
  cbv iota beta. unfold Py.path_parts, Py.split.
  rewrite split_go_prefix by (apply (bool_decide_unpack _); vm_compute; exact I).
  rewrite (split_go_no_sep _ _ Hname).
  change (String.rev (String.rev_app "audio" "")) with "audio".
  change (String.rev_app ("tts_" +:+ stamp +:+ ".mp3") "")
    with (String.rev ("tts_" +:+ stamp +:+ ".mp3")).
  rewrite string_rev_involutive.
  reflexivity.
Qed.

Example path_examples :
  Py.path ["audio"; "tts_20250101_120000.mp3"] = "audio/tts_20250101_120000.mp3" /\
  Py.path ["audio/"; "tts_20250101_120000.mp3"] = "audio/tts_20250101_120000.mp3" /\
  Py.path [""; "tts_20250101_120000.mp3"] = "tts_20250101_120000.mp3" /\
  Py.path ["a//b/./c"; "x.mp3"] = "a/b/c/x.mp3" /\
  Py.path ["//srv"; "x.mp3"] = "//srv/x.mp3" /\
  Py.path ["///srv"; "x.mp3"] = "/srv/x.mp3" /\
  Py.path [""] = "." /\ Py.path ["audio"] = "audio".
Proof. repeat split. Qed.
(** ** The pure helpers on examples *)

Example split_lines_example :
  Py.split "010"%char (Py.text ["a"; ""; "b"]) = ["a"; ""; "b"].
Proof. reflexivity. Qed.

Example extract_headlines_example :
  extract_headlines (Py.text ["First"; "source"; "More"; "Second"; ""; " More "; "Third"])
  = Py.text ["First"; "Second"; "Third"].
Proof. reflexivity. Qed.

Example extract_headlines_empty : extract_headlines "" = "".
Proof. reflexivity. Qed.

Example quoted_topic_example :
  quoted_topic (user_content reddit_source "rust") = "rust" /\
  quoted_topic (user_content twitter_source "it's") = "it" /\
  quoted_topic "no quote here" = "the topic".
Proof. repeat split. Qed.

Example wait_exponential_example :
  map (wait_exponential mcp_retry) [1; 2; 3; 7] = [15; 15; 15; 60]%Z /\
  map (wait_exponential news_retry) [1; 2; 3; 7] = [2; 2; 4; 10]%Z.
Proof. split; reflexivity. Qed.

Example voice_example :
  get_voice_for_language "ja" = "kei" /\ get_voice_for_language "ja-JP" = "en-US-natalie".
Proof. split; reflexivity. Qed.

(** ** The retry wrapper *)

Section RetryFacts.
Context {A : Type} (c : RetryConfig) (op : M A).

Lemma retrying_attempts_bounds (left n : nat) (h : list event) :
  n <= snd (fst (retrying c left n op h)) <= n + left.
Proof.
  revert n h. induction left as [|left IH]; intros n h; simpl.
  - destruct (op h) as [[a|e] h']; simpl; [lia|].
    destruct (retry_if c e); simpl; lia.
  - destruct (op h) as [[a|e] h']; simpl; [lia|].
    destruct (retry_if c e); simpl; [|lia].
    specialize (IH (S n) (h' ++ [EvSleep (wait_exponential c n)])). lia.
Qed.

Lemma retry_first_ok (h h' : list event) (a : A) :
  op h = (Ok a, h') -> retry c op h = (Ok a, h') /\ attempts c op h = 1.
Proof.
  intros Hop. unfold retry, attempts.
  destruct (stop_after_attempt c - 1); simpl; rewrite Hop; auto.
Qed.

Lemma retry_not_retryable (h h' : list event) (e : exn) :
  op h = (Raise e, h') -> retry_if c e = false ->
  retry c op h = (Raise e, h') /\ attempts c op h = 1.
Proof.
  intros Hop Hno. unfold retry, attempts.
  destruct (stop_after_attempt c - 1); simpl; rewrite Hop, Hno; auto.
Qed.

End RetryFacts.

Section RetryThree.
Context {A : Type} (c : RetryConfig) (op : M A).
Hypothesis three : stop_after_attempt c = 3.

Lemma retry_at_most_three (h : list event) : 1 <= attempts c op h <= 3.
Proof.
  unfold attempts. rewrite three.
  pose proof (retrying_attempts_bounds c op (3 - 1) 1 h). simpl in *. lia.
Qed.

(** One retryable failure, then an outcome that is not retried. *)
Lemma retry_second_attempt (h h1 h2 : list event) (e1 : exn) (r : res A) :
  op h = (Raise e1, h1) -> retry_if c e1 = true ->
  op (h1 ++ [EvSleep (wait_exponential c 1)]) = (r, h2) ->
  (forall e, r = Raise e -> retry_if c e = false) ->
  retry c op h = (r, h2) /\ attempts c op h = 2.
Proof.
  intros H1 R1 H2 Hfinal. unfold retry, attempts. rewrite three. simpl.
  rewrite H1, R1, H2.
  destruct r as [v|e2]; simpl; [auto|]. now rewrite (Hfinal e2 eq_refl).
Qed.

(** Two retryable failures, then whatever the third attempt gives. *)
Lemma retry_third_attempt (h h1 h2 h3 : list event) (e1 e2 : exn) (r : res A) :
  op h = (Raise e1, h1) -> retry_if c e1 = true ->
  op (h1 ++ [EvSleep (wait_exponential c 1)]) = (Raise e2, h2) -> retry_if c e2 = true ->
  op (h2 ++ [EvSleep (wait_exponential c 2)]) = (r, h3) ->
  retry c op h =
    (match r with
     | Ok v => Ok v
     | Raise e3 =>
         if retry_if c e3 then Raise (if reraise c then e3 else RetryError e3)
         else Raise e3
     end, h3)
  /\ attempts c op h = 3.
Proof.
  intros H1 R1 H2 R2 H3. unfold retry, attempts. rewrite three. simpl.
  rewrite H1, R1, H2, R2, H3.
  destruct r as [v|e3]; simpl; [auto|].
  destruct (retry_if c e3); auto.
Qed.

End RetryThree.

(** What [process_topic] turns a failure of its agent into. *)
Lemma process_topic_body_failure (E : Env) (S : McpSource) (agent : Agent) (topic : string)
    (h h' : list event) (e : exn) :
  ainvoke agent
    [ {| role := "system"; content := system_content S E |};
      {| role := "user"; content := user_content S topic |} ]
    (h ++ [EvAcquire (limiter S)]) = (Raise e, h') ->
  process_topic_body E S agent topic h =
    (Raise (if Py.contains "Overloaded" (exn_str e)
            then MCPOverloadedError "Service overloaded" else e), h').
Proof.
  intros Hinv. unfold process_topic_body, bind, try_except, tick. simpl.
  rewrite Hinv. unfold raise. destruct (Py.contains _ _); reflexivity.
Qed.

Lemma process_topic_body_success (E : Env) (S : McpSource) (agent : Agent) (topic : string)
    (h h' : list event) (response : list string) (c : string) :
  ainvoke agent
    [ {| role := "system"; content := system_content S E |};
      {| role := "user"; content := user_content S topic |} ]
    (h ++ [EvAcquire (limiter S)]) = (Ok response, h') ->
  last response = Some c ->
  process_topic_body E S agent topic h = (Ok c, h').
Proof.
  intros Hinv Hlast. unfold process_topic_body, bind, try_except, tick. simpl.
  rewrite Hinv. unfold last_content. rewrite Hlast. reflexivity.
Qed.

(** ** Dictionaries filled by a loop over the topics *)

Lemma fold_insert_lookup (f : string -> string) (topics : list string)
    (d : gmap string string) (t : string) :
  fold_left (fun d t => <[t := f t]> d) topics d !! t =
    if decide (t ∈ topics) then Some (f t) else d !! t.
Proof.
  revert d. induction topics as [|x rest IH]; intros d; cbn [fold_left].
  - case_decide; [set_solver|reflexivity].
  - rewrite IH. destruct (decide (t ∈ rest)) as [Hin|Hout].
    + case_decide; [reflexivity|set_solver].
    + destruct (decide (x = t)) as [->|Hne].
      * case_decide; [apply lookup_insert_eq|set_solver].
      * case_decide; [set_solver|now apply lookup_insert_ne].
Qed.

Lemma fold_insert_dom (f : string -> string) (topics : list string) (d : gmap string string) :
  dom (fold_left (fun d t => <[t := f t]> d) topics d) = dom d ∪ list_to_set topics.
Proof.
  revert d. induction topics as [|x rest IH]; intros d; simpl.
  - set_solver.
  - rewrite IH, dom_insert_L. set_solver.
Qed.

(** ** The News collector *)

Section NewsFacts.
Context (E : Env).

Lemma scrape_news_loop_app (pre post : list string) (results : gmap string string)
    (h : list event) :
  scrape_news_loop E (pre ++ post) results h =
    match scrape_news_loop E pre results h with
    | (Ok d, h1) => scrape_news_loop E post d h1
    | (Raise e, h1) => (Raise e, h1)
    end.
Proof.
  revert results h. induction pre as [|topic rest IH]; intros results h; simpl.
  - reflexivity.
  - unfold bind, tick, try_except; simpl.
    destruct (news_topic E topic _) as [[v|e] h1]; simpl; apply IH.
Qed.

(** The loop never raises, and it fills exactly the keys it is given. *)
Lemma scrape_news_loop_ok (topics : list string) :
  forall (results : gmap string string) (h : list event),
  exists d h',
    scrape_news_loop E topics results h = (Ok d, h') /\
    dom d = dom results ∪ list_to_set topics /\
    (forall t, t ∉ topics -> d !! t = results !! t) /\
    (forall t, t ∈ topics ->
       exists v, d !! t = Some v /\
                 (v = news_unavailable t \/ returned_by (news_topic E t) v)).
Proof.
  induction topics as [|topic rest IH]; intros results h; simpl.
  - exists results, h. repeat split; [set_solver|set_solver].
  - unfold bind, tick, try_except; simpl.
    destruct (news_topic E topic (h ++ [EvAcquire news_rate_limiter]))
      as [[v|e] h1] eqn:Hn; simpl.
    + destruct (IH (<[topic := v]> results) (h1 ++ [EvSleep 1]))
        as (d & h' & Hd & Hdom & Hout & Hin).
      exists d, h'. split; [exact Hd|]. split; [rewrite Hdom, dom_insert_L; set_solver|].
      split.
      * intros t Ht. rewrite Hout by set_solver. apply lookup_insert_ne. set_solver.
      * intros t Ht. destruct (decide (t ∈ rest)) as [Hr|Hr]; [now apply Hin|].
        assert (t = topic) as -> by set_solver.
        exists v. rewrite Hout by exact Hr. rewrite lookup_insert_eq.
        split; [reflexivity|]. right. eexists _, _. exact Hn.
    + destruct (IH (<[topic := news_unavailable topic]> results) (h1 ++ [EvSleep 1]))
        as (d & h' & Hd & Hdom & Hout & Hin).
      exists d, h'. split; [exact Hd|]. split; [rewrite Hdom, dom_insert_L; set_solver|].
      split.
      * intros t Ht. rewrite Hout by set_solver. apply lookup_insert_ne. set_solver.
      * intros t Ht. destruct (decide (t ∈ rest)) as [Hr|Hr]; [now apply Hin|].
        assert (t = topic) as -> by set_solver.
        exists (news_unavailable topic). rewrite Hout by exact Hr. rewrite lookup_insert_eq.
        split; [reflexivity|]. now left.
Qed.

(** The decorated function is its body run once. *)
Lemma scrape_news_runs_once (topics : list string) (h : list event) :
  exists d h',
    scrape_news_loop E topics ∅ h = (Ok d, h') /\
    scrape_news E topics h = (Ok {| news_analysis := d |}, h') /\
    attempts news_retry (scrape_news_body E topics) h = 1.
Proof.
  destruct (scrape_news_loop_ok topics ∅ h) as (d & h' & Hd & _).
  exists d, h'. split; [exact Hd|].
  apply retry_first_ok. unfold scrape_news_body, bind. now rewrite Hd.
Qed.

End NewsFacts.

(** ** The session-scoped collectors (Reddit, Twitter) *)

Section McpFacts.
Context (E : Env) (S : McpSource) (agent : Agent).

Lemma all_unavailable_lookup (topics : list string) (t : string) :
  t ∈ topics -> all_unavailable S topics !! t = Some (unavailable S t).
Proof.
  intros Ht. unfold all_unavailable.
  rewrite (fold_insert_lookup (unavailable S)). now rewrite decide_True.
Qed.

Lemma all_unavailable_dom (topics : list string) :
  dom (all_unavailable S topics) = list_to_set topics.
Proof.
  unfold all_unavailable. rewrite (fold_insert_dom (unavailable S)). set_solver.
Qed.

Lemma scrape_loop_app (pre post : list string) (results : gmap string string)
    (h : list event) :
  scrape_loop E S agent (pre ++ post) results h =
    match scrape_loop E S agent pre results h with
    | (Ok d, h1) => scrape_loop E S agent post d h1
    | (Raise e, h1) => (Raise e, h1)
    end.
Proof.
  revert results h. induction pre as [|topic rest IH]; intros results h; simpl.
  - reflexivity.
  - unfold bind, tick; simpl.
    destruct (process E S agent topic h) as [[v|e] h1]; simpl; [apply IH|reflexivity].
Qed.

(** A failing topic ends the loop with its failure. *)
Lemma scrape_loop_failure (topic : string) (post : list string)
    (results : gmap string string) (h h' : list event) (e : exn) :
  process E S agent topic h = (Raise e, h') ->
  scrape_loop E S agent (topic :: post) results h = (Raise e, h').
Proof. intros Hp. simpl. unfold bind. now rewrite Hp. Qed.

(** When the loop completes, it has filled exactly the keys it was given,
    each with what [process] returned for it. *)
Lemma scrape_loop_ok (topics : list string) :
  forall (results d : gmap string string) (h h' : list event),
    scrape_loop E S agent topics results h = (Ok d, h') ->
    dom d = dom results ∪ list_to_set topics /\
    (forall t, t ∉ topics -> d !! t = results !! t) /\
    (forall t, t ∈ topics ->
       exists v, d !! t = Some v /\ returned_by (process E S agent t) v).
Proof.
  induction topics as [|topic rest IH]; intros results d h h'; simpl.
  - intros [= <- <-]. repeat split; [set_solver|set_solver].
  - unfold bind, tick; simpl.
    destruct (process E S agent topic h) as [[v|e] h1] eqn:Hp; simpl; [|discriminate].
    intros Hloop. destruct (IH _ _ _ _ Hloop) as (Hdom & Hout & Hin).
    split; [rewrite Hdom, dom_insert_L; set_solver|]. split.
    + intros t Ht. rewrite Hout by set_solver. apply lookup_insert_ne. set_solver.
    + intros t Ht. destruct (decide (t ∈ rest)) as [Hr|Hr]; [now apply Hin|].
      assert (t = topic) as -> by set_solver.
      exists v. rewrite Hout by exact Hr. rewrite lookup_insert_eq.
      split; [reflexivity|]. eexists _, _. exact Hp.
Qed.

(** The collector never raises: it returns what the loop filled, or the
    placeholder for every topic. *)
Lemma scrape_topics_cases (topics : list string) (h : list event) :
  exists d h',
    scrape_topics E S agent topics h = (Ok d, h') /\
    (d = all_unavailable S topics \/
     exists h0 h1, scrape_loop E S agent topics ∅ h0 = (Ok d, h1)).
Proof.
  unfold scrape_topics, try_except, with_resource, bind, call, ret; simpl.
  destruct (answer E h EvOpenSession) as [r0|e0]; simpl; [|eauto].
  destruct (answer E (h ++ [EvOpenSession]) EvInitialize) as [r1|e1]; simpl; [|eauto].
  destruct (answer E ((h ++ [EvOpenSession]) ++ [EvInitialize]) EvLoadTools)
    as [r2|e2]; simpl; [|eauto].
  destruct (scrape_loop E S agent topics ∅ _) as [[d|e] h1] eqn:Hloop; simpl; [|eauto].
  exists d. eexists. split; [reflexivity|]. right. eauto.
Qed.

Lemma scrape_topics_ok (topics : list string) (h : list event) :
  exists d h',
    scrape_topics E S agent topics h = (Ok d, h') /\
    dom d = list_to_set topics /\
    (forall t, t ∈ topics ->
       exists v, d !! t = Some v /\
                 (v = unavailable S t \/ returned_by (process E S agent t) v)).
Proof.
  destruct (scrape_topics_cases topics h) as (d & h' & Hrun & [-> | (h0 & h1 & Hloop)]).
  - exists (all_unavailable S topics), h'. split; [exact Hrun|].
    split; [apply all_unavailable_dom|].
    intros t Ht. exists (unavailable S t). split; [now apply all_unavailable_lookup|now left].
  - exists d, h'. split; [exact Hrun|].
    destruct (scrape_loop_ok topics _ _ _ _ Hloop) as (Hdom & _ & Hin).
    split; [rewrite Hdom; set_solver|].
    intros t Ht. destruct (Hin t Ht) as (v & Hv & Hret). exists v. auto.
Qed.


(** A failure in the middle of the batch: the session is left, and the
    result is the placeholder for every topic of the batch. *)
Lemma scrape_topics_abort (pre post : list string) (topic : string) (h h2 : list event)
    (done : gmap string string) (e : exn) :
  fails_mid_batch E S agent pre topic h done e h2 ->
  scrape_topics E S agent (pre ++ topic :: post) h =
    (Ok (all_unavailable S (pre ++ topic :: post)), h2 ++ [EvCloseSession]).
Proof.
  intros [((r0 & H0) & (r1 & H1) & (r2 & H2)) (h1 & Hpre & Hfail)].
  unfold scrape_topics, try_except, with_resource, bind, call, ret; simpl.
  rewrite H0; simpl. rewrite H1; simpl.
  replace ((h ++ [EvOpenSession]) ++ [EvInitialize])
    with (h ++ [EvOpenSession; EvInitialize]) by now rewrite <- app_assoc.
  rewrite H2; simpl.
  replace ((h ++ [EvOpenSession; EvInitialize]) ++ [EvLoadTools])
    with (session_start h) by (unfold session_start; now rewrite <- app_assoc).
  rewrite scrape_loop_app, Hpre.
  rewrite (scrape_loop_failure topic post done h1 h2 e Hfail). reflexivity.
Qed.

End McpFacts.

(** ** The collectors with the agents the modules build *)

Section ModuleAgents.
Context (E : Env) (S : McpSource).

(** With the agent of the module the per-topic call is the pass of the
    limiter and one model call; a failure of the model gives the
    placeholder. *)
Lemma model_agent_process (topic : string) (h : list event) :
  let ask :=
    EvGenerateContent (system_content S E +:+ Py.nl +:+ Py.nl +:+ user_content S topic)
                      (Some (agent_config S)) in
  process E S (model_agent E S) topic h =
    (Ok (match answer E (h ++ [EvAcquire (limiter S)]) ask with
         | Ok text => text
         | Raise _ => unavailable S (quoted_topic (user_content S topic))
         end),
     h ++ [EvAcquire (limiter S); ask]).
Proof.
  intros ask.
  destruct (answer E (h ++ [EvAcquire (limiter S)]) ask) as [text|e] eqn:Hanswer;
    apply retry_first_ok;
    unfold process_topic_body, bind, tick, try_except; simpl;
    unfold model_ainvoke, message_of_role, try_except, bind, call; simpl;
    fold ask; rewrite Hanswer; simpl; unfold ret; now rewrite <- app_assoc.
Qed.

Lemma scrape_loop_model_ok (topics : list string) :
  forall (results : gmap string string) (h : list event),
  exists d h', scrape_loop E S (model_agent E S) topics results h = (Ok d, h').
Proof.
  induction topics as [|topic rest IH]; intros results h; simpl.
  - eexists _, _. reflexivity.
  - unfold bind, tick. rewrite model_agent_process. simpl. apply IH.
Qed.

(** Once the session is open the collector is its loop, followed by the
    end of the session. *)
Lemma scrape_topics_open (agent : Agent) (topics : list string) (h : list event) :
  session_opens E h ->
  scrape_topics E S agent topics h =
    match scrape_loop E S agent topics ∅ (session_start h) with
    | (Ok d, h') => (Ok d, h' ++ [EvCloseSession])
    | (Raise e, h') => (Ok (all_unavailable S topics), h' ++ [EvCloseSession])
    end.
Proof.
  intros ((r0 & H0) & (r1 & H1) & (r2 & H2)).
  unfold scrape_topics, try_except, with_resource, bind, call, ret, tick; simpl.
  rewrite H0; simpl. rewrite H1; simpl.
  replace ((h ++ [EvOpenSession]) ++ [EvInitialize])
    with (h ++ [EvOpenSession; EvInitialize]) by now rewrite <- app_assoc.
  rewrite H2; simpl.
  replace ((h ++ [EvOpenSession; EvInitialize]) ++ [EvLoadTools])
    with (session_start h) by (unfold session_start; now rewrite <- app_assoc).
  now destruct (scrape_loop E S agent topics ∅ (session_start h)) as [[d|e] h'].
Qed.

(** The model fails for [topic] in the middle of the batch: the topic
    gets the placeholder of the agent and the loop goes on. *)
Lemma model_failure_contained (pre post : list string) (topic : string) (h h1 : list event)
    (done : gmap string string) (e : exn) :
  let ask :=
    EvGenerateContent (system_content S E +:+ Py.nl +:+ Py.nl +:+ user_content S topic)
                      (Some (agent_config S)) in
  let placeholder := unavailable S (quoted_topic (user_content S topic)) in
  session_opens E h ->
  scrape_loop E S (model_agent E S) pre ∅ (session_start h) = (Ok done, h1) ->
  answer E (h1 ++ [EvAcquire (limiter S)]) ask = Raise e ->
  exists d h',
    scrape_topics E S (model_agent E S) (pre ++ topic :: post) h
      = (Ok d, h' ++ [EvCloseSession]) /\
    scrape_loop E S (model_agent E S) post (<[topic := placeholder]> done)
      (h1 ++ [EvAcquire (limiter S); ask; EvSleep (pause S)]) = (Ok d, h') /\
    (topic ∉ post -> d !! topic = Some placeholder) /\
    (forall u, u <> topic -> u ∉ post -> d !! u = done !! u).
Proof.
  intros ask placeholder Hopen Hpre Hfail.
  destruct (scrape_loop_model_ok post (<[topic := placeholder]> done)
              (h1 ++ [EvAcquire (limiter S); ask; EvSleep (pause S)]))
    as (d & h' & Hpost).
  exists d, h'.
  assert (scrape_loop E S (model_agent E S) (pre ++ topic :: post) ∅ (session_start h)
          = (Ok d, h')) as Hloop.
  { rewrite scrape_loop_app, Hpre. simpl. unfold bind, tick.
    rewrite model_agent_process. fold ask. rewrite Hfail. simpl.
    rewrite <- app_assoc. exact Hpost. }
  split; [rewrite (scrape_topics_open _ _ _ Hopen); now rewrite Hloop|].
  split; [exact Hpost|].
  destruct (scrape_loop_ok E S _ post _ _ _ _ Hpost) as (_ & Hout & _).
  split.
  - intros Hfresh. rewrite Hout by exact Hfresh. apply lookup_insert_eq.
  - intros u Hne Hfresh. rewrite Hout by exact Hfresh. now apply lookup_insert_ne.
Qed.

(** When every call of the model fails, every topic processed by the
    loop has the placeholder of the agent. *)
Lemma scrape_loop_model_down (topics : list string) (results d : gmap string string)
    (h h' : list event) :
  (forall hh prompt config, exists e, answer E hh (EvGenerateContent prompt config) = Raise e) ->
  scrape_loop E S (model_agent E S) topics results h = (Ok d, h') ->
  forall t, t ∈ topics -> d !! t = Some (unavailable S (quoted_topic (user_content S t))).
Proof.
  intros Hdown Hloop t Ht.
  destruct (scrape_loop_ok E S _ topics _ _ _ _ Hloop) as (_ & _ & Hin).
  destruct (Hin t Ht) as (v & Hv & (h0 & h1 & Hret)).
  rewrite model_agent_process in Hret.
  destruct (Hdown (h0 ++ [EvAcquire (limiter S)])
              (system_content S E +:+ Py.nl +:+ Py.nl +:+ user_content S t)
              (Some (agent_config S))) as (e & He).
  rewrite He in Hret. injection Hret as <- _. exact Hv.
Qed.

End ModuleAgents.

(** ** The retry wrappers (C3) *)

(** C3.  The wrapper of [process_topic] and of [process_twitter_topic]
    runs its operation at most three times.  An attempt is followed by
    another one only when it fails with [MCPOverloadedError] and fewer than
    three attempts were made, after a wait of 15 seconds: a success or a
    failure of any other kind at the first or at the second attempt is the
    outcome of the call at once, and the outcome of a third attempt,
    success or failure, is the outcome of the call, so that a third failure
    leaves as it is.  Two overloaded attempts followed by a success give
    that success, with three attempts counted.  The wrapper of
    [scrape_news] never has anything to retry: its operation does not
    raise, so it is run once. *)
Theorem retry_wrappers {A : Type} (op : M A) (E : Env) (topics : list string)
    (h : list event) :
  1 <= attempts mcp_retry op h <= 3 /\
  (forall r h1,
      op h = (r, h1) ->
      (forall e, r = Raise e -> is_overloaded e = false) ->
      retry mcp_retry op h = (r, h1) /\ attempts mcp_retry op h = 1) /\
  (forall e1 h1 r h2,
      op h = (Raise e1, h1) -> is_overloaded e1 = true ->
      op (h1 ++ [EvSleep 15]) = (r, h2) ->
      (forall e, r = Raise e -> is_overloaded e = false) ->
      retry mcp_retry op h = (r, h2) /\ attempts mcp_retry op h = 2) /\
  (forall e1 h1 e2 h2 r h3,
      op h = (Raise e1, h1) -> is_overloaded e1 = true ->
      op (h1 ++ [EvSleep 15]) = (Raise e2, h2) -> is_overloaded e2 = true ->
      op (h2 ++ [EvSleep 15]) = (r, h3) ->
      retry mcp_retry op h = (r, h3) /\ attempts mcp_retry op h = 3) /\
  (forall agent topic,
      process_topic E agent topic =
        retry mcp_retry (process_topic_body E reddit_source agent topic) /\
      process_twitter_topic E agent topic =
        retry mcp_retry (process_topic_body E twitter_source agent topic)) /\
  (exists p h',
      scrape_news_body E topics h = (Ok p, h') /\
      scrape_news E topics h = (Ok p, h') /\
      attempts news_retry (scrape_news_body E topics) h = 1).
Proof.
  split; [apply (retry_at_most_three mcp_retry op eq_refl h)|].
  split; [|split; [|split; [|split]]].
  - intros r h1 Hop Hfinal. destruct r as [v|e].
    + now apply retry_first_ok.
    + apply retry_not_retryable; [exact Hop|now apply Hfinal].
  - intros e1 h1 r h2 H1 K1 H2 Hfinal.
    now apply (retry_second_attempt mcp_retry op eq_refl h h1 h2 e1 r).
  - intros e1 h1 e2 h2 r h3 H1 K1 H2 K2 H3.
    destruct (retry_third_attempt mcp_retry op eq_refl h h1 h2 h3 e1 e2 r)
      as [Hr Hn]; auto.
    split; [|exact Hn]. rewrite Hr.
    destruct r as [v|e3]; [reflexivity|]. simpl. now destruct (is_overloaded e3).
  - intros agent topic. split; reflexivity.
  - destruct (scrape_news_runs_once E topics h) as (d & h' & Hloop & Hrun & Hone).
    exists {| news_analysis := d |}, h'. split; [|auto].
    unfold scrape_news_body, bind. now rewrite Hloop.
Qed.

(** [process_topic] with an agent that is overloaded twice: the third
    attempt succeeds and three attempts are counted.  Overloaded once: two
    attempts.  An agent that loses its session: the failure leaves at the
    first attempt. *)
Lemma retry_wrappers_witness :
  (process_topic silent_world (overloaded_until 3 "digest") "rust" [] =
     (Ok "digest",
      [EvAcquire "mcp_limiter"; EvSleep 15; EvAcquire "mcp_limiter"; EvSleep 15;
       EvAcquire "mcp_limiter"])
   /\ attempts mcp_retry
        (process_topic_body silent_world reddit_source (overloaded_until 3 "digest") "rust") []
      = 3) /\
  (process_topic silent_world (overloaded_until 2 "digest") "rust" [] =
     (Ok "digest", [EvAcquire "mcp_limiter"; EvSleep 15; EvAcquire "mcp_limiter"])
   /\ attempts mcp_retry
        (process_topic_body silent_world reddit_source (overloaded_until 2 "digest") "rust") []
      = 2) /\
  (process_topic silent_world (fails_on "rust") "rust" [] =
     (Raise (PyException "RuntimeError" "session lost"), [EvAcquire "mcp_limiter"])
   /\ attempts mcp_retry
        (process_topic_body silent_world reddit_source (fails_on "rust") "rust") [] = 1).
Proof.
  split; [|split].
  - destruct (retry_wrappers
                (process_topic_body silent_world reddit_source (overloaded_until 3 "digest") "rust")
                silent_world [] []) as (_ & _ & _ & H & _).
    apply (H (MCPOverloadedError "Service overloaded") [EvAcquire "mcp_limiter"]
             (MCPOverloadedError "Service overloaded")
             [EvAcquire "mcp_limiter"; EvSleep 15; EvAcquire "mcp_limiter"]);
      reflexivity.
  - destruct (retry_wrappers
                (process_topic_body silent_world reddit_source (overloaded_until 2 "digest") "rust")
                silent_world [] []) as (_ & _ & H & _).
    apply (H (MCPOverloadedError "Service overloaded") [EvAcquire "mcp_limiter"]);
      [reflexivity|reflexivity|reflexivity|discriminate].
  - destruct (retry_wrappers
                (process_topic_body silent_world reddit_source (fails_on "rust") "rust")
                silent_world [] []) as (_ & H & _).
    apply H; [reflexivity|]. now intros e [= <-].
Defined.

(** The decorator of [scrape_news] names no kind of failure and does not
    re-raise: left to itself it would repeat the operation after any
    exception and wrap the third one in a [RetryError].  The operation it
    decorates catches every exception of every topic, so this never
    happens in a run. *)
Remark news_decorator_defaults :
  let e := PyException "ValueError" "bad input" in
  retry news_retry (raise (A := NewsPayload) e) [] = (Raise (RetryError e), [EvSleep 2; EvSleep 2]) /\
  attempts news_retry (raise (A := NewsPayload) e) [] = 3 /\
  retry mcp_retry (raise (A := NewsPayload) e) [] = (Raise e, []).
Proof. repeat split. Qed.

(** ** Coverage of the topics (C1) *)

(** C1.  Whatever the world and the agents do, and for every list of
    topics, each of the three collectors returns normally a dictionary whose
    key set is the set of the topics, and each topic is mapped to the
    placeholder of the source or to a summary the per-topic call returned. *)
Theorem collectors_cover_every_topic (E : Env) (reddit_agent twitter_agent : Agent)
    (topics : list string) (h : list event) :
  (exists p h',
      scrape_news E topics h = (Ok p, h') /\
      dom (news_analysis p) = list_to_set topics /\
      forall t, t ∈ topics ->
        exists v, news_analysis p !! t = Some v /\
                  (v = news_unavailable t \/ returned_by (news_topic E t) v)) /\
  (exists p h',
      scrape_reddit_topics_with E reddit_agent topics h = (Ok p, h') /\
      dom (reddit_analysis p) = list_to_set topics /\
      forall t, t ∈ topics ->
        exists v, reddit_analysis p !! t = Some v /\
                  (v = unavailable reddit_source t \/
                   returned_by (process_topic E reddit_agent t) v)) /\
  (exists p h',
      scrape_twitter_topics_with E twitter_agent topics h = (Ok p, h') /\
      dom (twitter_analysis p) = list_to_set topics /\
      forall t, t ∈ topics ->
        exists v, twitter_analysis p !! t = Some v /\
                  (v = unavailable twitter_source t \/
                   returned_by (process_twitter_topic E twitter_agent t) v)).
Proof.
  split; [|split].
  - destruct (scrape_news_runs_once E topics h) as (d & h' & Hloop & Hrun & _).
    destruct (scrape_news_loop_ok E topics ∅ h) as (d' & h'' & Hloop' & Hdom & _ & Hin).
    rewrite Hloop in Hloop'. injection Hloop' as <- <-.
    exists {| news_analysis := d |}, h'. split; [exact Hrun|]. simpl.
    split; [rewrite Hdom; set_solver|exact Hin].
  - destruct (scrape_topics_ok E reddit_source reddit_agent topics h)
      as (d & h' & Hrun & Hdom & Hin).
    exists {| reddit_analysis := d |}, h'. unfold scrape_reddit_topics_with, bind.
    rewrite Hrun. auto.
  - destruct (scrape_topics_ok E twitter_source twitter_agent topics h)
      as (d & h' & Hrun & Hdom & Hin).
    exists {| twitter_analysis := d |}, h'. unfold scrape_twitter_topics_with, bind.
    rewrite Hrun. auto.
Qed.

(** ** A failure that leaves the per-topic call (C9) *)

(** C9.  In the Reddit and in the Twitter collector, when the call for a
    topic fails past the retry wrapper after earlier topics were processed,
    the collector returns normally, the summaries computed so far are not
    in the result, and every topic of the batch, the earlier ones included,
    is mapped to the placeholder of the source. *)
Theorem mid_batch_failure_discards_batch (E : Env) (agent : Agent)
    (pre post : list string) (topic : string) (h h2 : list event)
    (done : gmap string string) (e : exn) :
  (fails_mid_batch E reddit_source agent pre topic h done e h2 ->
   exists p h',
     scrape_reddit_topics_with E agent (pre ++ topic :: post) h = (Ok p, h') /\
     (forall u, u ∈ pre -> is_Some (done !! u)) /\
     dom (reddit_analysis p) = list_to_set (pre ++ topic :: post) /\
     forall u, u ∈ pre ++ topic :: post ->
       reddit_analysis p !! u =
         Some ("Reddit discussions about " +:+ u +:+ " are currently unavailable.")) /\
  (fails_mid_batch E twitter_source agent pre topic h done e h2 ->
   exists p h',
     scrape_twitter_topics_with E agent (pre ++ topic :: post) h = (Ok p, h') /\
     (forall u, u ∈ pre -> is_Some (done !! u)) /\
     dom (twitter_analysis p) = list_to_set (pre ++ topic :: post) /\
     forall u, u ∈ pre ++ topic :: post ->
       twitter_analysis p !! u =
         Some ("Twitter discussions about " +:+ u +:+ " are currently unavailable.")).
Proof.
  split; intros Hfail.
  - pose proof (scrape_topics_abort E reddit_source agent pre post topic h h2 done e Hfail)
      as Hrun.
    destruct Hfail as [_ (h1 & Hpre & _)].
    destruct (scrape_loop_ok E reddit_source agent pre _ _ _ _ Hpre) as (_ & _ & Hin).
    eexists _, _. unfold scrape_reddit_topics_with, bind. rewrite Hrun.
    split; [reflexivity|]. simpl. split; [|split].
    + intros u Hu. destruct (Hin u Hu) as (v & Hv & _). now exists v.
    + apply all_unavailable_dom.
    + intros u Hu. now apply (all_unavailable_lookup reddit_source).
  - pose proof (scrape_topics_abort E twitter_source agent pre post topic h h2 done e Hfail)
      as Hrun.
    destruct Hfail as [_ (h1 & Hpre & _)].
    destruct (scrape_loop_ok E twitter_source agent pre _ _ _ _ Hpre) as (_ & _ & Hin).
    eexists _, _. unfold scrape_twitter_topics_with, bind. rewrite Hrun.
    split; [reflexivity|]. simpl. split; [|split].
    + intros u Hu. destruct (Hin u Hu) as (v & Hv & _). now exists v.
    + apply all_unavailable_dom.
    + intros u Hu. now apply (all_unavailable_lookup twitter_source).
Qed.

(** Topic "a" is summarised, topic "b" fails, topic "c" is never reached:
    all three get the Reddit placeholder. *)
Lemma mid_batch_failure_discards_batch_witness :
  exists p h',
    scrape_reddit_topics_with (obliging_world "") (fails_on "b") (["a"] ++ "b" :: ["c"]) []
      = (Ok p, h') /\
    (forall u, u ∈ ["a"] -> is_Some (({["a" := "real digest"]} : gmap string string) !! u)) /\
    dom (reddit_analysis p) = list_to_set (["a"] ++ "b" :: ["c"]) /\
    forall u, u ∈ ["a"] ++ "b" :: ["c"] ->
      reddit_analysis p !! u =
        Some ("Reddit discussions about " +:+ u +:+ " are currently unavailable.").
Proof.
  apply (proj1 (mid_batch_failure_discards_batch (obliging_world "") (fails_on "b")
                  ["a"] ["c"] "b" []
                  (session_start [] ++ [EvAcquire "mcp_limiter"; EvSleep 5; EvAcquire "mcp_limiter"])
                  {["a" := "real digest"]}
                  (PyException "RuntimeError" "session lost"))).
  split.
  - repeat split; eexists; reflexivity.
  - exists (session_start [] ++ [EvAcquire "mcp_limiter"; EvSleep 5]).
    split; vm_compute; reflexivity.
Defined.

(** ** One topic of the News collector *)

Lemma news_url_of_topic (E : Env) (topic : string) :
  generate_news_urls_to_scrape E [topic] !! topic = Some (generate_valid_news_url E topic).
Proof. simpl. apply lookup_insert_eq. Qed.

Lemma news_topic_unfold (E : Env) (topic : string) (h h1 : list event) (html : string) :
  fetch_search_html E (generate_valid_news_url E topic) h = (Ok html, h1) ->
  news_topic E topic h =
    summarize_with_gemini_news_script E
      (let headlines := extract_headlines (clean_html_to_text E html) in
       if no_headlines headlines then news_fallback_headline topic else headlines) h1.
Proof.
  intros Hfetch. unfold news_topic, getitem. rewrite news_url_of_topic.
  unfold bind at 1. unfold ret at 1. unfold bind. now rewrite Hfetch.
Qed.

(** ** Failures of one topic (C2) *)

(** When no call of the model succeeds, the processing of a News topic
    raises. *)
Lemma news_topic_model_down (E : Env) (topic : string) (h : list event) :
  (forall hh prompt config, exists e, answer E hh (EvGenerateContent prompt config) = Raise e) ->
  exists e h', news_topic E topic h = (Raise e, h').
Proof.
  intros Hdown.
  destruct (fetch_search_html E (generate_valid_news_url E topic) h) as [[html|e] h1] eqn:Hfetch.
  - rewrite (news_topic_unfold E topic h h1 html Hfetch).
    unfold summarize_with_gemini_news_script, try_except, call.
    match goal with
    | |- context [answer E h1 (EvGenerateContent ?p ?c)] =>
        destruct (Hdown h1 p c) as (e & ->)
    end.
    eexists _, _. reflexivity.
  - exists e, h1. unfold news_topic, getitem. rewrite news_url_of_topic.
    unfold bind at 1. unfold ret at 1. unfold bind. now rewrite Hfetch.
Qed.

(** The processing of [topic] fails in the News loop: the topic gets the
    placeholder and the loop goes on from there. *)
Lemma news_failure_contained (E : Env) (pre post : list string) (topic : string)
    (h h1 h2 : list event) (done : gmap string string) (e : exn) :
  scrape_news_loop E pre ∅ h = (Ok done, h1) ->
  news_topic E topic (h1 ++ [EvAcquire news_rate_limiter]) = (Raise e, h2) ->
  exists d h',
    scrape_news E (pre ++ topic :: post) h = (Ok {| news_analysis := d |}, h') /\
    scrape_news_loop E post (<[topic := news_unavailable topic]> done) (h2 ++ [EvSleep 1])
      = (Ok d, h') /\
    (topic ∉ post -> d !! topic = Some (news_unavailable topic)) /\
    (forall u, u <> topic -> u ∉ post -> d !! u = done !! u).
Proof.
  intros Hpre Hfail.
  destruct (scrape_news_loop_ok E post (<[topic := news_unavailable topic]> done)
              (h2 ++ [EvSleep 1])) as (d & h' & Hpost & _ & Hout & _).
  assert (scrape_news_loop E (pre ++ topic :: post) ∅ h = (Ok d, h')) as Hloop.
  { rewrite scrape_news_loop_app, Hpre. simpl.
    unfold bind, tick, try_except; simpl. rewrite Hfail. exact Hpost. }
  exists d, h'. split; [|split; [exact Hpost|split]].
  - apply retry_first_ok. unfold scrape_news_body, bind. now rewrite Hloop.
  - intros Hfresh. rewrite Hout by exact Hfresh. apply lookup_insert_eq.
  - intros u Hne Hfresh. rewrite Hout by exact Hfresh. now apply lookup_insert_ne.
Qed.

(** In a list without repetition the topics before [topic] are not
    [topic] and do not come again after it. *)
Lemma NoDup_middle (pre post : list string) (topic : string) :
  NoDup (pre ++ topic :: post) ->
  (topic ∉ post) /\ forall u, u ∈ pre -> u <> topic /\ (u ∉ post).
Proof.
  intros Hnodup. apply NoDup_app in Hnodup as (_ & Hsep & Hrest).
  apply NoDup_cons in Hrest as (Hfresh & _). split; [exact Hfresh|].
  intros u Hu. split.
  - intros ->. apply (Hsep topic Hu). set_solver.
  - intros Hin. apply (Hsep u Hu). set_solver.
Qed.

(** C2.  No collector lets an exception escape, whatever the world does.
    News: when the processing of a topic raises, the topic gets the News
    placeholder and the loop goes on with the next topic from there; the
    entries of the other topics are left as they were (a topic keeps its
    entry unless it is listed again later in the batch), so that in a batch
    of distinct topics every topic processed earlier keeps its summary.
    Reddit and Twitter: with the agent the module builds the per-topic call
    never raises; when the call of the model fails for a topic, the topic
    gets the placeholder of the source (naming the topic as the agent reads
    it back from its prompt, which is the topic itself when it has no
    apostrophe), the loop goes on with the next topic and the session is
    closed at the end of the batch, the other entries being left as they
    were.  When the model fails at every call, every topic of every
    collector is mapped to a placeholder. *)
Theorem collector_failure_containment (E : Env) (pre post : list string) (topic : string)
    (h : list event) :
  let batch := pre ++ topic :: post in
  (forall done h1 e h2,
      scrape_news_loop E pre ∅ h = (Ok done, h1) ->
      news_topic E topic (h1 ++ [EvAcquire news_rate_limiter]) = (Raise e, h2) ->
      let placeholder :=
        "We couldn't retrieve the latest news about " +:+ topic +:+ " at this time." in
      exists p h',
        scrape_news E batch h = (Ok p, h') /\
        scrape_news_loop E post (<[topic := placeholder]> done) (h2 ++ [EvSleep 1])
          = (Ok (news_analysis p), h') /\
        (topic ∉ post -> news_analysis p !! topic = Some placeholder) /\
        (forall u, u <> topic -> u ∉ post -> news_analysis p !! u = done !! u) /\
        (NoDup batch ->
         news_analysis p !! topic = Some placeholder /\
         forall u, u ∈ pre -> news_analysis p !! u = done !! u)) /\
  (forall t h0, exists v h1, process_topic E (GeminiAgent E) t h0 = (Ok v, h1)) /\
  (forall done h1 e,
      session_opens E h ->
      scrape_loop E reddit_source (GeminiAgent E) pre ∅ (session_start h) = (Ok done, h1) ->
      let ask :=
        EvGenerateContent
          (system_content reddit_source E +:+ Py.nl +:+ Py.nl +:+ user_content reddit_source topic)
          (Some {| temperature := "0.7"; max_output_tokens := 2000 |}) in
      answer E (h1 ++ [EvAcquire "mcp_limiter"]) ask = Raise e ->
      let placeholder :=
        "Reddit discussions about " +:+ quoted_topic (user_content reddit_source topic) +:+
        " are currently unavailable." in
      exists p h',
        scrape_reddit_topics E batch h = (Ok p, h' ++ [EvCloseSession]) /\
        scrape_loop E reddit_source (GeminiAgent E) post (<[topic := placeholder]> done)
          (h1 ++ [EvAcquire "mcp_limiter"; ask; EvSleep 5]) = (Ok (reddit_analysis p), h') /\
        (Py.apostrophe ∉ chars topic -> quoted_topic (user_content reddit_source topic) = topic) /\
        (topic ∉ post -> reddit_analysis p !! topic = Some placeholder) /\
        (forall u, u <> topic -> u ∉ post -> reddit_analysis p !! u = done !! u) /\
        (NoDup batch ->
         reddit_analysis p !! topic = Some placeholder /\
         forall u, u ∈ pre -> reddit_analysis p !! u = done !! u)) /\
  (forall t h0, exists v h1, process_twitter_topic E (TwitterAgent E) t h0 = (Ok v, h1)) /\
  (forall done h1 e,
      session_opens E h ->
      scrape_loop E twitter_source (TwitterAgent E) pre ∅ (session_start h) = (Ok done, h1) ->
      let ask :=
        EvGenerateContent
          (system_content twitter_source E +:+ Py.nl +:+ Py.nl +:+ user_content twitter_source topic)
          (Some {| temperature := "0.7"; max_output_tokens := 1500 |}) in
      answer E (h1 ++ [EvAcquire "twitter_limiter"]) ask = Raise e ->
      let placeholder :=
        "Twitter discussions about " +:+ quoted_topic (user_content twitter_source topic) +:+
        " are currently unavailable." in
      exists p h',
        scrape_twitter_topics E batch h = (Ok p, h' ++ [EvCloseSession]) /\
        scrape_loop E twitter_source (TwitterAgent E) post (<[topic := placeholder]> done)
          (h1 ++ [EvAcquire "twitter_limiter"; ask; EvSleep 3]) = (Ok (twitter_analysis p), h') /\
        (Py.apostrophe ∉ chars topic -> quoted_topic (user_content twitter_source topic) = topic) /\
        (topic ∉ post -> twitter_analysis p !! topic = Some placeholder) /\
        (forall u, u <> topic -> u ∉ post -> twitter_analysis p !! u = done !! u) /\
        (NoDup batch ->
         twitter_analysis p !! topic = Some placeholder /\
         forall u, u ∈ pre -> twitter_analysis p !! u = done !! u)) /\
  (exists p h', scrape_news E batch h = (Ok p, h')) /\
  (exists p h', scrape_reddit_topics E batch h = (Ok p, h')) /\
  (exists p h', scrape_twitter_topics E batch h = (Ok p, h')) /\
  ((forall hh prompt config, exists e, answer E hh (EvGenerateContent prompt config) = Raise e) ->
   (forall p h', scrape_news E batch h = (Ok p, h') ->
      forall u, u ∈ batch ->
        news_analysis p !! u =
          Some ("We couldn't retrieve the latest news about " +:+ u +:+ " at this time.")) /\
   (forall p h', scrape_reddit_topics E batch h = (Ok p, h') ->
      forall u, u ∈ batch ->
        exists name,
          reddit_analysis p !! u =
            Some ("Reddit discussions about " +:+ name +:+ " are currently unavailable.") /\
          (name = u \/ name = quoted_topic (user_content reddit_source u))) /\
   (forall p h', scrape_twitter_topics E batch h = (Ok p, h') ->
      forall u, u ∈ batch ->
        exists name,
          twitter_analysis p !! u =
            Some ("Twitter discussions about " +:+ name +:+ " are currently unavailable.") /\
          (name = u \/ name = quoted_topic (user_content twitter_source u)))).
Proof.
  intros batch.
  assert (forall S, exists d h', scrape_topics E S (model_agent E S) batch h = (Ok d, h'))
    as Hreturns.
  { intros S. destruct (scrape_topics_ok E S (model_agent E S) batch h) as (d & h' & Hrun & _).
    eauto. }
  assert (forall S d h',
            (forall hh prompt config,
                exists e, answer E hh (EvGenerateContent prompt config) = Raise e) ->
            scrape_topics E S (model_agent E S) batch h = (Ok d, h') ->
            forall u, u ∈ batch ->
              exists name,
                d !! u = Some (unavailable S name) /\
                (name = u \/ name = quoted_topic (user_content S u))) as Hdown.
  { intros S d h' Hmodel Hrun u Hu.
    destruct (scrape_topics_cases E S (model_agent E S) batch h)
      as (d' & h'' & Hrun' & Hcase).
    rewrite Hrun in Hrun'. injection Hrun' as <- <-.
    destruct Hcase as [-> | (h0 & h1 & Hloop)].
    - exists u. split; [now apply all_unavailable_lookup|now left].
    - exists (quoted_topic (user_content S u)). split; [|now right].
      now apply (scrape_loop_model_down E S batch ∅ d h0 h1 Hmodel Hloop). }
  assert (forall S, S = reddit_source \/ S = twitter_source ->
            forall done h1 e,
              session_opens E h ->
              scrape_loop E S (model_agent E S) pre ∅ (session_start h) = (Ok done, h1) ->
              answer E (h1 ++ [EvAcquire (limiter S)])
                (EvGenerateContent
                   (system_content S E +:+ Py.nl +:+ Py.nl +:+ user_content S topic)
                   (Some (agent_config S))) = Raise e ->
              exists d h',
                scrape_topics E S (model_agent E S) batch h = (Ok d, h' ++ [EvCloseSession]) /\
                scrape_loop E S (model_agent E S) post
                  (<[topic := unavailable S (quoted_topic (user_content S topic))]> done)
                  (h1 ++ [EvAcquire (limiter S);
                          EvGenerateContent
                            (system_content S E +:+ Py.nl +:+ Py.nl +:+ user_content S topic)
                            (Some (agent_config S));
                          EvSleep (pause S)]) = (Ok d, h') /\
                (Py.apostrophe ∉ chars topic -> quoted_topic (user_content S topic) = topic) /\
                (topic ∉ post ->
                 d !! topic = Some (unavailable S (quoted_topic (user_content S topic)))) /\
                (forall u, u <> topic -> u ∉ post -> d !! u = done !! u) /\
                (NoDup batch ->
                 d !! topic = Some (unavailable S (quoted_topic (user_content S topic))) /\
                 forall u, u ∈ pre -> d !! u = done !! u)) as Hmcp.
  { intros S HS done h1 e Hopen Hpre Hfail.
    destruct (model_failure_contained E S pre post topic h h1 done e Hopen Hpre Hfail)
      as (d & h' & Hrun & Hpost & Htopic & Hothers).
    exists d, h'. split; [exact Hrun|]. split; [exact Hpost|].
    split; [now apply quoted_topic_plain|]. split; [exact Htopic|]. split; [exact Hothers|].
    intros Hnodup. destruct (NoDup_middle pre post topic Hnodup) as (Hfresh & Hpre').
    split; [now apply Htopic|].
    intros u Hu. destruct (Hpre' u Hu). now apply Hothers. }
  split; [|split; [|split; [|split; [|split; [|split; [|split; [|split]]]]]]].
  - intros done h1 e h2 Hpre Hfail placeholder.
    destruct (news_failure_contained E pre post topic h h1 h2 done e Hpre Hfail)
      as (d & h' & Hrun & Hpost & Htopic & Hothers).
    exists {| news_analysis := d |}, h'. simpl.
    split; [exact Hrun|]. split; [exact Hpost|]. split; [exact Htopic|].
    split; [exact Hothers|].
    intros Hnodup. destruct (NoDup_middle pre post topic Hnodup) as (Hfresh & Hpre').
    split; [now apply Htopic|].
    intros u Hu. destruct (Hpre' u Hu). now apply Hothers.
  - intros t h0. eexists _, _. unfold process_topic, GeminiAgent.
    apply model_agent_process.
  - intros done h1 e Hopen Hpre ask Hfail placeholder.
    destruct (Hmcp reddit_source (or_introl eq_refl) done h1 e Hopen Hpre Hfail)
      as (d & h' & Hrun & Hrest).
    exists {| reddit_analysis := d |}, h'. split; [|exact Hrest].
    unfold scrape_reddit_topics, scrape_reddit_topics_with, GeminiAgent, bind.
    now rewrite Hrun.
  - intros t h0. eexists _, _. unfold process_twitter_topic, TwitterAgent.
    apply model_agent_process.
  - intros done h1 e Hopen Hpre ask Hfail placeholder.
    destruct (Hmcp twitter_source (or_intror eq_refl) done h1 e Hopen Hpre Hfail)
      as (d & h' & Hrun & Hrest).
    exists {| twitter_analysis := d |}, h'. split; [|exact Hrest].
    unfold scrape_twitter_topics, scrape_twitter_topics_with, TwitterAgent, bind.
    now rewrite Hrun.
  - destruct (scrape_news_runs_once E batch h) as (d & h' & _ & Hrun & _). eauto.
  - destruct (Hreturns reddit_source) as (d & h' & Hrun).
    eexists _, _. unfold scrape_reddit_topics, scrape_reddit_topics_with, GeminiAgent, bind.
    now rewrite Hrun.
  - destruct (Hreturns twitter_source) as (d & h' & Hrun).
    eexists _, _. unfold scrape_twitter_topics, scrape_twitter_topics_with, TwitterAgent, bind.
    now rewrite Hrun.
  - intros Hmodel. split; [|split].
    + intros p h' Hrun u Hu.
      destruct (scrape_news_runs_once E batch h) as (d & h'' & Hloop & Hrun' & _).
      rewrite Hrun in Hrun'. injection Hrun' as -> <-. simpl.
      destruct (scrape_news_loop_ok E batch ∅ h) as (d' & h3 & Hloop' & _ & _ & Hin).
      rewrite Hloop in Hloop'. injection Hloop' as <- <-.
      destruct (Hin u Hu) as (v & Hv & [-> | (h0 & h1 & Hret)]); [exact Hv|].
      destruct (news_topic_model_down E u h0 Hmodel) as (e & h4 & Hraise).
      rewrite Hraise in Hret. discriminate.
    + intros p h' Hrun u Hu.
      unfold scrape_reddit_topics, scrape_reddit_topics_with, GeminiAgent, bind in Hrun.
      destruct (scrape_topics E reddit_source (model_agent E reddit_source) batch h)
        as [[d|e] h''] eqn:Hd; [|discriminate].
      injection Hrun as <- <-. simpl.
      exact (Hdown reddit_source d h'' Hmodel Hd u Hu).
    + intros p h' Hrun u Hu.
      unfold scrape_twitter_topics, scrape_twitter_topics_with, TwitterAgent, bind in Hrun.
      destruct (scrape_topics E twitter_source (model_agent E twitter_source) batch h)
        as [[d|e] h''] eqn:Hd; [|discriminate].
      injection Hrun as <- <-. simpl.
      exact (Hdown twitter_source d h'' Hmodel Hd u Hu).
Qed.

(** The news page of "b" cannot be fetched: "b" gets the News placeholder,
    "a" keeps its script and "c" is processed.  The model is down while
    Reddit and Twitter are read: "b" gets the placeholder of the source and
    the session is closed after "c"; every topic of every collector has a
    placeholder. *)
Lemma collector_failure_containment_witness :
  (exists p h',
      scrape_news (news_down_for "b") (["a"] ++ "b" :: ["c"]) [] = (Ok p, h') /\
      news_analysis p !! "b" =
        Some "We couldn't retrieve the latest news about b at this time." /\
      forall u, u ∈ ["a"] ->
        news_analysis p !! u = ({["a" := "script"]} : gmap string string) !! u) /\
  (exists p h',
      scrape_reddit_topics model_down (["a"] ++ "b" :: ["c"]) [] = (Ok p, h' ++ [EvCloseSession]) /\
      reddit_analysis p !! "b" = Some "Reddit discussions about b are currently unavailable.") /\
  (exists p h',
      scrape_twitter_topics model_down (["a"] ++ "b" :: ["c"]) []
        = (Ok p, h' ++ [EvCloseSession]) /\
      twitter_analysis p !! "b" = Some "Twitter discussions about b are currently unavailable.") /\
  (forall p h',
      scrape_news model_down (["a"] ++ "b" :: ["c"]) [] = (Ok p, h') ->
      forall u, u ∈ ["a"] ++ "b" :: ["c"] ->
        news_analysis p !! u =
          Some ("We couldn't retrieve the latest news about " +:+ u +:+ " at this time.")).
Proof.
  assert (NoDup (["a"] ++ "b" :: ["c"])) as Hnodup.
  { apply (bool_decide_unpack _). vm_compute. exact I. }
  assert (session_opens model_down []) as Hopen
    by (repeat split; eexists; reflexivity).
  split; [|split; [|split]].
  - destruct (collector_failure_containment (news_down_for "b") ["a"] ["c"] "b" [])
      as [Hnews _].
    edestruct (Hnews {["a" := "script"]}) as (p & h' & Hrun & _ & _ & _ & Hdistinct).
    + vm_compute. reflexivity.
    + vm_compute. reflexivity.
    + exists p, h'. split; [exact Hrun|]. exact (Hdistinct Hnodup).
  - destruct (collector_failure_containment model_down ["a"] ["c"] "b" [])
      as (_ & _ & Hreddit & _).
    edestruct (Hreddit {["a" := "Reddit discussions about a are currently unavailable."]})
      as (p & h' & Hrun & _ & _ & _ & _ & Hdistinct).
    + exact Hopen.
    + vm_compute. reflexivity.
    + vm_compute. reflexivity.
    + exists p, h'. split; [exact Hrun|]. exact (proj1 (Hdistinct Hnodup)).
  - destruct (collector_failure_containment model_down ["a"] ["c"] "b" [])
      as (_ & _ & _ & _ & Htwitter & _).
    edestruct (Htwitter {["a" := "Twitter discussions about a are currently unavailable."]})
      as (p & h' & Hrun & _ & _ & _ & _ & Hdistinct).
    + exact Hopen.
    + vm_compute. reflexivity.
    + vm_compute. reflexivity.
    + exists p, h'. split; [exact Hrun|]. exact (proj1 (Hdistinct Hnodup)).
  - destruct (collector_failure_containment model_down ["a"] ["c"] "b" [])
      as (_ & _ & _ & _ & _ & _ & _ & _ & Hdown).
    destruct Hdown as (Hnews & _).
    + intros hh prompt config. eexists. reflexivity.
    + exact Hnews.
Defined.

(** ** The fallbacks of the News collector (C4) *)

(** C4.  For every topic the News collector (1) answers a failure of the
    BrightData scrape with a direct request for the same URL, made next;
    (2) when the extraction yields no headline, asks the model for a script
    of the stand-in: the prompt of that call is the instructions of the
    news editor followed by "Latest news about <topic>"; and (3) when the
    upstream returns an empty page, returns normally, the topic being
    mapped to what the model makes of that prompt (to the News placeholder
    if the model call fails). *)
Theorem news_fallbacks (E : Env) (topic : string) (h : list event) :
  let url := generate_valid_news_url E topic in
  let ask :=
    EvGenerateContent
      (news_script_system_prompt +:+ Py.nl +:+ Py.nl +:+ "Latest news about " +:+ topic)
      (Some {| temperature := "0.4"; max_output_tokens := 1000 |}) in
  (forall e,
      answer E h (EvBrightData url) = Raise e ->
      fetch_search_html E url h =
        (answer E (h ++ [EvBrightData url]) (EvRequestsGet url),
         h ++ [EvBrightData url; EvRequestsGet url])) /\
  (forall html h1,
      fetch_search_html E url h = (Ok html, h1) ->
      no_headlines (extract_headlines (clean_html_to_text E html)) = true ->
      news_topic E topic h =
        (match answer E h1 ask with
         | Ok summary => Ok summary
         | Raise e => Raise (HTTPException 500 ("Gemini error: " +:+ exn_str e))
         end, h1 ++ [ask])) /\
  (forall h1,
      soup_get_text E "" = "" ->
      fetch_search_html E url (h ++ [EvAcquire news_rate_limiter]) = (Ok "", h1) ->
      scrape_news E [topic] h =
        (Ok {| news_analysis :=
                 {[ topic := match answer E h1 ask with
                             | Ok summary => summary
                             | Raise _ =>
                                 "We couldn't retrieve the latest news about " +:+ topic +:+
                                 " at this time."
                             end ]} |},
         h1 ++ [ask; EvSleep 1])) /\
  extract_headlines "" = "" /\ no_headlines "" = true.
Proof.
  intros url ask. split; [|split; [|split; [|split; reflexivity]]].
  - intros e Hfail.
    unfold fetch_search_html, scrape_with_brightdata, try_except, call. rewrite Hfail.
    destruct e; unfold raise; now rewrite <- app_assoc.
  - intros html h1 Hfetch Hnone.
    rewrite (news_topic_unfold E topic h h1 html Hfetch). simpl. rewrite Hnone.
    unfold summarize_with_gemini_news_script, try_except, call, news_fallback_headline,
      news_script_prompt, news_script_config.
    fold ask. now destruct (answer E h1 ask).
  - intros h1 Hsoup Hfetch.
    assert (no_headlines (extract_headlines (clean_html_to_text E "")) = true) as Hnone.
    { unfold clean_html_to_text. rewrite Hsoup. reflexivity. }
    apply retry_first_ok.
    unfold scrape_news_body, bind. simpl. unfold bind, tick, try_except; simpl.
    rewrite (news_topic_unfold E topic _ h1 "" Hfetch). simpl. rewrite Hnone.
    unfold summarize_with_gemini_news_script, try_except, call, news_fallback_headline,
      news_script_prompt, news_script_config.
    fold ask.
    destruct (answer E h1 ask); simpl; unfold ret;
      now rewrite insert_empty, <- app_assoc.
Qed.

(** BrightData refuses and the direct request, made next, returns an
    empty page: the model is asked for a script of the stand-in for "x", and
    its answer is the summary of "x". *)
Lemma news_fallbacks_witness :
  let url := "https://news.google.com/search?q=x&tbs=sbd:1" in
  let ask :=
    EvGenerateContent
      (news_script_system_prompt +:+ Py.nl +:+ Py.nl +:+ "Latest news about x")
      (Some {| temperature := "0.4"; max_output_tokens := 1000 |}) in
  fetch_search_html empty_upstream url [] = (Ok "", [EvBrightData url; EvRequestsGet url]) /\
  news_topic empty_upstream "x" [] = (Ok "script", [EvBrightData url; EvRequestsGet url; ask]) /\
  scrape_news empty_upstream ["x"] [] =
    (Ok {| news_analysis := {[ "x" := "script" ]} |},
     [EvAcquire news_rate_limiter; EvBrightData url; EvRequestsGet url; ask; EvSleep 1]).
Proof.
  intros url ask.
  destruct (news_fallbacks empty_upstream "x" []) as (Hdirect & Hstand_in & Hempty & _).
  split; [|split].
  - apply (Hdirect (RequestException "403 Forbidden")). reflexivity.
  - apply (Hstand_in "" [EvBrightData url; EvRequestsGet url]); reflexivity.
  - apply (Hempty [EvAcquire news_rate_limiter; EvBrightData url; EvRequestsGet url]);
      reflexivity.
Defined.

(** ** The orchestrator (C5) *)

(** Once the three slots are collected, the handler is the composer, the
    translation step and the audio step in sequence. *)
Lemma handle_after_collection (E : Env) (reddit_agent twitter_agent : Agent)
    (req : NewsRequest) (h h1 h2 h3 : list event) (news : option NewsPayload)
    (reddit : option RedditPayload) (twitter : option TwitterPayload) :
  collect_news E req h = (Ok news, h1) ->
  collect_reddit E reddit_agent req h1 = (Ok reddit, h2) ->
  collect_twitter E twitter_agent req h2 = (Ok twitter, h3) ->
  handle E reddit_agent twitter_agent req h =
    bind (generate_broadcast_news E news reddit twitter (topics req))
         (fun summary_en =>
            bind (translate_step E req summary_en) (narrate E req)) h3.
Proof.
  intros Hn Hr Ht.
  unfold handle. unfold bind at 1. rewrite Hn.
  unfold bind at 1. rewrite Hr. unfold bind at 1. now rewrite Ht.
Qed.

(** C5.  The handler runs the News collector exactly for the selections
    news, both and all, the Reddit collector exactly for reddit, both and
    all, and the Twitter collector exactly for twitter and all.  A collector
    that is not selected is not called at all (the history is unchanged and
    its slot stays empty); the slot of a selected one holds what the
    collector returned; and the composer receives these three slots as they
    are. *)
Theorem orchestrator_runs_selected_collectors (E : Env) (reddit_agent twitter_agent : Agent)
    (req : NewsRequest) (h : list event) :
  (source_type req ∈ ["news"; "both"; "all"] ->
     exists p h', scrape_news E (topics req) h = (Ok p, h') /\
                  collect_news E req h = (Ok (Some p), h')) /\
  (source_type req ∉ ["news"; "both"; "all"] -> collect_news E req h = (Ok None, h)) /\
  (source_type req ∈ ["reddit"; "both"; "all"] ->
     exists p h', scrape_reddit_topics_with E reddit_agent (topics req) h = (Ok p, h') /\
                  collect_reddit E reddit_agent req h = (Ok (Some p), h')) /\
  (source_type req ∉ ["reddit"; "both"; "all"] ->
     collect_reddit E reddit_agent req h = (Ok None, h)) /\
  (source_type req ∈ ["twitter"; "all"] ->
     exists p h', scrape_twitter_topics_with E twitter_agent (topics req) h = (Ok p, h') /\
                  collect_twitter E twitter_agent req h = (Ok (Some p), h')) /\
  (source_type req ∉ ["twitter"; "all"] ->
     collect_twitter E twitter_agent req h = (Ok None, h)) /\
  (forall news h1 reddit h2 twitter h3,
      collect_news E req h = (Ok news, h1) ->
      collect_reddit E reddit_agent req h1 = (Ok reddit, h2) ->
      collect_twitter E twitter_agent req h2 = (Ok twitter, h3) ->
      handle E reddit_agent twitter_agent req h =
        bind (generate_broadcast_news E news reddit twitter (topics req))
             (fun summary_en =>
                bind (translate_step E req summary_en) (narrate E req)) h3).
Proof.
  repeat split.
  - intros Hsel.
    destruct (scrape_news_runs_once E (topics req) h) as (d & h' & _ & Hrun & _).
    exists {| news_analysis := d |}, h'. split; [exact Hrun|].
    unfold collect_news, wants_news, Py.mem. rewrite bool_decide_eq_true_2 by exact Hsel.
    unfold bind. now rewrite Hrun.
  - intros Hsel. unfold collect_news, wants_news, Py.mem.
    now rewrite bool_decide_eq_false_2 by exact Hsel.
  - intros Hsel.
    destruct (scrape_topics_ok E reddit_source reddit_agent (topics req) h)
      as (d & h' & Hrun & _).
    exists {| reddit_analysis := d |}, h'.
    unfold collect_reddit, wants_reddit, Py.mem. rewrite bool_decide_eq_true_2 by exact Hsel.
    unfold scrape_reddit_topics_with, try_except, bind. now rewrite Hrun.
  - intros Hsel. unfold collect_reddit, wants_reddit, Py.mem.
    now rewrite bool_decide_eq_false_2 by exact Hsel.
  - intros Hsel.
    destruct (scrape_topics_ok E twitter_source twitter_agent (topics req) h)
      as (d & h' & Hrun & _).
    exists {| twitter_analysis := d |}, h'.
    unfold collect_twitter, wants_twitter, Py.mem. rewrite bool_decide_eq_true_2 by exact Hsel.
    unfold scrape_twitter_topics_with, try_except, bind. now rewrite Hrun.
  - intros Hsel. unfold collect_twitter, wants_twitter, Py.mem.
    now rewrite bool_decide_eq_false_2 by exact Hsel.
  - intros news h1 reddit h2 twitter h3 Hn Hr Ht.
    now apply (handle_after_collection E reddit_agent twitter_agent req h h1 h2 h3).
Qed.

(** A request for news and Reddit: both collectors run, Twitter is not
    called. *)
Lemma orchestrator_runs_selected_collectors_witness :
  let req := {| topics := ["x"]; source_type := "both"; language := "en-US" |} in
  (exists p h', scrape_news empty_upstream ["x"] [] = (Ok p, h') /\
                collect_news empty_upstream req [] = (Ok (Some p), h')) /\
  collect_twitter empty_upstream (fails_on "b") req [] = (Ok None, []).
Proof.
  intros req.
  destruct (orchestrator_runs_selected_collectors empty_upstream (fails_on "b") (fails_on "b")
              req []) as (Hnews & _ & _ & _ & _ & Htwitter & _).
  split; [apply Hnews|apply Htwitter]; apply (bool_decide_unpack _); vm_compute; exact I.
Defined.

(** ** The composer (C6) *)

Lemma context_entry_nonempty (label : string) (o : option string) :
  context_entry label o <> [] <-> exists s, o = Some s /\ s <> "".
Proof.
  unfold context_entry. destruct o as [s|].
  - destruct (Py.truthy s) eqn:Hs.
    + apply truthy_nonempty in Hs. split; [eauto|discriminate].
    + split; [congruence|]. intros (s' & [= <-] & Hne).
      apply truthy_nonempty in Hne. congruence.
  - split; [congruence|]. now intros (s & ? & _).
Qed.

Lemma news_content_present (news_data : option NewsPayload) (topic : string) :
  (exists s, news_content_of news_data topic = Some s /\ s <> "") <->
  present_in (news_analysis <$> news_data) topic.
Proof.
  unfold present_in. destruct news_data as [p|]; simpl.
  - split; [intros (s & Hs & Hne); eauto|intros (d & s & [= <-] & Hs & Hne); eauto].
  - split; [intros (s & [= <-] & Hne); congruence|now intros (d & s & ? & _)].
Qed.

Lemma reddit_content_present (reddit_data : option RedditPayload) (topic : string) :
  (exists s, reddit_content_of reddit_data topic = Some s /\ s <> "") <->
  present_in (reddit_analysis <$> reddit_data) topic.
Proof.
  unfold present_in. destruct reddit_data as [p|]; simpl.
  - split; [intros (s & Hs & Hne); eauto|intros (d & s & [= <-] & Hs & Hne); eauto].
  - split; [intros (s & [= <-] & Hne); congruence|now intros (d & s & ? & _)].
Qed.

Lemma twitter_content_present (twitter_data : option TwitterPayload) (topic : string) :
  (exists s, twitter_content_of twitter_data topic = Some s /\ s <> "") <->
  present_in (twitter_analysis <$> twitter_data) topic.
Proof.
  unfold present_in. destruct twitter_data as [p|]; simpl.
  - split; [intros (s & Hs & Hne); eauto|intros (d & s & [= <-] & Hs & Hne); eauto].
  - split; [intros (s & [= <-] & Hne); congruence|now intros (d & s & ? & _)].
Qed.

Lemma contributes_iff (news_data : option NewsPayload) (reddit_data : option RedditPayload)
    (twitter_data : option TwitterPayload) (topic : string) :
  contributes news_data reddit_data twitter_data topic = true <->
  has_material news_data reddit_data twitter_data topic.
Proof.
  unfold has_material.
  rewrite <- news_content_present, <- reddit_content_present, <- twitter_content_present.
  rewrite <- (context_entry_nonempty "OFFICIAL NEWS CONTENT:").
  rewrite <- (context_entry_nonempty "REDDIT DISCUSSION CONTENT:").
  rewrite <- (context_entry_nonempty "TWITTER DISCUSSION CONTENT:").
  unfold contributes, topic_context.
  destruct (context_entry "OFFICIAL NEWS CONTENT:" _) as [|a la];
    destruct (context_entry "REDDIT DISCUSSION CONTENT:" _) as [|b lb];
    destruct (context_entry "TWITTER DISCUSSION CONTENT:" _) as [|c lc];
    simpl; (split; [intros H|intros [H|[H|H]]]);
    try discriminate; try reflexivity; try (exfalso; now apply H);
    first [left; discriminate|right; left; discriminate|right; right; discriminate].
Qed.

Lemma broadcast_topic_blocks_fold (news_data : option NewsPayload)
    (reddit_data : option RedditPayload) (twitter_data : option TwitterPayload)
    (topics blocks : list string) :
  fold_left
    (fun topic_blocks topic =>
       let context := topic_context news_data reddit_data twitter_data topic in
       match context with
       | [] => topic_blocks
       | _ :: _ => topic_blocks ++ [topic_block topic context]
       end)
    topics blocks =
  blocks ++
  map (fun topic => topic_block topic (topic_context news_data reddit_data twitter_data topic))
      (List.filter (contributes news_data reddit_data twitter_data) topics).
Proof.
  revert blocks. induction topics as [|topic rest IH]; intros blocks; cbn [fold_left List.filter].
  - now rewrite app_nil_r.
  - rewrite IH.
    destruct (contributes news_data reddit_data twitter_data topic) eqn:Hc;
      unfold contributes in Hc;
      destruct (topic_context news_data reddit_data twitter_data topic) eqn:Hctx;
      try discriminate; cbn [map].
    + now rewrite Hctx, <- app_assoc.
    + reflexivity.
Qed.

(** The composer is one model call, whose failure it re-raises as it is. *)
Lemma generate_broadcast_news_call (E : Env) (news_data : option NewsPayload)
    (reddit_data : option RedditPayload) (twitter_data : option TwitterPayload)
    (topics : list string) (h : list event) :
  let ev :=
    EvGenerateContent
      (broadcast_prompt (broadcast_topic_blocks news_data reddit_data twitter_data topics))
      (Some broadcast_config) in
  generate_broadcast_news E news_data reddit_data twitter_data topics h
    = (answer E h ev, h ++ [ev]).
Proof.
  intros ev. unfold generate_broadcast_news, try_except, call. fold ev.
  now destruct (answer E h ev).
Qed.

(** A summary that is there puts its labelled entry into the context of
    the topic. *)
Lemma topic_context_entries (news_data : option NewsPayload)
    (reddit_data : option RedditPayload) (twitter_data : option TwitterPayload)
    (topic s : string) :
  s <> "" ->
  (news_content_of news_data topic = Some s ->
   "OFFICIAL NEWS CONTENT:" +:+ Py.nl +:+ s
     ∈ topic_context news_data reddit_data twitter_data topic) /\
  (reddit_content_of reddit_data topic = Some s ->
   "REDDIT DISCUSSION CONTENT:" +:+ Py.nl +:+ s
     ∈ topic_context news_data reddit_data twitter_data topic) /\
  (twitter_content_of twitter_data topic = Some s ->
   "TWITTER DISCUSSION CONTENT:" +:+ Py.nl +:+ s
     ∈ topic_context news_data reddit_data twitter_data topic).
Proof.
  intros Hne. apply truthy_nonempty in Hne. unfold topic_context.
  repeat split; intros ->; unfold context_entry at 1 2 3; rewrite Hne; set_solver.
Qed.

(** C6.  A topic contributes a block to the prompt of the composer if and
    only if one of its News, Reddit or Twitter summaries is present and not
    empty; the blocks are those of the contributing topics, in the order of
    the request, the others being skipped.  A run of the composer makes
    exactly one model call, however many topics there are, and its prompt is
    the instructions of the reporter, the line that introduces the topics
    and the blocks, separated by "--- NEW TOPIC ---".  The block of a
    contributing topic, "TOPIC: <topic>" followed by its material, occurs
    in that prompt, and each summary of the topic that is present and not
    empty occurs in the block under the label of its source.  With News
    only for "A" and Reddit only for "B" the prompt holds the block of "A"
    and the block of "B", and nothing for a topic "C" without material. *)
Theorem composer_blocks_and_single_call (E : Env) (news_data : option NewsPayload)
    (reddit_data : option RedditPayload) (twitter_data : option TwitterPayload)
    (topics : list string) (h : list event) :
  let block_of := fun topic =>
    "TOPIC: " +:+ topic +:+ Py.nl +:+ Py.nl +:+
    Py.join (Py.nl +:+ Py.nl) (topic_context news_data reddit_data twitter_data topic) in
  let prompt_of := fun blocks =>
    broadcast_system_prompt +:+ Py.nl +:+ Py.nl +:+
    "Create broadcast segments for these topics using available sources:" +:+
    Py.nl +:+ Py.nl +:+
    Py.join (Py.nl +:+ Py.nl +:+ "--- NEW TOPIC ---" +:+ Py.nl +:+ Py.nl) blocks in
  let config := Some {| temperature := "0.3"; max_output_tokens := 4000 |} in
  (forall topic,
      contributes news_data reddit_data twitter_data topic = true <->
      has_material news_data reddit_data twitter_data topic) /\
  broadcast_topic_blocks news_data reddit_data twitter_data topics =
    map block_of (List.filter (contributes news_data reddit_data twitter_data) topics) /\
  (let prompt :=
     prompt_of (broadcast_topic_blocks news_data reddit_data twitter_data topics) in
   let ev := EvGenerateContent prompt config in
   generate_broadcast_news E news_data reddit_data twitter_data topics h
     = (answer E h ev, h ++ [ev]) /\
   forall topic,
     topic ∈ topics ->
     has_material news_data reddit_data twitter_data topic ->
     occurs_in (block_of topic) prompt /\
     (forall p s,
         news_data = Some p -> news_analysis p !! topic = Some s -> s <> "" ->
         occurs_in ("OFFICIAL NEWS CONTENT:" +:+ Py.nl +:+ s) (block_of topic)) /\
     (forall p s,
         reddit_data = Some p -> reddit_analysis p !! topic = Some s -> s <> "" ->
         occurs_in ("REDDIT DISCUSSION CONTENT:" +:+ Py.nl +:+ s) (block_of topic)) /\
     (forall p s,
         twitter_data = Some p -> twitter_analysis p !! topic = Some s -> s <> "" ->
         occurs_in ("TWITTER DISCUSSION CONTENT:" +:+ Py.nl +:+ s) (block_of topic))) /\
  (forall sa sb,
      sa <> "" -> sb <> "" ->
      let news := Some {| news_analysis := {[ "A" := sa ]} |} in
      let reddit := Some {| reddit_analysis := {[ "B" := sb ]} |} in
      let blocks :=
        [ "TOPIC: A" +:+ Py.nl +:+ Py.nl +:+ "OFFICIAL NEWS CONTENT:" +:+ Py.nl +:+ sa;
          "TOPIC: B" +:+ Py.nl +:+ Py.nl +:+ "REDDIT DISCUSSION CONTENT:" +:+ Py.nl +:+ sb ] in
      let ev :=
        EvGenerateContent
          (broadcast_system_prompt +:+ Py.nl +:+ Py.nl +:+
           "Create broadcast segments for these topics using available sources:" +:+
           Py.nl +:+ Py.nl +:+
           ("TOPIC: A" +:+ Py.nl +:+ Py.nl +:+ "OFFICIAL NEWS CONTENT:" +:+ Py.nl +:+ sa) +:+
           Py.nl +:+ Py.nl +:+ "--- NEW TOPIC ---" +:+ Py.nl +:+ Py.nl +:+
           ("TOPIC: B" +:+ Py.nl +:+ Py.nl +:+ "REDDIT DISCUSSION CONTENT:" +:+ Py.nl +:+ sb))
          config in
      broadcast_topic_blocks news reddit None ["A"; "B"] = blocks /\
      broadcast_topic_blocks news reddit None ["A"; "C"; "B"] = blocks /\
      generate_broadcast_news E news reddit None ["A"; "B"] h = (answer E h ev, h ++ [ev]) /\
      generate_broadcast_news E news reddit None ["A"; "C"; "B"] h
        = (answer E h ev, h ++ [ev])).
Proof.
  intros block_of prompt_of config.
  assert (broadcast_topic_blocks news_data reddit_data twitter_data topics =
          map block_of (List.filter (contributes news_data reddit_data twitter_data) topics))
    as Hblocks.
  { unfold broadcast_topic_blocks. now rewrite broadcast_topic_blocks_fold. }
  split; [|split; [exact Hblocks|split]].
  - intros topic. apply contributes_iff.
  - intros prompt ev. split; [apply generate_broadcast_news_call|].
    intros topic Hin Hmat.
    split; [|split; [|split]].
    + unfold prompt, prompt_of.
      do 6 apply occurs_in_app_l. apply occurs_in_join. rewrite Hblocks.
      apply list_elem_of_fmap. exists topic. split; [reflexivity|].
      apply list_elem_of_In, filter_In. split; [now apply list_elem_of_In|].
      now apply contributes_iff.
    + intros p s -> Hs Hne. unfold block_of. do 4 apply occurs_in_app_l.
      apply occurs_in_join.
      now apply (topic_context_entries (Some p) reddit_data twitter_data topic s Hne).
    + intros p s -> Hs Hne. unfold block_of. do 4 apply occurs_in_app_l.
      apply occurs_in_join.
      now apply (topic_context_entries news_data (Some p) twitter_data topic s Hne).
    + intros p s -> Hs Hne. unfold block_of. do 4 apply occurs_in_app_l.
      apply occurs_in_join.
      now apply (topic_context_entries news_data reddit_data (Some p) topic s Hne).
  - intros sa sb Ha Hb news reddit blocks ev.
    apply truthy_nonempty in Ha, Hb.
    assert (broadcast_topic_blocks news reddit None ["A"; "B"] = blocks /\
            broadcast_topic_blocks news reddit None ["A"; "C"; "B"] = blocks) as [H2 H3].
    { unfold broadcast_topic_blocks, topic_context, context_entry; simpl.
      rewrite !lookup_singleton_eq.
      rewrite !lookup_singleton_ne by discriminate.
      rewrite Ha, Hb. split; reflexivity. }
    split; [exact H2|]. split; [exact H3|].
    split; rewrite generate_broadcast_news_call; [rewrite H2|rewrite H3]; reflexivity.
Qed.

(** News only for "A", Reddit only for "B": two blocks, none for "C", and
    the block of "A" occurs in the prompt of the one model call. *)
Lemma composer_blocks_and_single_call_witness :
  let news := Some {| news_analysis := {[ "A" := "news of A" ]} |} in
  let reddit := Some {| reddit_analysis := {[ "B" := "talk about B" ]} |} in
  let block_a :=
    "TOPIC: A" +:+ Py.nl +:+ Py.nl +:+ "OFFICIAL NEWS CONTENT:" +:+ Py.nl +:+ "news of A" in
  let block_b :=
    "TOPIC: B" +:+ Py.nl +:+ Py.nl +:+ "REDDIT DISCUSSION CONTENT:" +:+ Py.nl +:+ "talk about B" in
  let prompt :=
    broadcast_system_prompt +:+ Py.nl +:+ Py.nl +:+
    "Create broadcast segments for these topics using available sources:" +:+
    Py.nl +:+ Py.nl +:+
    block_a +:+ Py.nl +:+ Py.nl +:+ "--- NEW TOPIC ---" +:+ Py.nl +:+ Py.nl +:+ block_b in
  broadcast_topic_blocks news reddit None ["A"; "C"; "B"] = [block_a; block_b] /\
  generate_broadcast_news (obliging_world "script") news reddit None ["A"; "C"; "B"] [] =
    (Ok "script",
     [EvGenerateContent prompt (Some {| temperature := "0.3"; max_output_tokens := 4000 |})]) /\
  occurs_in block_a prompt /\
  occurs_in ("OFFICIAL NEWS CONTENT:" +:+ Py.nl +:+ "news of A") block_a.
Proof.
  intros news reddit block_a block_b prompt.
  destruct (composer_blocks_and_single_call (obliging_world "script") news reddit None
              ["A"; "C"; "B"] [])
    as (_ & _ & (_ & Hoccurs) & Hexample).
  destruct (Hexample "news of A" "talk about B") as (_ & Hblocks & _ & Hcall);
    [discriminate|discriminate|].
  split; [exact Hblocks|]. split; [exact Hcall|].
  destruct (Hoccurs "A") as (Hblock & Hnews & _).
  - apply (bool_decide_unpack _). vm_compute. exact I.
  - left. exists {[ "A" := "news of A" ]}, "news of A". repeat split; discriminate.
  - split.
    + cbv zeta in Hblock. unfold news, reddit in Hblock, Hblocks.
      rewrite Hblocks in Hblock. exact Hblock.
    + apply (Hnews {| news_analysis := {[ "A" := "news of A" ]} |} "news of A");
        [reflexivity|reflexivity|discriminate].
Defined.

(** ** Failures of the composer and of the translator (C7) *)

Lemma translate_for_language_call (E : Env) (text target_lang : string) (h : list event) :
  Py.startswith target_lang "en" = false ->
  let ev := EvGenerateContent (translation_prompt text target_lang) None in
  translate_for_language E text target_lang h =
    (match answer E h ev with
     | Ok translated => Ok (Py.strip translated)
     | Raise e => Raise e
     end, h ++ [ev]).
Proof.
  intros Hlang ev. unfold translate_for_language. rewrite Hlang.
  unfold bind, call, ret. fold ev. now destruct (answer E h ev).
Qed.

(** C7.  When the one model call of the composer fails, the composer raises
    that very failure, and the request ends there: the handler makes no
    further call (no retry, no translation, no audio), substitutes nothing,
    and raises an [HTTPException] with status 500 whose detail is the text
    of the failure.  The same holds when the composer succeeds and the one
    model call of the translator fails. *)
Theorem composition_failures_are_fatal (E : Env) (reddit_agent twitter_agent : Agent)
    (req : NewsRequest) (h h1 h2 h3 : list event) (news : option NewsPayload)
    (reddit : option RedditPayload) (twitter : option TwitterPayload) (e : exn) :
  collect_news E req h = (Ok news, h1) ->
  collect_reddit E reddit_agent req h1 = (Ok reddit, h2) ->
  collect_twitter E twitter_agent req h2 = (Ok twitter, h3) ->
  let compose :=
    EvGenerateContent
      (broadcast_prompt (broadcast_topic_blocks news reddit twitter (topics req)))
      (Some broadcast_config) in
  (answer E h3 compose = Raise e ->
   generate_broadcast_news E news reddit twitter (topics req) h3 = (Raise e, h3 ++ [compose]) /\
   generate_news_audio_with E reddit_agent twitter_agent req h
     = (Raise (HTTPException 500 (exn_str e)), h3 ++ [compose])) /\
  (forall summary_en,
      answer E h3 compose = Ok summary_en ->
      Py.startswith (language req) "en" = false ->
      let translate := EvGenerateContent (translation_prompt summary_en (language req)) None in
      answer E (h3 ++ [compose]) translate = Raise e ->
      translate_for_language E summary_en (language req) (h3 ++ [compose])
        = (Raise e, h3 ++ [compose; translate]) /\
      generate_news_audio_with E reddit_agent twitter_agent req h
        = (Raise (HTTPException 500 (exn_str e)), h3 ++ [compose; translate])).
Proof.
  intros Hn Hr Ht compose.
  pose proof (handle_after_collection E reddit_agent twitter_agent req h h1 h2 h3
                news reddit twitter Hn Hr Ht) as Hhandle.
  pose proof (generate_broadcast_news_call E news reddit twitter (topics req) h3) as Hcall.
  cbv zeta in Hcall. fold compose in Hcall.
  split.
  - intros Hfail. rewrite Hfail in Hcall. split; [exact Hcall|].
    unfold generate_news_audio_with, try_except. rewrite Hhandle.
    unfold bind at 1. now rewrite Hcall.
  - intros summary_en Hok Hlang translate Hfail. rewrite Hok in Hcall.
    pose proof (translate_for_language_call E summary_en (language req) (h3 ++ [compose]) Hlang)
      as Htr.
    cbv zeta in Htr. fold translate in Htr. rewrite Hfail in Htr.
    rewrite <- app_assoc in Htr. simpl in Htr.
    split; [exact Htr|].
    assert (String.eqb (language req) "en-US" = false) as Hne.
    { apply String.eqb_neq. intros Heq. rewrite Heq in Hlang. discriminate. }
    unfold generate_news_audio_with, try_except. rewrite Hhandle.
    unfold bind at 1. rewrite Hcall. unfold bind at 1.
    unfold translate_step. rewrite Hne. simpl. now rewrite Htr.
Qed.

(** The model is out of quota: the news of "x" degrade to the placeholder,
    the composer fails, and the request fails with the text of that
    failure. *)
Lemma composition_failures_are_fatal_witness :
  exists h',
    generate_news_audio model_down
      {| topics := ["x"]; source_type := "news"; language := "hi-IN" |} []
    = (Raise (HTTPException 500 "429 quota exceeded"), h').
Proof.
  edestruct composition_failures_are_fatal
    with (E := model_down)
         (reddit_agent := GeminiAgent model_down) (twitter_agent := TwitterAgent model_down)
         (req := {| topics := ["x"]; source_type := "news"; language := "hi-IN" |})
         (h := @nil event)
         (e := PyException "ResourceExhausted" "429 quota exceeded")
    as [Hcompose _].
  - vm_compute. reflexivity.
  - vm_compute. reflexivity.
  - vm_compute. reflexivity.
  - destruct Hcompose as [_ Hrequest]; [reflexivity|].
    eexists. exact Hrequest.
Defined.

(** ** The translator (C8) *)

(** C8.  For a target language that denotes English (a code that starts
    with "en", "en-US" in particular) the translator returns its input
    unchanged and makes no call.  For any other target language, "hi-IN" in
    particular, it makes exactly one model call, for the translation prompt,
    and returns the stripped reply, or raises the failure of that call.  In
    the handler too a request in "en-US" keeps the composed script as it
    is, without a call. *)
Theorem translator_noop_or_single_call (E : Env) (text : string) (h : list event) :
  (forall target_lang,
      Py.startswith target_lang "en" = true ->
      translate_for_language E text target_lang h = (Ok text, h)) /\
  translate_for_language E text "en-US" h = (Ok text, h) /\
  (forall target_lang,
      Py.startswith target_lang "en" = false ->
      let ev := EvGenerateContent (translation_prompt text target_lang) None in
      translate_for_language E text target_lang h =
        (match answer E h ev with
         | Ok translated => Ok (Py.strip translated)
         | Raise e => Raise e
         end, h ++ [ev])) /\
  (let ev := EvGenerateContent (translation_prompt text "hi-IN") None in
   translate_for_language E text "hi-IN" h =
     (match answer E h ev with
      | Ok translated => Ok (Py.strip translated)
      | Raise e => Raise e
      end, h ++ [ev])) /\
  (forall req, language req = "en-US" -> translate_step E req text h = (Ok text, h)).
Proof.
  split; [|split; [|split; [|split]]].
  - intros target_lang Hen. unfold translate_for_language. now rewrite Hen.
  - reflexivity.
  - intros target_lang Hother. now apply translate_for_language_call.
  - now apply translate_for_language_call.
  - intros req Hlang. unfold translate_step. now rewrite Hlang.
Qed.

(** British English needs no call; Hindi takes one. *)
Lemma translator_noop_or_single_call_witness :
  translate_for_language (obliging_world "  namaste  ") "hello" "en-GB" [] = (Ok "hello", []) /\
  translate_for_language (obliging_world "  namaste  ") "hello" "hi-IN" [] =
    (Ok "namaste", [EvGenerateContent (translation_prompt "hello" "hi-IN") None]).
Proof.
  destruct (translator_noop_or_single_call (obliging_world "  namaste  ") "hello" [])
    as (Hen & _ & Hother & _).
  split; [apply Hen; reflexivity|].
  apply (Hother "hi-IN"). reflexivity.
Defined.

(** ** The voice table (C10) *)

Lemma voice_keys_are_the_table : dom VOICE_BY_LANG = list_to_set voice_keys.
Proof. unfold VOICE_BY_LANG. now rewrite dom_list_to_map_L. Qed.

Lemma voice_table_miss (lang_code : string) :
  lang_code ∉ voice_keys -> get_voice_for_language lang_code = "en-US-natalie".
Proof.
  intros Hmiss. unfold get_voice_for_language, VOICE_BY_LANG.
  rewrite not_elem_of_list_to_map_1; [reflexivity|exact Hmiss].
Qed.

Lemma qualified_code_is_no_key (lang_code : string) :
  Py.contains "-" lang_code = true -> lang_code ∉ voice_keys.
Proof.
  intros Hdash Hkey. unfold voice_keys in Hkey.
  repeat (apply elem_of_cons in Hkey as [-> | Hkey]; [discriminate Hdash|]).
  now apply elem_of_nil in Hkey.
Qed.

(** The audio step starts with the Murf request, for the chosen voice. *)
Lemma narrate_first_call (E : Env) (req : NewsRequest) (final_summary : string)
    (h : list event) :
  Py.truthy (murf_api_key E) = true ->
  exists r rest,
    narrate E req final_summary h =
      (r, h ++ EvMurfGenerate final_summary (get_voice_for_language (language req)) :: rest).
Proof.
  intros Hkey. unfold narrate, text_to_audio_murf. rewrite Hkey. simpl.
  unfold bind, call, tick, ret, raise.
  set (murf := EvMurfGenerate final_summary (get_voice_for_language (language req))).
  repeat first
    [ match goal with
      | |- context [answer E ?hh ?ev] => destruct (answer E hh ev)
      end
    | match goal with
      | |- context [if ?b then _ else _] => destruct b
      end ];
    simpl; eexists _, _; rewrite <- ?app_assoc; reflexivity.
Qed.

(** C10.  The keys of the voice table are the eleven bare language codes,
    and every locale code that is not one of them gets the default voice
    "en-US-natalie".  A region-qualified code (one with a hyphen) is never a
    key: "en-US", "hi-IN" and every code the interface sends get the default
    voice, although the table has an entry for the bare code "hi".  Hence
    the Murf request of a request in such a language carries the default
    voice. *)
Theorem qualified_codes_get_default_voice (E : Env) (req : NewsRequest)
    (final_summary : string) (h : list event) :
  dom VOICE_BY_LANG = list_to_set voice_keys /\
  (forall lang_code,
      lang_code ∉ voice_keys -> get_voice_for_language lang_code = "en-US-natalie") /\
  (forall lang_code,
      Py.contains "-" lang_code = true ->
      get_voice_for_language lang_code = "en-US-natalie") /\
  get_voice_for_language "en-US" = "en-US-natalie" /\
  get_voice_for_language "hi-IN" = "en-US-natalie" /\
  Forall (fun lang_code => get_voice_for_language lang_code = "en-US-natalie") LANGS /\
  get_voice_for_language "hi" = "shweta" /\
  (language req ∉ voice_keys ->
   Py.truthy (murf_api_key E) = true ->
   exists r rest,
     narrate E req final_summary h =
       (r, h ++ EvMurfGenerate final_summary "en-US-natalie" :: rest)).
Proof.
  split; [exact voice_keys_are_the_table|].
  split; [exact voice_table_miss|].
  split; [intros lang_code Hdash; now apply voice_table_miss, qualified_code_is_no_key|].
  split; [reflexivity|]. split; [reflexivity|].
  split; [repeat constructor|]. split; [reflexivity|].
  intros Hmiss Hkey.
  destruct (narrate_first_call E req final_summary h Hkey) as (r & rest & Hrun).
  rewrite (voice_table_miss _ Hmiss) in Hrun. eauto.
Qed.

(** A request in Hindi is narrated with the default voice, not with the
    Hindi voice of the table. *)
Lemma qualified_codes_get_default_voice_witness :
  exists r rest,
    narrate (obliging_world "script")
      {| topics := ["x"]; source_type := "news"; language := "hi-IN" |} "namaste" [] =
    (r, [] ++ EvMurfGenerate "namaste" "en-US-natalie" :: rest).
Proof.
  destruct (qualified_codes_get_default_voice (obliging_world "script")
              {| topics := ["x"]; source_type := "news"; language := "hi-IN" |}
              "namaste" []) as (_ & _ & _ & _ & _ & _ & _ & Hnarrate).
  apply Hnarrate; [|reflexivity].
  apply (bool_decide_unpack _). vm_compute. exact I.
Defined.

(** * Further properties of the code *)

(** ** The headlines [extract_headlines] keeps *)

Lemma extract_headlines_join (cleaned_text : string) :
  extract_headlines cleaned_text = Py.join Py.nl (headline_list cleaned_text).
Proof.
  unfold extract_headlines, headline_list, headline_lines.
  now destruct (fold_left headline_step _ _) as [headlines [|first block]].
Qed.

Lemma headline_lines_elem (cleaned_text x : string) :
  x ∈ headline_lines cleaned_text ->
  x <> "" /\ Py.strip x = x /\
  exists raw, raw ∈ Py.split "010"%char cleaned_text /\ x = Py.strip raw.
Proof.
  unfold headline_lines. intros Hx.
  apply list_elem_of_fmap in Hx as (raw & -> & Hraw).
  apply list_elem_of_In, filter_In in Hraw as [Hraw Htruthy].
  apply truthy_nonempty in Htruthy.
  split; [exact Htruthy|]. split; [apply strip_idempotent|].
  exists raw. split; [now apply list_elem_of_In|reflexivity].
Qed.

Lemma headline_fold_sublist (lines : list string) :
  forall (headlines block seen : list string),
    headlines ++ block `sublist_of` seen ->
    forall headlines' block',
      fold_left headline_step lines (headlines, block) = (headlines', block') ->
      headlines' ++ block' `sublist_of` seen ++ List.filter not_more lines.
Proof.
  induction lines as [|line rest IH]; intros headlines block seen Hsub headlines' block'; simpl.
  - intros [= <- <-]. now rewrite app_nil_r.
  - unfold not_more at 1. destruct (String.eqb line "More") eqn:Hmore; simpl.
    + destruct block as [|first block].
      * now apply IH.
      * apply IH. rewrite app_nil_r. etrans; [|exact Hsub].
        apply sublist_app; [reflexivity|]. apply sublist_skip, sublist_nil_l.
    + intros Hfold. rewrite (cons_middle line), app_assoc.
      apply (IH headlines (block ++ [line])); [|exact Hfold].
      rewrite app_assoc. now apply sublist_app.
Qed.

Lemma headline_fold_nonempty (lines : list string) :
  forall (headlines block headlines' block' : list string),
    fold_left headline_step lines (headlines, block) = (headlines', block') ->
    headlines ++ block <> [] \/ (exists line, line ∈ lines /\ not_more line = true) ->
    headlines' ++ block' <> [].
Proof.
  induction lines as [|line rest IH]; intros headlines block headlines' block'; simpl.
  - intros [= <- <-] [H|(line & Hin & _)]; [exact H|]. now apply elem_of_nil in Hin.
  - intros Hfold Hsome.
    destruct (String.eqb line "More") eqn:Hmore.
    + destruct block as [|first block].
      * apply (IH _ _ _ _ Hfold).
        destruct Hsome as [H|(x & Hin & Hx)]; [now left|].
        apply elem_of_cons in Hin as [->|Hin]; [|right; eauto].
        unfold not_more in Hx. now rewrite Hmore in Hx.
      * apply (IH _ _ _ _ Hfold). left. now destruct headlines.
    + apply (IH _ _ _ _ Hfold). left. intros Hnil.
      apply app_eq_nil in Hnil as [_ Hnil].
      now apply app_eq_nil in Hnil as [_ Hnil].
Qed.

Lemma headline_list_sublist (cleaned_text : string) :
  headline_list cleaned_text `sublist_of`
    List.filter not_more (headline_lines cleaned_text).
Proof.
  unfold headline_list.
  destruct (fold_left headline_step (headline_lines cleaned_text) ([], []))
    as [headlines block] eqn:Hfold.
  pose proof (headline_fold_sublist (headline_lines cleaned_text) [] [] []
                (sublist_nil_l _) headlines block Hfold) as Hsub.
  simpl in Hsub. etrans; [|exact Hsub].
  destruct block as [|first block]; [now rewrite app_nil_r|].
  apply sublist_app; [reflexivity|]. apply sublist_skip, sublist_nil_l.
Qed.

Lemma headline_list_elem (cleaned_text x : string) :
  x ∈ headline_list cleaned_text ->
  x ∈ headline_lines cleaned_text /\ x <> "More".
Proof.
  intros Hx.
  pose proof (sublist_submseteq _ _ (headline_list_sublist cleaned_text)) as Hsub.
  apply (elem_of_submseteq _ _ _ Hx) in Hsub.
  apply list_elem_of_In, filter_In in Hsub as [Hin Hnot].
  split; [now apply list_elem_of_In|].
  intros ->. discriminate Hnot.
Qed.

(** X1.  The result of [extract_headlines] is the newline-joined list of
    some of the non-blank lines of the page, stripped, in the order of the
    page; none of them is empty, none is the separator "More", and none
    begins or ends with a whitespace character, Unicode whitespace
    included. *)
Theorem headlines_are_page_lines (cleaned_text : string) :
  extract_headlines cleaned_text = Py.join Py.nl (headline_list cleaned_text) /\
  headline_list cleaned_text `sublist_of`
    List.filter not_more (headline_lines cleaned_text) /\
  forall x, x ∈ headline_list cleaned_text ->
    x <> "" /\ x <> "More" /\ Py.strip x = x /\
    ~ space_first x /\ ~ space_last x /\
    exists raw, raw ∈ Py.split "010"%char cleaned_text /\ x = Py.strip raw.
Proof.
  split; [apply extract_headlines_join|]. split; [apply headline_list_sublist|].
  intros x Hx. apply headline_list_elem in Hx as [Hline Hmore].
  apply headline_lines_elem in Hline as (Hne & Hstrip & Hraw).
  destruct (stripped_ends x Hstrip). auto 10.
Qed.

Lemma headline_list_nil_iff (cleaned_text : string) :
  headline_list cleaned_text = [] <->
  Forall (fun line => line = "More") (headline_lines cleaned_text).
Proof.
  split.
  - intros Hnil. apply Forall_forall. intros line Hline.
    destruct (String.eqb line "More") eqn:Hmore; [now apply String.eqb_eq|].
    exfalso. unfold headline_list in Hnil.
    destruct (fold_left headline_step (headline_lines cleaned_text) ([], []))
      as [headlines block] eqn:Hfold.
    apply (headline_fold_nonempty _ _ _ _ _ Hfold).
    + right. exists line. split; [exact Hline|]. unfold not_more. now rewrite Hmore.
    + destruct block as [|first block]; [now rewrite app_nil_r|].
      now apply app_eq_nil in Hnil as [_ Hnil].
  - intros Hall.
    assert (List.filter not_more (headline_lines cleaned_text) = []) as Hfilter.
    { induction Hall as [|line lines -> _ IH]; [reflexivity|exact IH]. }
    pose proof (headline_list_sublist cleaned_text) as Hsub.
    rewrite Hfilter in Hsub. now apply sublist_nil_r.
Qed.

(** No whitespace character has a newline among the bytes that follow
    its first one. *)
Lemma whitespace_no_newline_inside (w : list ascii) :
  w ∈ Py.whitespace -> "010"%char ∉ tail w.
Proof.
  revert w. apply Forall_forall. apply (bool_decide_unpack _). vm_compute. exact I.
Qed.

(** A text that starts with a stripped, non-empty line, alone or followed
    by a newline, is not blank. *)
Lemma stripped_line_not_blank (x rest : string) :
  x <> "" -> Py.strip x = x ->
  rest = "" \/ (exists tail, rest = Py.nl +:+ tail) ->
  ~ blank (x +:+ rest).
Proof.
  intros Hne Hstrip Hrest Hblank.
  destruct (strip_spec x) as (_ & Hfirst & _). rewrite Hstrip in Hfirst.
  unfold blank in Hblank. rewrite chars_app in Hblank.
  inversion Hblank as [Hnil|w l Hw Hl Heq].
  - symmetry in Hnil. apply app_eq_nil in Hnil as [Hx _]. now apply chars_nil in Hx.
  - apply app_eq_app in Heq as (k & [[Hxw Hk] | [Hwx Hk]]).
    2: { apply Hfirst. exists w. split; [exact Hw|]. rewrite Hwx. now exists k. }
    + destruct k as [|c k].
      * apply Hfirst. exists w. split; [exact Hw|]. rewrite Hxw, app_nil_r. reflexivity.
      * destruct Hrest as [->|(tail & ->)]; [discriminate Hk|].
        unfold chars in Hk. simpl in Hk. injection Hk as <- _.
        apply (whitespace_no_newline_inside w Hw). rewrite Hxw.
        destruct (chars x) as [|a x'] eqn:Hx; [now apply chars_nil in Hx|].
        simpl. set_solver.
Qed.

Lemma join_cases (sep x : string) (l : list string) :
  Py.join sep (x :: l) = x +:+ "" \/
  exists tail, Py.join sep (x :: l) = x +:+ sep +:+ tail.
Proof.
  destruct l as [|y l]; simpl; [left; now rewrite string_app_nil_r|right; eauto].
Qed.

Lemma headlines_not_blank (cleaned_text : string) :
  headline_list cleaned_text <> [] -> ~ blank (extract_headlines cleaned_text).
Proof.
  intros Hne. rewrite extract_headlines_join.
  destruct (headline_list cleaned_text) as [|x l] eqn:Hlist; [now destruct Hne|].
  assert (x ∈ headline_list cleaned_text) as Hx by (rewrite Hlist; set_solver).
  apply headline_list_elem in Hx as [Hline _].
  apply headline_lines_elem in Hline as (Hnonempty & Hstrip & _).
  destruct (join_cases Py.nl x l) as [-> | (tail & ->)].
  - apply stripped_line_not_blank; auto.
  - apply stripped_line_not_blank; eauto.
Qed.

(** X2.  [extract_headlines] returns the empty string exactly when every
    non-blank line of the page is the separator "More" (an empty or blank
    page included), and this is the only case in which the News collector
    takes its stand-in headline: a non-empty result is never blank. *)
Theorem no_headlines_exactly_when_only_separators (cleaned_text : string) :
  (extract_headlines cleaned_text = "" <->
   Forall (fun line => line = "More") (headline_lines cleaned_text)) /\
  (no_headlines (extract_headlines cleaned_text) = true <->
   extract_headlines cleaned_text = "").
Proof.
  assert (extract_headlines cleaned_text = "" <-> headline_list cleaned_text = []) as Hjoin.
  { split.
    - intros Hempty. destruct (headline_list cleaned_text) as [|x l] eqn:Hlist; [reflexivity|].
      exfalso. apply (headlines_not_blank cleaned_text); [now rewrite Hlist|].
      rewrite Hempty. constructor.
    - intros Hnil. now rewrite extract_headlines_join, Hnil. }
  split; [now rewrite Hjoin, headline_list_nil_iff|].
  split.
  - unfold no_headlines. intros Hno. apply orb_true_iff in Hno as [Hfalsy|Hstrip].
    + apply negb_true_iff in Hfalsy. unfold Py.truthy in Hfalsy.
      apply negb_false_iff in Hfalsy. now apply String.eqb_eq.
    + apply String.eqb_eq, strip_empty_iff in Hstrip.
      apply Hjoin. destruct (headline_list cleaned_text) as [|x l] eqn:Hlist; [reflexivity|].
      exfalso. apply (headlines_not_blank cleaned_text); [now rewrite Hlist|exact Hstrip].
  - now intros ->.
Qed.

(** ** Dictionaries of URLs *)

(** X3.  [generate_news_urls_to_scrape] maps exactly the keywords it is
    given, each to its own Google News search URL, whatever the order and
    the repetitions; looking up any other key fails with a [KeyError] whose
    text is the [repr] of the key. *)
Theorem news_urls_cover_keywords (E : Env) (keywords : list string) (k : string)
    (h : list event) :
  dom (generate_news_urls_to_scrape E keywords) = list_to_set keywords /\
  (k ∈ keywords ->
     getitem E (generate_news_urls_to_scrape E keywords) k h
       = (Ok ("https://news.google.com/search?q=" +:+ quote_plus E k +:+ "&tbs=sbd:1"), h)) /\
  (k ∉ keywords ->
     getitem E (generate_news_urls_to_scrape E keywords) k h
       = (Raise (PyException "KeyError" (repr E k)), h)).
Proof.
  unfold generate_news_urls_to_scrape, getitem.
  rewrite (fold_insert_dom (generate_valid_news_url E)).
  rewrite (fold_insert_lookup (generate_valid_news_url E)).
  split; [set_solver|]. split; intros Hk.
  - now rewrite decide_True.
  - now rewrite decide_False.
Qed.

(** Two keywords, one of them repeated: three entries in, two keys out. *)
Lemma news_urls_cover_keywords_witness :
  getitem silent_world (generate_news_urls_to_scrape silent_world ["ai"; "go"; "ai"]) "ai" []
    = (Ok "https://news.google.com/search?q=ai&tbs=sbd:1", []) /\
  getitem silent_world (generate_news_urls_to_scrape silent_world ["ai"; "go"; "ai"]) "rust" []
    = (Raise (PyException "KeyError" "'rust'"), []).
Proof.
  destruct (news_urls_cover_keywords silent_world ["ai"; "go"; "ai"] "ai" [])
    as (_ & Hin & _).
  destruct (news_urls_cover_keywords silent_world ["ai"; "go"; "ai"] "rust" [])
    as (_ & _ & Hout).
  split; [apply Hin|apply Hout]; apply (bool_decide_unpack _); vm_compute; exact I.
Defined.

(** ** The calls of the News collector *)

Lemma count_events_app (p : event -> bool) (l1 l2 : list event) :
  count_events p (l1 ++ l2) = count_events p l1 + count_events p l2.
Proof. unfold count_events. now rewrite List.filter_app, length_app. Qed.

(** What one topic costs: one BrightData request, at most one direct
    request, at most one model call, and nothing else. *)
Lemma news_topic_trace (E : Env) (topic : string) (h : list event) :
  exists r evs,
    news_topic E topic h = (r, h ++ evs) /\
    count_events is_brightdata evs = 1 /\
    count_events is_direct_request evs <= 1 /\
    count_events is_model_call evs <= 1 /\
    count_events is_acquire evs = 0 /\
    count_events is_sleep evs = 0 /\
    forallb is_news_event evs = true.
Proof.
  unfold news_topic, getitem. rewrite news_url_of_topic.
  unfold bind at 1. unfold ret at 1.
  unfold bind, fetch_search_html, scrape_with_brightdata, try_except, call.
  set (url := generate_valid_news_url E topic).
  destruct (answer E h (EvBrightData url)) as [html|e].
  - unfold summarize_with_gemini_news_script, try_except, call.
    match goal with |- context [answer E ?hh (EvGenerateContent ?p ?c)] =>
      destruct (answer E hh (EvGenerateContent p c)) as [summary|e];
      [exists (Ok summary)|eexists (Raise _)];
      exists [EvBrightData url; EvGenerateContent p c];
      (split; [unfold raise; now rewrite <- app_assoc|repeat split; auto])
    end.
  - assert (exists e', (match e with
                        | RequestException _ =>
                            raise (HTTPException 500 ("BrightData error: " +:+ exn_str e))
                        | _ => raise e
                        end : M string) (h ++ [EvBrightData url])
                       = (Raise e', h ++ [EvBrightData url])) as (e' & ->)
      by (destruct e; eexists; reflexivity).
    destruct (answer E (h ++ [EvBrightData url]) (EvRequestsGet url)) as [html|e2].
    + unfold summarize_with_gemini_news_script, try_except, call.
      match goal with |- context [answer E ?hh (EvGenerateContent ?p ?c)] =>
        destruct (answer E hh (EvGenerateContent p c)) as [summary|e3];
        [exists (Ok summary)|eexists (Raise _)];
        exists [EvBrightData url; EvRequestsGet url; EvGenerateContent p c];
        (split; [unfold raise; now rewrite <- !app_assoc|repeat split; auto])
      end.
    + exists (Raise e2), [EvBrightData url; EvRequestsGet url].
      split; [now rewrite <- app_assoc|repeat split; auto].
Qed.

Lemma scrape_news_loop_trace (E : Env) (topics : list string) :
  forall (results : gmap string string) (h : list event),
  exists d evs,
    scrape_news_loop E topics results h = (Ok d, h ++ evs) /\
    count_events is_acquire evs = length topics /\
    count_events is_sleep evs = length topics /\
    count_events is_brightdata evs = length topics /\
    count_events is_direct_request evs <= length topics /\
    count_events is_model_call evs <= length topics /\
    forallb is_news_event evs = true.
Proof.
  induction topics as [|topic rest IH]; intros results h.
  - exists results, []. simpl. rewrite app_nil_r. repeat split; auto.
  - destruct (news_topic_trace E topic (h ++ [EvAcquire news_rate_limiter]))
      as (r & evs1 & Hrun & Hbd & Hget & Hgen & Hacq & Hsl & Hkind).
    set (v := match r with Ok s => s | Raise _ => news_unavailable topic end).
    destruct (IH (<[topic := v]> results)
                 (((h ++ [EvAcquire news_rate_limiter]) ++ evs1) ++ [EvSleep 1]))
      as (d & evs2 & Hrest & Hacq2 & Hsl2 & Hbd2 & Hget2 & Hgen2 & Hkind2).
    exists d, ([EvAcquire news_rate_limiter] ++ evs1 ++ [EvSleep 1] ++ evs2).
    split.
    + simpl. unfold bind, tick, try_except; simpl. rewrite Hrun.
      destruct r as [s|e]; simpl; subst v; simpl in Hrest; rewrite Hrest;
        f_equal; now rewrite <- !app_assoc.
    + rewrite !count_events_app, !forallb_app, Hkind, Hkind2.
      cbn [length]. unfold count_events in *. simpl. repeat split; lia.
Qed.

(** X4.  A run of [scrape_news] passes the rate limiter once per topic
    and pauses one second after each; per topic it sends one BrightData
    request, at most one direct request and at most one model call, and it
    makes no other call.  Its retry decorator never comes into play: the
    body is run once and no back-off wait is taken. *)
Theorem news_collector_calls (E : Env) (topics : list string) (h : list event) :
  exists p evs,
    scrape_news E topics h = (Ok p, h ++ evs) /\
    attempts news_retry (scrape_news_body E topics) h = 1 /\
    count_events is_acquire evs = length topics /\
    count_events is_sleep evs = length topics /\
    count_events is_brightdata evs = length topics /\
    count_events is_direct_request evs <= length topics /\
    count_events is_model_call evs <= length topics /\
    forallb is_news_event evs = true.
Proof.
  destruct (scrape_news_loop_trace E topics ∅ h)
    as (d & evs & Hloop & Hcounts).
  exists {| news_analysis := d |}, evs.
  assert (scrape_news_body E topics h = (Ok {| news_analysis := d |}, h ++ evs)) as Hbody.
  { unfold scrape_news_body, bind. now rewrite Hloop. }
  destruct (retry_first_ok news_retry _ _ _ _ Hbody) as [Hrun Hone].
  split; [exact Hrun|]. split; [exact Hone|exact Hcounts].
Qed.

(** ** The topic an agent reads back from its prompt *)

(** X5.  The topic a Reddit or Twitter agent reads back from its prompt,
    to name it in its placeholder, is the topic up to its first apostrophe.
    For a topic without apostrophe it is the topic itself, and the
    placeholder of the agent is the placeholder of the collector; a topic
    with an apostrophe is cut at it. *)
Theorem agent_reads_topic_back (S : McpSource) (topic : string) :
  S = reddit_source \/ S = twitter_source ->
  (exists q,
      quoted_topic (user_content S topic) = q /\
      (Py.apostrophe ∉ chars q) /\
      (topic = q \/ exists tail, topic = q +:+ String Py.apostrophe tail)) /\
  (Py.apostrophe ∉ chars topic ->
     quoted_topic (user_content S topic) = topic /\
     unavailable S (quoted_topic (user_content S topic)) = unavailable S topic).
Proof.
  intros HS. destruct (user_content_shape S topic HS) as (pre & rest & Hfree & ->).
  destruct (quoted_topic_between pre topic rest Hfree) as (q & Hq & Hqfree & Hshape).
  split; [eauto|].
  intros Hplain.
  assert (q = topic) as ->.
  { destruct Hshape as [->|(tail & ->)]; [reflexivity|].
    exfalso. apply Hplain. rewrite chars_app. unfold chars at 2. simpl. set_solver. }
  now rewrite Hq.
Qed.

(** "rust" is read back whole; "it's" is cut to "it". *)
Lemma agent_reads_topic_back_witness :
  quoted_topic (user_content reddit_source "rust") = "rust" /\
  exists q, quoted_topic (user_content twitter_source "it's") = q /\
            ("it's" = q \/ exists tail, "it's" = q +:+ String Py.apostrophe tail).
Proof.
  split.
  - apply (agent_reads_topic_back reddit_source "rust" (or_introl eq_refl)).
    apply (bool_decide_unpack _). vm_compute. exact I.
  - destruct (agent_reads_topic_back twitter_source "it's" (or_intror eq_refl))
      as [(q & Hq & _ & Hshape) _].
    exists q. auto.
Defined.

(** ** The agents and the per-topic call *)

Lemma message_of_role_snoc (r : string) (messages : list message) (m : message) :
  message_of_role r (messages ++ [m]) =
    if String.eqb (role m) r then content m else message_of_role r messages.
Proof. unfold message_of_role. now rewrite fold_left_app. Qed.

(** X6.  [ainvoke] of the Reddit and of the Twitter agent never raises.
    Whatever the messages, it makes exactly one model call, whose prompt is
    the system message, a blank line and the user message (of several
    messages of a role the last one counts, a missing one is empty), and it
    returns one message: the text of the model or, when the call fails, the
    placeholder of the source for the topic quoted in the user message. *)
Theorem agent_never_raises (E : Env) (S : McpSource) (messages : list message)
    (h : list event) :
  let prompt :=
    message_of_role "system" messages +:+ Py.nl +:+ Py.nl +:+
    message_of_role "user" messages in
  let ev := EvGenerateContent prompt (Some (agent_config S)) in
  (exists c,
      model_ainvoke E S messages h = (Ok [c], h ++ [ev]) /\
      c = match answer E h ev with
          | Ok text => text
          | Raise _ => unavailable S (quoted_topic (message_of_role "user" messages))
          end) /\
  (forall r earlier m,
      message_of_role r (earlier ++ [m]) =
        if String.eqb (role m) r then content m else message_of_role r earlier) /\
  (forall r, message_of_role r [] = "").
Proof.
  intros prompt ev. split; [|split; [apply message_of_role_snoc|reflexivity]].
  unfold model_ainvoke, try_except, bind, call, ret. fold prompt. fold ev.
  destruct (answer E h ev) as [text|e]; eexists; split; reflexivity.
Qed.

(** X7.  How [process_topic] and [process_twitter_topic] fail.  With an
    agent that answers with no message at all, the call fails at its first
    attempt with an [IndexError].  With an agent that fails every time with
    a text containing "Overloaded" (and leaves no trace of its own), the
    limiter is passed three times, 15 seconds are waited after the first
    and after the second attempt, and the call fails with
    [MCPOverloadedError("Service overloaded")] whatever the agent raised.
    With an agent whose failure is of another class and does not contain
    "Overloaded", that failure leaves unchanged at the first attempt. *)
Theorem per_topic_call_failures (E : Env) (S : McpSource) (agent : Agent)
    (topic : string) (h : list event) :
  retry_policy S = mcp_retry ->
  ((forall messages h0, ainvoke agent messages h0 = (Ok [], h0)) ->
   process E S agent topic h =
     (Raise (PyException "IndexError" "list index out of range"),
      h ++ [EvAcquire (limiter S)])) /\
  (forall e,
      (forall messages h0, ainvoke agent messages h0 = (Raise e, h0)) ->
      Py.contains "Overloaded" (exn_str e) = true ->
      process E S agent topic h =
        (Raise (MCPOverloadedError "Service overloaded"),
         h ++ [EvAcquire (limiter S); EvSleep 15;
               EvAcquire (limiter S); EvSleep 15;
               EvAcquire (limiter S)])) /\
  (forall e,
      (forall messages h0, ainvoke agent messages h0 = (Raise e, h0)) ->
      Py.contains "Overloaded" (exn_str e) = false ->
      is_overloaded e = false ->
      process E S agent topic h = (Raise e, h ++ [EvAcquire (limiter S)])).
Proof.
  intros Hpolicy. unfold process. rewrite Hpolicy. split; [|split].
  - intros Hempty.
    apply (retry_not_retryable mcp_retry); [|reflexivity].
    unfold process_topic_body, bind, try_except, tick; simpl.
    rewrite Hempty. reflexivity.
  - intros e Hfail Hover.
    assert (forall h0, process_topic_body E S agent topic h0 =
                       (Raise (MCPOverloadedError "Service overloaded"),
                        h0 ++ [EvAcquire (limiter S)])) as Hbody.
    { intros h0. rewrite (process_topic_body_failure E S agent topic h0 _ e (Hfail _ _)).
      now rewrite Hover. }
    destruct (retry_third_attempt mcp_retry (process_topic_body E S agent topic) eq_refl
                h (h ++ [EvAcquire (limiter S)])
                ((h ++ [EvAcquire (limiter S)]) ++ [EvSleep 15] ++ [EvAcquire (limiter S)])
                ((((h ++ [EvAcquire (limiter S)]) ++ [EvSleep 15] ++ [EvAcquire (limiter S)])
                  ++ [EvSleep 15]) ++ [EvAcquire (limiter S)])
                (MCPOverloadedError "Service overloaded")
                (MCPOverloadedError "Service overloaded")
                (Raise (MCPOverloadedError "Service overloaded")))
      as [Hrun _].
    + apply Hbody.
    + reflexivity.
    + rewrite Hbody. now rewrite <- !app_assoc.
    + reflexivity.
    + apply Hbody.
    + rewrite Hrun. simpl. f_equal. now rewrite <- !app_assoc.
  - intros e Hfail Hplain Hkind.
    apply (retry_not_retryable mcp_retry); [|exact Hkind].
    rewrite (process_topic_body_failure E S agent topic h _ e (Hfail _ _)).
    now rewrite Hplain.
Qed.

(** A service that stays overloaded: three attempts, then the failure. *)
Lemma per_topic_call_failures_witness :
  process_twitter_topic silent_world (scripted_agent (fun _ => Ok [])) "rust" [] =
    (Raise (PyException "IndexError" "list index out of range"),
     [] ++ [EvAcquire "twitter_limiter"]) /\
  process_topic silent_world
    (scripted_agent (fun _ => Raise (PyException "RuntimeError" "503 Overloaded"))) "rust" [] =
    (Raise (MCPOverloadedError "Service overloaded"),
     [] ++ [EvAcquire "mcp_limiter"; EvSleep 15; EvAcquire "mcp_limiter"; EvSleep 15;
            EvAcquire "mcp_limiter"]).
Proof.
  split.
  - destruct (per_topic_call_failures silent_world twitter_source
                (scripted_agent (fun _ => Ok [])) "rust" [] eq_refl) as [Hempty _].
    apply Hempty. reflexivity.
  - destruct (per_topic_call_failures silent_world reddit_source
                (scripted_agent (fun _ => Raise (PyException "RuntimeError" "503 Overloaded")))
                "rust" [] eq_refl) as (_ & Hover & _).
    apply (Hover (PyException "RuntimeError" "503 Overloaded")); reflexivity.
Defined.

(** ** A session that cannot be set up *)

(** X8.  When the MCP session cannot be opened, initialised or its tools
    loaded, the Reddit and the Twitter collector return the placeholder for
    every topic without processing any: the limiter is never passed and no
    model call is made.  A session that was opened is closed again. *)
Theorem session_failure_degrades (E : Env) (S : McpSource) (agent : Agent)
    (topics : list string) (h : list event) (e : exn) :
  (answer E h EvOpenSession = Raise e ->
   scrape_topics E S agent topics h =
     (Ok (all_unavailable S topics), h ++ [EvOpenSession])) /\
  (forall r0,
      answer E h EvOpenSession = Ok r0 ->
      answer E (h ++ [EvOpenSession]) EvInitialize = Raise e ->
      scrape_topics E S agent topics h =
        (Ok (all_unavailable S topics),
         h ++ [EvOpenSession; EvInitialize; EvCloseSession])) /\
  (forall r0 r1,
      answer E h EvOpenSession = Ok r0 ->
      answer E (h ++ [EvOpenSession]) EvInitialize = Ok r1 ->
      answer E (h ++ [EvOpenSession; EvInitialize]) EvLoadTools = Raise e ->
      scrape_topics E S agent topics h =
        (Ok (all_unavailable S topics),
         h ++ [EvOpenSession; EvInitialize; EvLoadTools; EvCloseSession])).
Proof.
  unfold scrape_topics, try_except, with_resource, bind, call, ret, tick.
  split; [|split].
  - intros H0. now rewrite H0.
  - intros r0 H0 H1. rewrite H0; simpl. rewrite H1; simpl.
    now rewrite <- !app_assoc.
  - intros r0 r1 H0 H1 H2. rewrite H0; simpl. rewrite H1; simpl.
    rewrite <- app_assoc. simpl. rewrite H2; simpl. now rewrite <- !app_assoc.
Qed.

(** Nothing answers: the session does not open and both topics get the
    Reddit placeholder. *)
Lemma session_failure_degrades_witness :
  scrape_topics silent_world reddit_source (GeminiAgent silent_world) ["a"; "b"] [] =
    (Ok (all_unavailable reddit_source ["a"; "b"]), [] ++ [EvOpenSession]).
Proof.
  destruct (session_failure_degrades silent_world reddit_source (GeminiAgent silent_world)
              ["a"; "b"] [] (PyException "ConnectionError" "unreachable")) as [Hopen _].
  apply Hopen. reflexivity.
Defined.

(** ** The collectors with the agents of the modules *)




(** ** Empty and repeated topic lists *)

(** X10.  With no topic at all the News collector returns an empty
    dictionary without a single call, while the Reddit and the Twitter
    collector still try to open the MCP session before returning an empty
    dictionary. *)
Theorem collectors_on_no_topic (E : Env) (S : McpSource) (agent : Agent) (h : list event) :
  scrape_news E [] h = (Ok {| news_analysis := ∅ |}, h) /\
  exists rest,
    scrape_topics E S agent [] h = (Ok ∅, h ++ EvOpenSession :: rest).
Proof.
  split; [reflexivity|].
  unfold scrape_topics, try_except, with_resource, bind, call, ret, tick; simpl.
  destruct (answer E h EvOpenSession) as [r0|e0]; simpl; [|now exists []].
  destruct (answer E (h ++ [EvOpenSession]) EvInitialize) as [r1|e1]; simpl;
    [|eexists; rewrite <- !app_assoc; reflexivity].
  destruct (answer E ((h ++ [EvOpenSession]) ++ [EvInitialize]) EvLoadTools)
    as [r2|e2]; simpl; eexists; rewrite <- !app_assoc; reflexivity.
Qed.

Lemma size_list_to_set_le (l : list string) :
  size (list_to_set l : gset string) <= length l.
Proof.
  induction l as [|x l IH].
  - now rewrite list_to_set_nil, size_empty.
  - rewrite list_to_set_cons, size_union_alt, size_singleton.
    pose proof (subseteq_size (list_to_set l ∖ {[x]}) (list_to_set l : gset string)) as Hle.
    assert (list_to_set l ∖ {[x]} ⊆ (list_to_set l : gset string)) as Hsub by set_solver.
    specialize (Hle Hsub). cbn [length]. lia.
Qed.

(** X11.  A topic that is listed more than once is processed each time
    but gives one key: the dictionary of a collector has at most as many
    entries as the list has topics, exactly as many when the topics are
    distinct, and in the News collector the entry of a topic processed
    again is replaced by the later result. *)
Theorem repeated_topics_collapse (E : Env) (S : McpSource) (agent : Agent)
    (topics : list string) (h : list event) :
  (exists p h',
      scrape_news E topics h = (Ok p, h') /\
      size (news_analysis p) <= length topics /\
      (NoDup topics -> size (news_analysis p) = length topics)) /\
  (exists d h',
      scrape_topics E S agent topics h = (Ok d, h') /\
      size d <= length topics /\
      (NoDup topics -> size d = length topics)) /\
  (forall topic done h1 v h2,
      scrape_news_loop E topics ∅ h = (Ok done, h1) ->
      try_except (news_topic E topic) (fun _ => ret (news_unavailable topic))
        (h1 ++ [EvAcquire news_rate_limiter]) = (Ok v, h2) ->
      scrape_news E (topics ++ [topic]) h =
        (Ok {| news_analysis := <[topic := v]> done |}, h2 ++ [EvSleep 1])).
Proof.
  split; [|split].
  - destruct (scrape_news_runs_once E topics h) as (d & h' & Hloop & Hrun & _).
    destruct (scrape_news_loop_ok E topics ∅ h) as (d' & h'' & Hloop' & Hdom & _).
    rewrite Hloop in Hloop'. injection Hloop' as <- <-.
    exists {| news_analysis := d |}, h'. split; [exact Hrun|]. simpl.
    rewrite <- size_dom, Hdom, dom_empty_L, (left_id_L ∅ (∪)).
    split; [apply size_list_to_set_le|apply size_list_to_set].
  - destruct (scrape_topics_ok E S agent topics h) as (d & h' & Hrun & Hdom & _).
    exists d, h'. split; [exact Hrun|].
    rewrite <- size_dom, Hdom.
    split; [apply size_list_to_set_le|apply size_list_to_set].
  - intros topic done h1 v h2 Hpre Hstep.
    apply retry_first_ok. unfold scrape_news_body, bind.
    rewrite scrape_news_loop_app, Hpre. simpl.
    unfold bind, tick; simpl.
    unfold try_except in *. destruct (news_topic E topic _) as [[s|e] h3]; simpl in *.
    + injection Hstep as -> ->. reflexivity.
    + unfold ret in Hstep. injection Hstep as -> ->. reflexivity.
Qed.

(** "a" is listed twice: it is fetched twice and the dictionary has two
    entries for three topics. *)
Lemma repeated_topics_collapse_witness :
  exists p h',
    scrape_news (obliging_world "script") ["a"; "b"; "a"] [] = (Ok p, h') /\
    size (news_analysis p) <= 3 /\
    count_events is_brightdata h' = 3.
Proof.
  destruct (repeated_topics_collapse (obliging_world "script") reddit_source
              (fails_on "b") ["a"; "b"; "a"] []) as [(p & h' & Hrun & Hsize & _) _].
  exists p, h'. split; [exact Hrun|]. split; [exact Hsize|].
  assert (scrape_news (obliging_world "script") ["a"; "b"; "a"] [] =
          (scrape_news (obliging_world "script") ["a"; "b"; "a"] [])) as Heq by reflexivity.
  rewrite Hrun in Heq at 1. vm_compute in Heq. injection Heq as _ ->. reflexivity.
Defined.

(** ** What the composer reads *)

Lemma broadcast_topic_blocks_ext (n1 n2 : option NewsPayload) (r1 r2 : option RedditPayload)
    (t1 t2 : option TwitterPayload) (topics : list string) :
  (forall topic, topic ∈ topics ->
     topic_context n1 r1 t1 topic = topic_context n2 r2 t2 topic) ->
  broadcast_topic_blocks n1 r1 t1 topics = broadcast_topic_blocks n2 r2 t2 topics.
Proof.
  intros Hsame. unfold broadcast_topic_blocks. rewrite !broadcast_topic_blocks_fold. simpl.
  induction topics as [|topic rest IH]; [reflexivity|].
  cbn [List.filter].
  assert (contributes n1 r1 t1 topic = contributes n2 r2 t2 topic) as Hc.
  { unfold contributes. now rewrite (Hsame topic) by set_solver. }
  rewrite Hc. destruct (contributes n2 r2 t2 topic); cbn [map].
  - rewrite (Hsame topic) by set_solver. f_equal.
    apply IH. intros t Ht. apply Hsame. set_solver.
  - apply IH. intros t Ht. apply Hsame. set_solver.
Qed.

Lemma filter_length_le (p : string -> bool) (l : list string) :
  length (List.filter p l) <= length l.
Proof. induction l as [|x l IH]; simpl; [lia|]. destruct (p x); simpl; lia. Qed.

(** X12.  The composer reads its three sources only under the requested
    topics: an entry under any other key changes nothing, a source that was
    not collected counts like one that returned an empty dictionary, and two
    bundles that agree on the requested topics give the same blocks.  There
    is at most one block per requested topic. *)
Theorem composer_reads_requested_topics (news_data : option NewsPayload)
    (reddit_data : option RedditPayload) (twitter_data : option TwitterPayload)
    (topics : list string) :
  length (broadcast_topic_blocks news_data reddit_data twitter_data topics) <= length topics /\
  (forall n2 r2 t2,
      (forall topic, topic ∈ topics ->
         news_content_of news_data topic = news_content_of n2 topic /\
         reddit_content_of reddit_data topic = reddit_content_of r2 topic /\
         twitter_content_of twitter_data topic = twitter_content_of t2 topic) ->
      broadcast_topic_blocks news_data reddit_data twitter_data topics =
        broadcast_topic_blocks n2 r2 t2 topics) /\
  (forall d k v,
      k ∉ topics ->
      broadcast_topic_blocks (Some {| news_analysis := <[k := v]> d |})
        reddit_data twitter_data topics =
      broadcast_topic_blocks (Some {| news_analysis := d |})
        reddit_data twitter_data topics) /\
  broadcast_topic_blocks None reddit_data twitter_data topics =
    broadcast_topic_blocks (Some {| news_analysis := ∅ |}) reddit_data twitter_data topics.
Proof.
  split; [|split; [|split]].
  - unfold broadcast_topic_blocks. rewrite broadcast_topic_blocks_fold. simpl.
    rewrite length_map. apply filter_length_le.
  - intros n2 r2 t2 Hsame. apply broadcast_topic_blocks_ext.
    intros topic Ht. destruct (Hsame topic Ht) as (Hn & Hr & Htw).
    unfold topic_context. now rewrite Hn, Hr, Htw.
  - intros d k v Hk. apply broadcast_topic_blocks_ext.
    intros topic Ht. unfold topic_context, news_content_of; simpl.
    rewrite lookup_insert_ne; [reflexivity|]. intros ->. now apply Hk.
  - apply broadcast_topic_blocks_ext.
    intros topic Ht. unfold topic_context, news_content_of; simpl.
    now rewrite lookup_empty.
Qed.

(** An entry for "C", which was not requested, is not read. *)
Lemma composer_reads_requested_topics_witness :
  broadcast_topic_blocks (Some {| news_analysis := <["C" := "news of C"]> {["A" := "news of A"]} |})
    None None ["A"; "B"] =
  broadcast_topic_blocks (Some {| news_analysis := {["A" := "news of A"]} |})
    None None ["A"; "B"].
Proof.
  destruct (composer_reads_requested_topics None None None ["A"; "B"])
    as (_ & _ & Hextra & _).
  apply Hextra. apply (bool_decide_unpack _). vm_compute. exact I.
Defined.

Lemma filter_all_true (p : string -> bool) (l : list string) :
  (forall x, x ∈ l -> p x = true) -> List.filter p l = l.
Proof.
  induction l as [|x l IH]; intros Hall; simpl; [reflexivity|].
  rewrite Hall by set_solver. f_equal. apply IH. intros y Hy. apply Hall. set_solver.
Qed.

(** X13.  A placeholder is material.  When the Reddit collector has
    degraded to its placeholders (and likewise the Twitter one), every
    requested topic still contributes a block to the prompt of the
    composer, and that block carries the placeholder text as Reddit
    content. *)
Theorem placeholders_reach_the_composer (topics : list string) :
  broadcast_topic_blocks None
    (Some {| reddit_analysis := all_unavailable reddit_source topics |}) None topics =
    map (fun topic =>
           topic_block topic
             ["REDDIT DISCUSSION CONTENT:" +:+ Py.nl +:+
              "Reddit discussions about " +:+ topic +:+ " are currently unavailable."])
        topics /\
  broadcast_topic_blocks None None
    (Some {| twitter_analysis := all_unavailable twitter_source topics |}) topics =
    map (fun topic =>
           topic_block topic
             ["TWITTER DISCUSSION CONTENT:" +:+ Py.nl +:+
              "Twitter discussions about " +:+ topic +:+ " are currently unavailable."])
        topics.
Proof.
  split.
  - unfold broadcast_topic_blocks. rewrite broadcast_topic_blocks_fold. simpl.
    assert (forall topic, topic ∈ topics ->
              topic_context None
                (Some {| reddit_analysis := all_unavailable reddit_source topics |}) None topic =
              ["REDDIT DISCUSSION CONTENT:" +:+ Py.nl +:+
               "Reddit discussions about " +:+ topic +:+ " are currently unavailable."])
      as Hctx.
    { intros topic Ht. unfold topic_context. simpl.
      now rewrite (all_unavailable_lookup reddit_source topics topic Ht). }
    rewrite filter_all_true.
    + apply map_ext_in. intros topic Ht. apply list_elem_of_In in Ht. now rewrite Hctx.
    + intros topic Ht. unfold contributes. now rewrite Hctx.
  - unfold broadcast_topic_blocks. rewrite broadcast_topic_blocks_fold. simpl.
    assert (forall topic, topic ∈ topics ->
              topic_context None None
                (Some {| twitter_analysis := all_unavailable twitter_source topics |}) topic =
              ["TWITTER DISCUSSION CONTENT:" +:+ Py.nl +:+
               "Twitter discussions about " +:+ topic +:+ " are currently unavailable."])
      as Hctx.
    { intros topic Ht. unfold topic_context. simpl.
      now rewrite (all_unavailable_lookup twitter_source topics topic Ht). }
    rewrite filter_all_true.
    + apply map_ext_in. intros topic Ht. apply list_elem_of_In in Ht. now rewrite Hctx.
    + intros topic Ht. unfold contributes. now rewrite Hctx.
Qed.

(** X14.  A selection that is none of news, reddit, twitter, both and all
    is not rejected: no collector runs, and the composer is still called,
    once, with a prompt that has no topic block at all. *)
Theorem unknown_selection_composes_nothing (E : Env) (reddit_agent twitter_agent : Agent)
    (req : NewsRequest) (h : list event) :
  source_type req ∉ ["news"; "reddit"; "twitter"; "both"; "all"] ->
  broadcast_topic_blocks None None None (topics req) = [] /\
  generate_broadcast_news E None None None (topics req) h =
    (answer E h (EvGenerateContent (broadcast_prompt []) (Some broadcast_config)),
     h ++ [EvGenerateContent (broadcast_prompt []) (Some broadcast_config)]) /\
  handle E reddit_agent twitter_agent req h =
    bind (generate_broadcast_news E None None None (topics req))
         (fun summary_en => bind (translate_step E req summary_en) (narrate E req)) h.
Proof.
  intros Hunknown.
  assert (broadcast_topic_blocks None None None (topics req) = []) as Hblocks.
  { unfold broadcast_topic_blocks. induction (topics req) as [|t l IH]; [reflexivity|exact IH]. }
  split; [exact Hblocks|]. split.
  - pose proof (generate_broadcast_news_call E None None None (topics req) h) as Hcall.
    cbv zeta in Hcall. now rewrite Hblocks in Hcall.
  - apply (handle_after_collection E reddit_agent twitter_agent req h h h h).
    + unfold collect_news, wants_news, Py.mem.
      rewrite bool_decide_eq_false_2; [reflexivity|set_solver].
    + unfold collect_reddit, wants_reddit, Py.mem.
      rewrite bool_decide_eq_false_2; [reflexivity|set_solver].
    + unfold collect_twitter, wants_twitter, Py.mem.
      rewrite bool_decide_eq_false_2; [reflexivity|set_solver].
Qed.

(** A request for "blogs": the first call is the composer's, for a prompt
    without blocks. *)
Lemma unknown_selection_composes_nothing_witness :
  generate_broadcast_news silent_world None None None ["x"] [] =
    (Raise (PyException "ConnectionError" "unreachable"),
     [] ++ [EvGenerateContent (broadcast_prompt []) (Some broadcast_config)]).
Proof.
  destruct (unknown_selection_composes_nothing silent_world
              (GeminiAgent silent_world) (TwitterAgent silent_world)
              {| topics := ["x"]; source_type := "blogs"; language := "en-US" |} [])
    as (_ & Hcall & _).
  - apply (bool_decide_unpack _). vm_compute. exact I.
  - exact Hcall.
Defined.

(** ** The audio step *)

(** X15.  [text_to_audio_murf] fails with a [ValueError], before any
    call, when no Murf key is configured.  With a key it asks Murf first and
    then creates the directory; a failure of either ends the call.  An
    answer without audio URL ends in a [RuntimeError] with nothing
    downloaded or written.  Otherwise the audio is downloaded and then
    written to the path pathlib makes of the directory and of
    [tts_<time>.mp3], which is what the function returns when the write
    succeeds; a failure of the download or of the write is the failure of
    the call.  For the directory "audio" of the handler the path is
    [audio/tts_<time>.mp3].  The [language] argument plays no part. *)
Theorem murf_outcomes (E : Env) (text voice_id language output_dir : string)
    (h : list event) :
  let murf := EvMurfGenerate text voice_id in
  let mkdir := EvMkdir (Py.path [output_dir]) in
  (Py.truthy (murf_api_key E) = false ->
   text_to_audio_murf E text voice_id language output_dir h =
     (Raise (PyException "ValueError" "MURF_API_KEY missing"), h)) /\
  (forall e,
      Py.truthy (murf_api_key E) = true ->
      answer E h murf = Raise e ->
      text_to_audio_murf E text voice_id language output_dir h = (Raise e, h ++ [murf])) /\
  (forall url e,
      Py.truthy (murf_api_key E) = true ->
      answer E h murf = Ok url ->
      answer E (h ++ [murf]) mkdir = Raise e ->
      text_to_audio_murf E text voice_id language output_dir h
        = (Raise e, h ++ [murf; mkdir])) /\
  (forall made stamp,
      Py.truthy (murf_api_key E) = true ->
      answer E h murf = Ok "" ->
      answer E (h ++ [murf]) mkdir = Ok made ->
      answer E (h ++ [murf; mkdir]) EvNow = Ok stamp ->
      text_to_audio_murf E text voice_id language output_dir h =
        (Raise (PyException "RuntimeError" "Murf response missing audio URL"),
         h ++ [murf; mkdir; EvNow])) /\
  (forall url made stamp,
      Py.truthy (murf_api_key E) = true ->
      answer E h murf = Ok url -> url <> "" ->
      answer E (h ++ [murf]) mkdir = Ok made ->
      answer E (h ++ [murf; mkdir]) EvNow = Ok stamp ->
      let fp := Py.path [output_dir; "tts_" +:+ stamp +:+ ".mp3"] in
      text_to_audio_murf E text voice_id language output_dir h =
        match answer E (h ++ [murf; mkdir; EvNow]) (EvDownload url) with
        | Ok audio =>
            (match answer E (h ++ [murf; mkdir; EvNow; EvDownload url])
                     (EvWriteBytes fp audio) with
             | Ok _ => Ok fp
             | Raise e => Raise e
             end,
             h ++ [murf; mkdir; EvNow; EvDownload url; EvWriteBytes fp audio])
        | Raise e => (Raise e, h ++ [murf; mkdir; EvNow; EvDownload url])
        end) /\
  (forall stamp,
      "/"%char ∉ chars stamp ->
      Py.path ["audio"] = "audio" /\
      Py.path ["audio"; "tts_" +:+ stamp +:+ ".mp3"] = "audio/tts_" +:+ stamp +:+ ".mp3") /\
  (forall other_language,
      text_to_audio_murf E text voice_id language output_dir h =
      text_to_audio_murf E text voice_id other_language output_dir h).
Proof.
  intros murf mkdir. unfold text_to_audio_murf.
  split; [|split; [|split; [|split; [|split; [|split]]]]].
  - intros Hkey. now rewrite Hkey.
  - intros e Hkey Hmurf. rewrite Hkey. simpl.
    unfold bind, call. fold murf. now rewrite Hmurf.
  - intros url e Hkey Hmurf Hmkdir. rewrite Hkey. simpl.
    unfold bind, call. fold murf mkdir. rewrite Hmurf, Hmkdir.
    now rewrite <- app_assoc.
  - intros made stamp Hkey Hmurf Hmkdir Hnow. rewrite Hkey. simpl.
    unfold bind, call, raise. fold murf mkdir. rewrite Hmurf, Hmkdir.
    rewrite <- app_assoc. simpl. rewrite Hnow. simpl.
    now rewrite <- !app_assoc.
  - intros url made stamp Hkey Hmurf Hurl Hmkdir Hnow.
    set (fp := Py.path [output_dir; "tts_" +:+ stamp +:+ ".mp3"]). rewrite Hkey. simpl.
    unfold bind, call, raise, ret. fold murf mkdir. rewrite Hmurf, Hmkdir.
    rewrite <- app_assoc. simpl. rewrite Hnow.
    apply truthy_nonempty in Hurl. rewrite Hurl. simpl.
    rewrite <- !app_assoc. simpl. fold fp.
    destruct (answer E (h ++ [murf; mkdir; EvNow]) (EvDownload url)) as [audio|e];
      [|reflexivity].
    rewrite <- !app_assoc. simpl.
    now destruct (answer E (h ++ [murf; mkdir; EvNow; EvDownload url]) (EvWriteBytes fp audio)).
  - intros stamp Hfree. split; [reflexivity|now apply audio_path].
  - reflexivity.
Qed.

(** Murf answers without an audio URL. *)
Lemma murf_outcomes_witness :
  text_to_audio_murf (obliging_world "") "hello" "en-US-natalie" "en-US" "audio" [] =
    (Raise (PyException "RuntimeError" "Murf response missing audio URL"),
     [] ++ [EvMurfGenerate "hello" "en-US-natalie"; EvMkdir "audio"; EvNow]).
Proof.
  destruct (murf_outcomes (obliging_world "") "hello" "en-US-natalie" "en-US" "audio" [])
    as (_ & _ & _ & Hnourl & _).
  apply (Hnourl "" ""); reflexivity.
Defined.

Lemma murf_path_shape (E : Env) (text voice_id language output_dir path : string)
    (h h1 : list event) :
  text_to_audio_murf E text voice_id language output_dir h = (Ok path, h1) ->
  exists stamp, path = Py.path [output_dir; "tts_" +:+ stamp +:+ ".mp3"].
Proof.
  unfold text_to_audio_murf, bind, call, raise, ret.
  destruct (negb (Py.truthy (murf_api_key E))); [discriminate|].
  destruct (answer E h _) as [url|e0]; [|discriminate].
  destruct (answer E _ (EvMkdir _)) as [made|e3]; [|discriminate].
  destruct (answer E _ EvNow) as [stamp|e1]; [|discriminate].
  destruct (negb (Py.truthy url)); [discriminate|].
  destruct (answer E _ (EvDownload url)) as [audio|e2]; [|discriminate].
  destruct (answer E _ (EvWriteBytes _ _)) as [written|e4]; [|discriminate].
  intros [= <- _]. now exists stamp.
Qed.

(** What [narrate] does once the audio file is written. *)
Lemma narrate_after_audio (E : Env) (req : NewsRequest) (final_summary path : string)
    (h h1 : list event) :
  text_to_audio_murf E final_summary (get_voice_for_language (language req))
    (language req) "audio" h = (Ok path, h1) ->
  narrate E req final_summary h =
    match answer E h1 (EvPathExists path) with
    | Raise e => (Raise e, h1 ++ [EvPathExists path])
    | Ok present =>
        if Py.truthy present then
          match answer E (h1 ++ [EvPathExists path]) (EvReadBytes path) with
          | Ok audio =>
              (Ok {| summary_text := final_summary;
                     audio_content := b64encode E audio;
                     metadata_topics := topics req;
                     metadata_sources := source_type req;
                     metadata_language := language req |},
               h1 ++ [EvPathExists path; EvReadBytes path])
          | Raise e => (Raise e, h1 ++ [EvPathExists path; EvReadBytes path])
          end
        else (Raise (PyException "RuntimeError" "Audio generation failed"),
              h1 ++ [EvPathExists path])
    end.
Proof.
  intros Haudio.
  destruct (murf_path_shape _ _ _ _ _ _ _ _ Haudio) as (stamp & Hpath).
  assert (Py.truthy path = true) as Htruthy by (subst path; apply path_truthy).
  unfold narrate. unfold bind at 1. rewrite Haudio.
  unfold bind at 1. rewrite Htruthy. unfold call at 1.
  destruct (answer E h1 (EvPathExists path)) as [present|e]; [|reflexivity].
  destruct (Py.truthy present); simpl; [|reflexivity].
  unfold bind, call, ret.
  destruct (answer E _ (EvReadBytes path)); now rewrite <- app_assoc.
Qed.

(** X16.  Once Murf has produced the file, the handler checks that it
    exists: if it does not, the request fails with "Audio generation
    failed" without reading anything; if it does, the response carries the
    script that was narrated, the base64 encoding of the bytes read from
    that file, and the topics, the selection and the language of the
    request unchanged. *)
Theorem narration_checks_the_file (E : Env) (req : NewsRequest)
    (final_summary path : string) (h h1 : list event) :
  text_to_audio_murf E final_summary (get_voice_for_language (language req))
    (language req) "audio" h = (Ok path, h1) ->
  (answer E h1 (EvPathExists path) = Ok "" ->
   narrate E req final_summary h =
     (Raise (PyException "RuntimeError" "Audio generation failed"),
      h1 ++ [EvPathExists path])) /\
  (forall present audio,
      answer E h1 (EvPathExists path) = Ok present -> present <> "" ->
      answer E (h1 ++ [EvPathExists path]) (EvReadBytes path) = Ok audio ->
      narrate E req final_summary h =
        (Ok {| summary_text := final_summary;
               audio_content := b64encode E audio;
               metadata_topics := topics req;
               metadata_sources := source_type req;
               metadata_language := language req |},
         h1 ++ [EvPathExists path; EvReadBytes path])).
Proof.
  intros Haudio. rewrite (narrate_after_audio E req final_summary path h h1 Haudio).
  split.
  - intros Hmissing. now rewrite Hmissing.
  - intros present audio Hpresent Hne Hread. rewrite Hpresent.
    apply truthy_nonempty in Hne. now rewrite Hne, Hread.
Qed.

(** Every call succeeds: the response echoes the request. *)
Lemma narration_checks_the_file_witness :
  exists h',
    narrate (obliging_world "data")
      {| topics := ["x"]; source_type := "news"; language := "hi-IN" |} "namaste" [] =
    (Ok {| summary_text := "namaste";
           audio_content := "data";
           metadata_topics := ["x"];
           metadata_sources := "news";
           metadata_language := "hi-IN" |}, h').
Proof.
  edestruct narration_checks_the_file
    with (E := obliging_world "data")
         (req := {| topics := ["x"]; source_type := "news"; language := "hi-IN" |})
         (final_summary := "namaste") (h := @nil event) as [_ Hok].
  - vm_compute. reflexivity.
  - eexists. apply (Hok "data" "data"); [reflexivity|discriminate|reflexivity].
Defined.

(** X17.  Whatever goes wrong in the handler, the caller sees an
    [HTTPException] with status 500 and never another exception; and a
    response, when there is one, carries the topics, the selection and the
    language of the request. *)
Theorem handler_outcomes (E : Env) (reddit_agent twitter_agent : Agent)
    (req : NewsRequest) (h h' : list event) (r : res JSONResponse) :
  generate_news_audio_with E reddit_agent twitter_agent req h = (r, h') ->
  match r with
  | Ok response =>
      metadata_topics response = topics req /\
      metadata_sources response = source_type req /\
      metadata_language response = language req /\
      exists audio, audio_content response = b64encode E audio
  | Raise e => exists detail, e = HTTPException 500 detail
  end.
Proof.
  unfold generate_news_audio_with, try_except.
  destruct (handle E reddit_agent twitter_agent req h) as [[response|e] h0] eqn:Hhandle.
  - intros [= <- <-].
    unfold handle, bind in Hhandle.
    destruct (collect_news E req h) as [[news|e1] h1]; [|discriminate].
    destruct (collect_reddit E reddit_agent req h1) as [[reddit|e2] h2]; [|discriminate].
    destruct (collect_twitter E twitter_agent req h2) as [[twitter|e3] h3]; [|discriminate].
    destruct (generate_broadcast_news E news reddit twitter (topics req) h3)
      as [[summary_en|e4] h4]; [|discriminate].
    destruct (translate_step E req summary_en h4) as [[final_summary|e5] h5]; [|discriminate].
    destruct (text_to_audio_murf E final_summary (get_voice_for_language (language req))
                (language req) "audio" h5) as [[path|e6] h6] eqn:Haudio.
    + rewrite (narrate_after_audio E req final_summary path h5 h6 Haudio) in Hhandle.
      destruct (answer E h6 (EvPathExists path)) as [present|e7]; [|discriminate].
      destruct (Py.truthy present); [|discriminate].
      destruct (answer E _ (EvReadBytes path)) as [audio|e8]; [|discriminate].
      injection Hhandle as <- _. simpl. eauto.
    + unfold narrate, bind in Hhandle. rewrite Haudio in Hhandle. discriminate.
  - intros [= <- <-]. eauto.
Qed.

(** Nothing answers: the request fails with status 500. *)
Lemma handler_outcomes_witness :
  exists detail h',
    generate_news_audio silent_world
      {| topics := ["x"]; source_type := "all"; language := "en-US" |} [] =
    (Raise (HTTPException 500 detail), h').
Proof.
  destruct (generate_news_audio silent_world
              {| topics := ["x"]; source_type := "all"; language := "en-US" |} [])
    as [r h'] eqn:Hrun.
  pose proof (handler_outcomes silent_world (GeminiAgent silent_world)
                (TwitterAgent silent_world) _ _ _ _ Hrun) as Hout.
  vm_compute in Hrun. injection Hrun as <- <-.
  destruct Hout as (detail & Hdetail). injection Hdetail as <-.
  eexists _, _. reflexivity.
Defined.

(** ** The translated script *)

(** X18.  A translation comes back stripped: for a target language that
    is not English and a model call that succeeds, the script returned by
    [translate_for_language] is the answer of the model without the
    whitespace around it, Unicode whitespace included: it neither begins nor
    ends with a whitespace character, it is empty exactly when the model
    answered with whitespace only, and stripping it again changes nothing. *)
Theorem translation_is_stripped (E : Env) (text target_lang out : string)
    (h h' : list event) :
  Py.startswith target_lang "en" = false ->
  translate_for_language E text target_lang h = (Ok out, h') ->
  Py.strip out = out /\
  (exists translated,
      answer E h (EvGenerateContent (translation_prompt text target_lang) None)
        = Ok translated /\
      out = Py.strip translated /\
      (out = "" <-> blank translated) /\
      exists before after,
        chars translated = before ++ chars out ++ after /\
        tokens_only Py.whitespace before /\ tokens_only Py.whitespace after) /\
  ~ space_first out /\ ~ space_last out.
Proof.
  intros Hlang Hrun.
  rewrite (translate_for_language_call E text target_lang h Hlang) in Hrun.
  cbv zeta in Hrun.
  destruct (answer E h _) as [translated|e]; [|discriminate].
  injection Hrun as <- _.
  destruct (strip_spec translated) as (Hparts & Hfirst & Hlast).
  split; [apply strip_idempotent|]. split; [|auto].
  exists translated. repeat split; try reflexivity; try apply strip_empty_iff.
  exact Hparts.
Qed.

(** The model pads its answer with blanks. *)
Lemma translation_is_stripped_witness :
  Py.strip "namaste" = "namaste" /\
  (exists translated,
      answer (obliging_world "  namaste  ") []
        (EvGenerateContent (translation_prompt "hello" "hi-IN") None) = Ok translated /\
      "namaste" = Py.strip translated) /\
  ~ space_first "namaste" /\ ~ space_last "namaste".
Proof.
  destruct (translation_is_stripped (obliging_world "  namaste  ") "hello" "hi-IN" "namaste"
              [] [EvGenerateContent (translation_prompt "hello" "hi-IN") None]
              eq_refl eq_refl) as (Hstrip & (translated & Hanswer & Hout & _) & Hends).
  split; [exact Hstrip|]. split; [|exact Hends]. exists translated. auto.
Defined.

(** ** The voice table, completely *)

(** X19.  [get_voice_for_language] returns the default voice
    "en-US-natalie" if and only if the code is not a key of the table; for
    a key it returns the voice the table holds, which is never the
    default. *)
Theorem default_voice_iff_no_key (lang_code : string) :
  (get_voice_for_language lang_code = "en-US-natalie" <-> lang_code ∉ voice_keys) /\
  (lang_code ∈ voice_keys ->
     VOICE_BY_LANG !! lang_code = Some (get_voice_for_language lang_code)).
Proof.
  assert (lang_code ∈ voice_keys ->
          VOICE_BY_LANG !! lang_code = Some (get_voice_for_language lang_code) /\
          get_voice_for_language lang_code <> "en-US-natalie") as Hkey.
  { unfold voice_keys. intros Hin.
    repeat (apply elem_of_cons in Hin as [->|Hin]; [split; [reflexivity|discriminate]|]).
    now apply elem_of_nil in Hin. }
  split; [split|].
  - intros Hdefault Hin. now apply (proj2 (Hkey Hin)).
  - apply voice_table_miss.
  - intros Hin. apply (proj1 (Hkey Hin)).
Qed.

(** ** Back-off waits *)

(** X20.  The wait tenacity takes between two attempts stays between the
    [min] and the [max] of the decorator and never decreases from one
    attempt to the next: between 15 and 60 seconds for [process_topic] and
    [process_twitter_topic], between 2 and 10 seconds for [scrape_news]. *)
Theorem backoff_is_bounded_and_monotone (c : RetryConfig) (n m : nat) :
  (0 <= wait_min c <= wait_max c)%Z ->
  (0 <= wait_multiplier c)%Z ->
  (wait_min c <= wait_exponential c n <= wait_max c)%Z /\
  (n <= m -> (wait_exponential c n <= wait_exponential c m)%Z).
Proof.
  intros Hbounds Hmult. unfold wait_exponential. split; [lia|].
  intros Hle.
  assert (2 ^ (Z.of_nat n - 1) <= 2 ^ (Z.of_nat m - 1))%Z as Hpow
    by (apply Z.pow_le_mono_r; lia).
  assert (wait_multiplier c * 2 ^ (Z.of_nat n - 1)
          <= wait_multiplier c * 2 ^ (Z.of_nat m - 1))%Z by nia.
  lia.
Qed.

(** The two decorators of the code. *)
Lemma backoff_is_bounded_and_monotone_witness :
  (15 <= wait_exponential mcp_retry 4 <= 60)%Z /\
  (2 <= wait_exponential news_retry 4 <= 10)%Z /\
  (wait_exponential mcp_retry 2 <= wait_exponential mcp_retry 6)%Z.
Proof.
  destruct (backoff_is_bounded_and_monotone mcp_retry 4 4) as [Hmcp _];
    [simpl; lia|simpl; lia|].
  destruct (backoff_is_bounded_and_monotone news_retry 4 4) as [Hnews _];
    [simpl; lia|simpl; lia|].
  destruct (backoff_is_bounded_and_monotone mcp_retry 2 6) as [_ Hmono];
    [simpl; lia|simpl; lia|].
  split; [exact Hmcp|]. split; [exact Hnews|]. apply Hmono. lia.
Defined.

(** ** The topics the interface sends *)

Lemma ui_step_invariant (session_topics : list string) (a : ui_action) :
  length session_topics <= 3 ->
  Forall (fun t => t <> "" /\ Py.strip t = t /\ ~ space_first t /\ ~ space_last t) session_topics ->
  length (ui_step session_topics a) <= 3 /\
  Forall (fun t => t <> "" /\ Py.strip t = t /\ ~ space_first t /\ ~ space_last t) (ui_step session_topics a).
Proof.
  intros Hlen Hall. destruct a as [new_topic|i]; unfold ui_step; cbv zeta.
  - destruct (3 <=? length session_topics) eqn:Hfull; [now split|].
    apply Nat.leb_gt in Hfull.
    destruct (Py.truthy (Py.strip new_topic)) eqn:Htruthy; [|now split].
    split; [rewrite length_app; simpl; lia|].
    apply Forall_app. split; [exact Hall|].
    constructor; [|constructor].
    split; [now apply truthy_nonempty|].
    split; [apply strip_idempotent|apply stripped_ends, strip_idempotent].
  - destruct (i <? length (take 3 session_topics)); [|now split].
    rewrite delete_take_drop. split.
    + rewrite length_app, length_take, length_drop. lia.
    + apply Forall_app. split; [now apply Forall_take|now apply Forall_drop].
Qed.

(** X21.  Whatever the user clicks, the interface holds at most three
    topics, each of them non-empty and without whitespace at either end
    (Unicode whitespace included); the
    request it sends, which it sends only when there is a topic, carries
    between one and three such topics, and each selection it offers runs at
    least one collector.  Nothing removes a repeated topic. *)
Theorem interface_topics (clicks : list ui_action) :
  length (ui_topics clicks) <= 3 /\
  Forall (fun t => t <> "" /\ Py.strip t = t /\ ~ space_first t /\ ~ space_last t) (ui_topics clicks) /\
  (forall source lang_code req,
      ui_request (ui_topics clicks) source lang_code = Some req ->
      1 <= length (topics req) <= 3 /\
      Forall (fun t => t <> "" /\ Py.strip t = t /\ ~ space_first t /\ ~ space_last t) (topics req) /\
      (source ∈ SOURCE_OPTIONS ->
       wants_news req || wants_reddit req || wants_twitter req = true)) /\
  (forall topic,
      Py.truthy (Py.strip topic) = true ->
      ui_topics [ClickAdd topic; ClickAdd topic] = [Py.strip topic; Py.strip topic]).
Proof.
  assert (forall start,
            length start <= 3 ->
            Forall (fun t => t <> "" /\ Py.strip t = t /\ ~ space_first t /\ ~ space_last t) start ->
            length (fold_left ui_step clicks start) <= 3 /\
            Forall (fun t => t <> "" /\ Py.strip t = t /\ ~ space_first t /\ ~ space_last t) (fold_left ui_step clicks start))
    as Hinv.
  { induction clicks as [|a rest IH]; intros start Hlen Hall; simpl; [now split|].
    destruct (ui_step_invariant start a Hlen Hall) as [Hlen' Hall']. now apply IH. }
  destruct (Hinv [] (Nat.le_0_l 3) (Forall_nil_2 _)) as [Hlen Hall].
  split; [exact Hlen|]. split; [exact Hall|]. split.
  - intros source lang_code req Hreq. unfold ui_request in Hreq.
    fold (ui_topics clicks) in Hlen, Hall.
    destruct (ui_topics clicks) as [|t ts] eqn:Htopics; [discriminate|].
    injection Hreq as <-. simpl. split; [simpl in Hlen; lia|]. split; [exact Hall|].
    intros Hsource. unfold SOURCE_OPTIONS in Hsource.
    repeat (apply elem_of_cons in Hsource as [->|Hsource]; [reflexivity|]).
    now apply elem_of_nil in Hsource.
  - intros topic Htruthy. unfold ui_topics. cbn [fold_left].
    change (ui_step [] (ClickAdd topic))
      with (if Py.truthy (Py.strip topic) then [] ++ [Py.strip topic] else []).
    rewrite Htruthy.
    change (ui_step ([] ++ [Py.strip topic]) (ClickAdd topic))
      with (if Py.truthy (Py.strip topic)
            then ([] ++ [Py.strip topic]) ++ [Py.strip topic]
            else [] ++ [Py.strip topic]).
    now rewrite Htruthy.
Qed.

(** Five clicks: the fourth topic is refused, the second is removed. *)
Lemma interface_topics_witness :
  ui_topics [ClickAdd " ai "; ClickAdd "go"; ClickAdd "  "; ClickAdd "rust";
             ClickAdd "zig"; ClickRemove 1] = ["ai"; "rust"] /\
  ui_topics [ClickAdd "ai"; ClickAdd "ai"] = [Py.strip "ai"; Py.strip "ai"].
Proof.
  split; [reflexivity|].
  destruct (interface_topics []) as (_ & _ & _ & Hrepeat).
  apply Hrepeat. reflexivity.
Defined.

(** ** Failures of the News helpers *)

(** X22.  [scrape_with_brightdata] turns a [RequestException] into an
    [HTTPException] with status 500 and the detail "BrightData error: ..."
    and lets any other failure through; [summarize_with_gemini_news_script]
    turns every failure into status 500 with "Gemini error: ...".  Hence a
    failure that leaves the processing of one News topic is either the
    failure of the direct request or a status 500 from the summariser,
    never a failure of BrightData. *)
Theorem news_helpers_failures (E : Env) (topic url headlines : string) (h : list event) :
  (forall msg,
      answer E h (EvBrightData url) = Raise (RequestException msg) ->
      scrape_with_brightdata E url h =
        (Raise (HTTPException 500 ("BrightData error: " +:+ msg)), h ++ [EvBrightData url])) /\
  (forall e,
      answer E h (EvBrightData url) = Raise e ->
      (forall msg, e <> RequestException msg) ->
      scrape_with_brightdata E url h = (Raise e, h ++ [EvBrightData url])) /\
  (forall e,
      answer E h (EvGenerateContent (news_script_prompt headlines) (Some news_script_config))
        = Raise e ->
      summarize_with_gemini_news_script E headlines h =
        (Raise (HTTPException 500 ("Gemini error: " +:+ exn_str e)),
         h ++ [EvGenerateContent (news_script_prompt headlines) (Some news_script_config)])) /\
  (forall e h',
      news_topic E topic h = (Raise e, h') ->
      (exists h0, answer E h0 (EvRequestsGet (generate_valid_news_url E topic)) = Raise e) \/
      (exists cause, e = HTTPException 500 ("Gemini error: " +:+ exn_str cause))).
Proof.
  split; [|split; [|split]].
  - intros msg Hfail. unfold scrape_with_brightdata, try_except, call. now rewrite Hfail.
  - intros e Hfail Hother. unfold scrape_with_brightdata, try_except, call. rewrite Hfail.
    destruct e; try reflexivity. now destruct (Hother msg).
  - intros e Hfail. unfold summarize_with_gemini_news_script, try_except, call.
    now rewrite Hfail.
  - intros e h'. unfold news_topic, getitem. rewrite news_url_of_topic.
    unfold bind at 1. unfold ret at 1. unfold bind.
    destruct (fetch_search_html E (generate_valid_news_url E topic) h)
      as [[html|e1] h1] eqn:Hfetch.
    + unfold summarize_with_gemini_news_script, try_except, call.
      destruct (answer E h1 _) as [summary|cause]; [discriminate|].
      intros [= <- _]. right. now exists cause.
    + intros [= <- _]. left.
      unfold fetch_search_html, scrape_with_brightdata, try_except, call in Hfetch.
      destruct (answer E h (EvBrightData _)) as [html|e0]; [discriminate|].
      assert (exists h0, answer E h0 (EvRequestsGet (generate_valid_news_url E topic))
                         = Raise e1) as Hget.
      { destruct e0; unfold raise in Hfetch;
          (destruct (answer E _ (EvRequestsGet _)) eqn:Hanswer;
           [discriminate|injection Hfetch as <- _; eauto]). }
      exact Hget.
Qed.

(** BrightData times out, the direct request is refused: the failure that
    leaves is the refusal. *)
Lemma news_helpers_failures_witness :
  scrape_with_brightdata (news_down_for "b")
    (generate_valid_news_url (news_down_for "b") "b") [] =
    (Raise (HTTPException 500 "BrightData error: timed out"),
     [] ++ [EvBrightData "https://news.google.com/search?q=b&tbs=sbd:1"]).
Proof.
  destruct (news_helpers_failures (news_down_for "b") "b"
              (generate_valid_news_url (news_down_for "b") "b") "" []) as [Hwrap _].
  apply (Hwrap "timed out"). reflexivity.
Defined.

(** ** A page without text *)

(** X23.  A page whose text is blank (whitespace only, Unicode
    whitespace included, after the markup is removed) is cleaned to the
    empty string and yields no headline, so the News collector asks the
    model for a script of the stand-in "Latest news about <topic>", as it
    does for an empty page. *)
Theorem blank_page_takes_stand_in (E : Env) (topic html : string) (h h1 : list event) :
  blank (soup_get_text E html) ->
  fetch_search_html E (generate_valid_news_url E topic) h = (Ok html, h1) ->
  let ask :=
    EvGenerateContent
      (news_script_system_prompt +:+ Py.nl +:+ Py.nl +:+ "Latest news about " +:+ topic)
      (Some {| temperature := "0.4"; max_output_tokens := 1000 |}) in
  clean_html_to_text E html = "" /\
  no_headlines (extract_headlines (clean_html_to_text E html)) = true /\
  news_topic E topic h =
    (match answer E h1 ask with
     | Ok summary => Ok summary
     | Raise e => Raise (HTTPException 500 ("Gemini error: " +:+ exn_str e))
     end, h1 ++ [ask]).
Proof.
  intros Hblank Hfetch ask.
  assert (clean_html_to_text E html = "") as Hclean.
  { unfold clean_html_to_text. now apply strip_empty_iff. }
  split; [exact Hclean|]. split; [now rewrite Hclean|].
  rewrite (news_topic_unfold E topic h h1 html Hfetch). simpl.
  rewrite Hclean.
  unfold summarize_with_gemini_news_script, try_except, call. simpl.
  unfold news_fallback_headline, news_script_prompt, news_script_config. fold ask.
  now destruct (answer E h1 ask).
Qed.

(** A page of Unicode blanks and a newline. *)
Lemma blank_page_takes_stand_in_witness :
  news_topic (obliging_world blank_page) "x" [] =
    (Ok blank_page,
     [EvBrightData "https://news.google.com/search?q=x&tbs=sbd:1";
      EvGenerateContent
        (news_script_system_prompt +:+ Py.nl +:+ Py.nl +:+ "Latest news about x")
        (Some {| temperature := "0.4"; max_output_tokens := 1000 |})]).
Proof.
  assert (blank (soup_get_text (obliging_world blank_page) blank_page)) as Hblank
    by (apply strip_empty_iff; reflexivity).
  destruct (blank_page_takes_stand_in (obliging_world blank_page) "x" blank_page [] _
              Hblank eq_refl) as (_ & _ & Hrun).
  exact Hrun.
Defined.

(** ** The helpers on Ollama and gTTS *)



(** ** Further examples *)

(** A page with two blocks, the second headline between a no-break space
    and an ideographic space: both headlines are lines of the page. *)
Lemma headlines_are_page_lines_witness :
  let padded :=
    String.string_of_list_ascii (Py.bytes_of [194; 160]) +:+ "Second" +:+
    String.string_of_list_ascii (Py.bytes_of [227; 128; 128]) in
  "Second" ∈ headline_list (Py.text ["First"; "source"; "More"; padded]) /\
  "Second" <> "" /\ "Second" <> "More" /\ Py.strip "Second" = "Second" /\
  ~ space_first "Second" /\ ~ space_last "Second" /\
  exists raw,
    raw ∈ Py.split "010"%char (Py.text ["First"; "source"; "More"; padded]) /\
    "Second" = Py.strip raw.
Proof.
  intros padded.
  assert ("Second" ∈ headline_list (Py.text ["First"; "source"; "More"; padded]))
    as Hin by (apply (bool_decide_unpack _); vm_compute; exact I).
  split; [exact Hin|].
  destruct (headlines_are_page_lines (Py.text ["First"; "source"; "More"; padded]))
    as (_ & _ & Hlines).
  apply (Hlines "Second" Hin).
Defined.

(** The key "hi" has its own voice. *)
Lemma default_voice_iff_no_key_witness :
  VOICE_BY_LANG !! "hi" = Some (get_voice_for_language "hi") /\
  get_voice_for_language "hi-IN" = "en-US-natalie".
Proof.
  destruct (default_voice_iff_no_key "hi") as [_ Hkey].
  destruct (default_voice_iff_no_key "hi-IN") as [[_ Hmiss] _].
  split; [apply Hkey|apply Hmiss]; apply (bool_decide_unpack _); vm_compute; exact I.
Defined.
